(** * Codebase-Genius: the analysis core of [doc_genie/analyzer.py]

    A shallow embedding of the path filter, the per-file code analyzer, the
    manifest parsers and the technology detector of [analyzer.py], with the
    properties stated about them.

    Conventions of the embedding.
    - A Python [str] is a [string]: a sequence of 8-bit characters, read as
      the code points U+0000 to U+00FF.  [str.strip], [str.lower] and the
      regular-expression classes follow CPython on that range.
    - A Python [int] is a [Z] (sizes) or a [nat] (lengths and counts).
    - The complexity score is a Python [float]: an IEEE 754 binary64
      number, with the products, sums and conversions of the library's
      specification of that arithmetic ([PyFloat]).
    - A confidence of the technology detector is the exact rational
      ([Qc]) that its decimal literal reads; what is stated about
      confidences uses their order, [min] and [max] only.
    - Code that can raise returns a [result]; [Raise] carries the kind of
      the exception. *)

From Stdlib Require Import Bool Arith ZArith Lia List Ascii String.
From Stdlib Require Import QArith Qcanon Lqa Permutation.
From Stdlib Require Import Qpower Floats.SpecFloat.
Import ListNotations.

Set Warnings "-register-all".

Local Open Scope string_scope.
Local Open Scope bool_scope.
Local Open Scope nat_scope.

(* ================================================================== *)
(** * Python strings *)
(* ================================================================== *)

Module PyStr.

(** [str.isspace] on one character (code points below 256). *)
Definition isspace (c : ascii) : bool :=
  let n := nat_of_ascii c in
  ((9 <=? n) && (n <=? 13)) || ((28 <=? n) && (n <=? 32))
  || (n =? 133) || (n =? 160).

(** [str.lower] on one character (code points below 256). *)
Definition lower_char (c : ascii) : ascii :=
  let n := nat_of_ascii c in
  if ((65 <=? n) && (n <=? 90))
     || ((192 <=? n) && (n <=? 222) && negb (n =? 215))
  then ascii_of_nat (n + 32) else c.

Fixpoint lower (s : string) : string :=
  match s with
  | "" => ""
  | String c r => String (lower_char c) (lower r)
  end.

Definition is_empty (s : string) : bool :=
  match s with "" => true | _ => false end.

(** [s.startswith(p)] *)
Fixpoint startswith (s p : string) : bool :=
  match p, s with
  | "", _ => true
  | String _ _, "" => false
  | String a p', String b s' => Ascii.eqb a b && startswith s' p'
  end.

(** [s.endswith(p)] *)
Fixpoint endswith (s p : string) : bool :=
  match s with
  | "" => is_empty p
  | String _ r => String.eqb s p || endswith r p
  end.

(** [p in s] for strings. *)
Fixpoint contains (s p : string) : bool :=
  match s with
  | "" => is_empty p
  | String _ r => startswith s p || contains r p
  end.

(** Membership of a character in the argument of [strip(chars)]. *)
Fixpoint mem_char (c : ascii) (chars : string) : bool :=
  match chars with
  | "" => false
  | String d r => Ascii.eqb c d || mem_char c r
  end.

Fixpoint lstrip_by (p : ascii -> bool) (s : string) : string :=
  match s with
  | "" => ""
  | String c r => if p c then lstrip_by p r else s
  end.

Fixpoint rstrip_by (p : ascii -> bool) (s : string) : string :=
  match s with
  | "" => ""
  | String c r =>
      let r' := rstrip_by p r in
      if is_empty r' && p c then "" else String c r'
  end.

(** [s.lstrip(chars)], [s.rstrip(chars)] and [s.strip()] *)
Definition lstrip (s chars : string) : string :=
  lstrip_by (fun c => mem_char c chars) s.
Definition rstrip (s chars : string) : string :=
  rstrip_by (fun c => mem_char c chars) s.
Definition strip (s : string) : string :=
  lstrip_by isspace (rstrip_by isspace s).

(** Splitting at every character that satisfies [p]; the result always has
    at least one field. *)
Fixpoint split_by (p : ascii -> bool) (s : string) : list string :=
  match s with
  | "" => [""]
  | String c r =>
      if p c then "" :: split_by p r
      else match split_by p r with
           | h :: t => String c h :: t
           | [] => [String c ""]
           end
  end.

(** [s.split(sep)] for a one-character separator. *)
Definition split_char (sep : ascii) (s : string) : list string :=
  split_by (fun c => Ascii.eqb c sep) s.

(** [s.split()]: fields between runs of whitespace, none of them empty. *)
Fixpoint split_ws_go (s : string) : string * list string :=
  match s with
  | "" => ("", [])
  | String c r =>
      let (w, ws) := split_ws_go r in
      if isspace c then ("", if is_empty w then ws else w :: ws)
      else (String c w, ws)
  end.

Definition split_ws (s : string) : list string :=
  let (w, ws) := split_ws_go s in
  if is_empty w then ws else w :: ws.

(** [s.count(kw)]: non-overlapping occurrences, scanning from the left.
    [skip] is the number of characters still covered by the occurrence
    just counted. *)
Fixpoint count_from (kw : string) (skip : nat) (s : string) : nat :=
  match s with
  | "" => 0
  | String _ r =>
      match skip with
      | S k => count_from kw k r
      | O => if startswith s kw
             then S (count_from kw (String.length kw - 1) r)
             else count_from kw 0 r
      end
  end.

Definition count (s kw : string) : nat :=
  if is_empty kw then S (String.length s) else count_from kw 0 s.

(** [s.replace(old, new)]: every non-overlapping occurrence, from the left. *)
Fixpoint replace_from (old new : string) (skip : nat) (s : string) : string :=
  match s with
  | "" => ""
  | String c r =>
      match skip with
      | S k => replace_from old new k r
      | O => if startswith s old
             then new ++ replace_from old new (String.length old - 1) r
             else String c (replace_from old new 0 r)
      end
  end.

Fixpoint interleave (new s : string) : string :=
  match s with
  | "" => new
  | String c r => new ++ String c (interleave new r)
  end.

Definition replace (s old new : string) : string :=
  if is_empty old then interleave new s else replace_from old new 0 s.

(** [s[n:]] *)
Fixpoint drop (n : nat) (s : string) : string :=
  match n, s with
  | S k, String _ r => drop k r
  | _, _ => s
  end.

(** [s[:-1]] and [s[1:-1]] *)
Fixpoint drop_last (s : string) : string :=
  match s with
  | "" => ""
  | String c r => if is_empty r then "" else String c (drop_last r)
  end.

Definition slice_1_m1 (s : string) : string :=
  match s with
  | "" => ""
  | String _ r => drop_last r
  end.

(** The line feed and the double quote. *)
Definition LF : ascii := ascii_of_nat 10.
Definition DQ : ascii := ascii_of_nat 34.
Definition nl : string := String LF "".

End PyStr.

(* ================================================================== *)
(** * Exceptions *)
(* ================================================================== *)

Module Py.

Inductive exn : Type :=
| IndexError | KeyError | TypeError | AttributeError
| JSONDecodeError | SyntaxError | RecursionError
| OutsideModel.  (* not a Python exception: a decoded character from
                    U+0100 on, which this embedding cannot hold *)

Inductive result (A : Type) : Type :=
| Ok (a : A)
| Raise (e : exn).
Arguments Ok {A} a.
Arguments Raise {A} e.

Definition bind {A B : Type} (m : result A) (k : A -> result B) : result B :=
  match m with
  | Ok a => k a
  | Raise e => Raise e
  end.

Definition returns {A : Type} (m : result A) : Prop := exists a, m = Ok a.

(** [l[i]] for a list and a non-negative index. *)
Definition index {A : Type} (l : list A) (i : nat) : result A :=
  match nth_error l i with
  | Some a => Ok a
  | None => Raise IndexError
  end.

(** [l[-1]] *)
Fixpoint last_item {A : Type} (l : list A) : result A :=
  match l with
  | [] => Raise IndexError
  | [a] => Ok a
  | _ :: t => last_item t
  end.

End Py.

Notation "x <- m ;; k" := (Py.bind m (fun x => k))
  (at level 61, m at next level, right associativity).

(* ================================================================== *)
(** * The path filter of [GitHubCodebaseAnalyzer.analyze_repository] *)
(* ================================================================== *)

Module PathFilter.
Import PyStr.

(** One entry of the file tree returned by the GitHub API. *)
Record tree_item : Type := {
  path : string;
  type : string;
  size : Z
}.

Definition excluded_extensions : list string :=
  [".png"; ".jpg"; ".jpeg"; ".gif"; ".ico"; ".svg";
   ".pdf"; ".zip"; ".tar"; ".gz"; ".exe"; ".bin"].

Definition mem (s : string) (l : list string) : bool :=
  existsb (String.eqb s) l.

(** [file_path.split('/')[-1]]; [split] never returns an empty list. *)
Definition file_name_of (file_path : string) : string :=
  match Py.last_item (split_char "/" file_path) with
  | Py.Ok n => n
  | Py.Raise _ => ""
  end.

(** [pathlib.PurePath.suffix] of a one-component path: the text from the
    last dot on, unless that dot is the first or the last character. *)
Fixpoint from_last_dot (s : string) : option string :=
  match s with
  | "" => None
  | String c r =>
      match from_last_dot r with
      | Some t => Some t
      | None => if Ascii.eqb c "." then Some s else None
      end
  end.

Definition suffix (name : string) : string :=
  match name with
  | "" => ""
  | String _ r =>
      match from_last_dot r with
      | Some t => if String.length t =? 1 then "" else t
      | None => ""
      end
  end.

(** [Path(file_name).suffix.lower()] *)
Definition extension_of (file_name : string) : string :=
  lower (suffix file_name).

(** One turn of the loop over [ignore_patterns]: the three tests of the
    [if]/[elif] chain, each of which sets [ignored] and breaks. *)
Definition pattern_hits (pattern file_path file_name : string) : bool :=
  (endswith pattern "/" && startswith file_path (rstrip pattern "/"))
  || (startswith pattern "*." && endswith file_name (lstrip pattern "*"))
  || (String.eqb pattern file_name || String.eqb pattern file_path).

(** The value of [ignored] when the loop ends. *)
Fixpoint ignored (ignore_patterns : list string)
    (file_path file_name : string) : bool :=
  match ignore_patterns with
  | [] => false
  | pattern :: rest =>
      if pattern_hits pattern file_path file_name then true
      else ignored rest file_path file_name
  end.

Definition max_size : Z := 100000.

(** The condition under which a blob is appended to [files_to_analyze]:
    [not ignored and item["size"] < 100000 and
     extension not in excluded_extensions]. *)
Definition keeps (ignore_patterns : list string) (item : tree_item) : bool :=
  let file_path := path item in
  let file_name := file_name_of file_path in
  let extension := extension_of file_name in
  negb (ignored ignore_patterns file_path file_name)
  && (size item <? max_size)%Z
  && negb (mem extension excluded_extensions).

Definition is_blob (item : tree_item) : bool := String.eqb (type item) "blob".

Definition files_to_analyze (ignore_patterns : list string)
    (file_tree : list tree_item) : list tree_item :=
  filter (fun item => is_blob item && keeps ignore_patterns item) file_tree.

(** ** The same code with the tests it evaluates written down

    Python evaluates the loop over the patterns first, then the operands
    of [and] from the left, stopping at the first false one. *)
Inductive check : Type :=
| CheckPattern (pattern : string)
| CheckSize
| CheckExtension.

Fixpoint scan_patterns (ignore_patterns : list string)
    (file_path file_name : string) : bool * list check :=
  match ignore_patterns with
  | [] => (false, [])
  | pattern :: rest =>
      if pattern_hits pattern file_path file_name
      then (true, [CheckPattern pattern])
      else let (b, log) := scan_patterns rest file_path file_name in
           (b, CheckPattern pattern :: log)
  end.

Definition keeps_logged (ignore_patterns : list string) (item : tree_item)
  : bool * list check :=
  let file_path := path item in
  let file_name := file_name_of file_path in
  let extension := extension_of file_name in
  let (ign, log) := scan_patterns ignore_patterns file_path file_name in
  if ign then (false, log)
  else if (size item <? max_size)%Z
       then (negb (mem extension excluded_extensions),
             (log ++ [CheckSize; CheckExtension])%list)
       else (false, (log ++ [CheckSize])%list).

Definition consults_pattern (c : check) : bool :=
  match c with CheckPattern _ => true | _ => false end.

(** [files_to_analyze[:max_files]] *)
Definition max_files : nat := 50.
Definition capped (l : list tree_item) : list tree_item := firstn max_files l.

End PathFilter.

(* ================================================================== *)
(** * Python floats *)
(* ================================================================== *)

Module PyFloat.

(** A Python [float] is an IEEE 754 binary64 number: 53 digits, the
    exponent of the infinities being 1024.  The operations are those of
    the specification of IEEE arithmetic of the library: the exact result,
    rounded to the nearest float, ties to the even mantissa. *)
Definition float : Type := spec_float.

Definition prec : Z := 53.
Definition emax : Z := 1024.

(** [x * y] and [x + y] *)
Definition mul : float -> float -> float := SFmul prec emax.
Definition add : float -> float -> float := SFadd prec emax.

(** The float that an [int] which is not negative becomes when it meets a
    float in a product: the nearest one.  A length is below [2 ^ 63], so
    the conversion never overflows. *)
Definition of_nat (n : nat) : float :=
  binary_normalize prec emax (Z.of_nat n) 0 false.

(** The float nearest to the quotient of two integers, which is how a
    decimal number is read: [num] over a power of ten. *)
Definition nearest (num : Z) (den : positive) : float :=
  match num with
  | Z0 => S754_zero false
  | Zpos m =>
      SFdiv prec emax (S754_finite false m 0) (S754_finite false den 0)
  | Zneg m =>
      SFdiv prec emax (S754_finite true m 0) (S754_finite false den 0)
  end.

(** The number that a finite float stands for. *)
Definition value (x : float) : Q :=
  match x with
  | S754_finite s m e => inject_Z (cond_Zopp s (Zpos m)) * 2 ^ e
  | _ => 0
  end.

(** The integer nearest to [q], ties to the even one. *)
Definition round_half_even (q : Q) : Z :=
  let n := Qnum q in
  let d := Zpos (Qden q) in
  let f := (n / d)%Z in
  match (2 * (n mod d) ?= d)%Z with
  | Lt => f
  | Gt => (f + 1)%Z
  | Eq => if Z.even f then f else (f + 1)%Z
  end.

(** [round(x, 2)]: the exact value of the float is rounded to a whole
    number of hundredths, ties to the even one, and the decimal number
    obtained is read back as a float.  A zero, an infinity and a
    not-a-number are returned as they are. *)
Definition round2 (x : float) : float :=
  match x with
  | S754_finite s _ _ =>
      match round_half_even (value x * inject_Z 100) with
      | Z0 => S754_zero s
      | hundredths => nearest hundredths 100
      end
  | _ => x
  end.

(** The literals [0.1] and [0.5]. *)
Definition f0_1 : float := nearest 1 10.
Definition f0_5 : float := nearest 1 2.

End PyFloat.

(* ================================================================== *)
(** * [File] and [CodeAnalyzer] *)
(* ================================================================== *)

Module CodeAnalyzer.
Import PyStr.

Record File : Type := {
  path : string;
  name : string;
  extension : string;
  size : Z;
  content : string;
  language : string;
  line_count : nat;
  function_count : nat;
  class_count : nat;
  complexity_score : PyFloat.float
}.

Definition extension_map : list (string * string) :=
  [("py", "Python"); ("js", "JavaScript"); ("ts", "TypeScript");
   ("java", "Java"); ("cpp", "C++"); ("c", "C"); ("go", "Go");
   ("rs", "Rust"); ("rb", "Ruby"); ("php", "PHP"); ("cs", "C#");
   ("swift", "Swift"); ("kt", "Kotlin"); ("html", "HTML"); ("css", "CSS");
   ("json", "JSON"); ("yaml", "YAML"); ("yml", "YAML")].

Fixpoint dict_get (d : list (string * string)) (k default : string) : string :=
  match d with
  | [] => default
  | (k', v) :: r => if String.eqb k k' then v else dict_get r k default
  end.

Definition _detect_language (extension : string) : string :=
  dict_get extension_map (lower extension) "Unknown".

(** [File.__init__] *)
Definition new_File (path name extension : string) (size : Z)
    (content : string) : File :=
  {| path := path; name := name; extension := extension; size := size;
     content := content; language := _detect_language extension;
     line_count := 0; function_count := 0; class_count := 0;
     complexity_score := S754_zero false |}.

Definition set_counts (f : File) (functions classes : nat) : File :=
  {| path := path f; name := name f; extension := extension f;
     size := size f; content := content f; language := language f;
     line_count := line_count f;
     function_count := functions; class_count := classes;
     complexity_score := complexity_score f |}.

(** ** A tree of [ast] nodes

    What [_analyze_python_code] looks at is the class of each node and the
    nodes below it.  [def] parses to [ast.FunctionDef], [async def] to
    [ast.AsyncFunctionDef] (a class of its own, not a subclass of
    [FunctionDef]), [class] to [ast.ClassDef], [lambda] to [ast.Lambda]. *)
Inductive node_class : Type :=
| Module_ | FunctionDef | AsyncFunctionDef | ClassDef | Lambda | OtherNode.

Inductive node : Type :=
| Node (cls : node_class) (children : list node).

Definition cls_of (n : node) : node_class := let (c, _) := n in c.
Definition iter_child_nodes (n : node) : list node := let (_, l) := n in l.

Fixpoint node_size (n : node) : nat :=
  match n with
  | Node _ l => S (fold_right (fun c acc => node_size c + acc) 0 l)
  end.

Definition queue_size (todo : list node) : nat :=
  fold_right (fun c acc => node_size c + acc) 0 todo.

(** [ast.walk]: a queue of nodes still to visit; each turn pops the first,
    appends its children and yields it.  One unit of [fuel] per turn. *)
Fixpoint walk_queue (fuel : nat) (todo : list node) : list node :=
  match fuel, todo with
  | S fuel', n :: rest => n :: walk_queue fuel' (rest ++ iter_child_nodes n)
  | _, _ => []
  end.

Definition walk (tree : node) : list node :=
  walk_queue (node_size tree) [tree].

Definition isinstance (n : node) (c : node_class) : bool :=
  match cls_of n, c with
  | Module_, Module_ | FunctionDef, FunctionDef
  | AsyncFunctionDef, AsyncFunctionDef | ClassDef, ClassDef
  | Lambda, Lambda | OtherNode, OtherNode => true
  | _, _ => false
  end.

(** The loop over [ast.walk(tree)]: the pair [(functions, classes)]. *)
Fixpoint count_loop (nodes : list node) (functions classes : nat)
  : nat * nat :=
  match nodes with
  | [] => (functions, classes)
  | n :: rest =>
      if isinstance n FunctionDef then count_loop rest (functions + 1) classes
      else if isinstance n ClassDef then count_loop rest functions (classes + 1)
      else count_loop rest functions classes
  end.

(** [_analyze_python_code]; [ast_parse] is [ast.parse], which returns a
    tree or raises.  The [except Exception] clause prints a warning and
    leaves the file as it was. *)
Definition _analyze_python_code (ast_parse : string -> Py.result node)
    (file_obj : File) : Py.result File :=
  match ast_parse (content file_obj) with
  | Py.Ok tree =>
      let (functions, classes) := count_loop (walk tree) 0 0 in
      Py.Ok (set_counts file_obj functions classes)
  | Py.Raise _ => Py.Ok file_obj
  end.

(** [_analyze_generic_code] *)
Definition function_keywords : list string :=
  ["function"; "def"; "func"; "sub"; "procedure"; "method"].
Definition class_keywords : list string :=
  ["class"; "struct"; "interface"; "type"].

Definition sum_counts (text : string) (keywords : list string) : nat :=
  fold_right (fun kw acc => count text kw + acc) 0 keywords.

Definition _analyze_generic_code (file_obj : File) : File :=
  let text := lower (content file_obj) in
  set_counts file_obj (sum_counts text function_keywords)
                      (sum_counts text class_keywords).

(** [_calculate_complexity]: the products and the sums are those of
    floats, each rounded to the nearest float. *)
Definition control_structures : list string :=
  ["if"; "for"; "while"; "switch"; "case"; "try"; "catch"].

Definition _calculate_complexity (content : string) : PyFloat.float :=
  let lines := split_char LF content in
  let complexity :=
    PyFloat.mul (PyFloat.of_nat (List.length lines)) PyFloat.f0_1 in
  let complexity :=
    fold_left
      (fun acc structure =>
         PyFloat.add acc
           (PyFloat.mul (PyFloat.of_nat (count (lower content) structure))
                        PyFloat.f0_5))
      control_structures complexity in
  PyFloat.round2 complexity.

End CodeAnalyzer.

(* ================================================================== *)
(** * [json.loads] *)
(* ================================================================== *)

Module Json.
Import PyStr.

(** The Python values [json.loads] builds.  A number keeps its lexeme. *)
Inductive value : Type :=
| VNone
| VBool (b : bool)
| VNumber (lexeme : string)
| VStr (s : string)
| VList (items : list value)
| VDict (members : list (string * value)).

(** [dict(pairs)]: a later pair with the same key replaces the value and
    keeps the place of the first. *)
Fixpoint dict_set (d : list (string * value)) (k : string) (v : value)
  : list (string * value) :=
  match d with
  | [] => [(k, v)]
  | (k', v') :: r =>
      if String.eqb k k' then (k, v) :: r else (k', v') :: dict_set r k v
  end.

Definition dict_of_pairs (pairs : list (string * value))
  : list (string * value) :=
  fold_left (fun d kv => dict_set d (fst kv) (snd kv)) pairs [].

Fixpoint dict_find (d : list (string * value)) (k : string) : option value :=
  match d with
  | [] => None
  | (k', v) :: r => if String.eqb k k' then Some v else dict_find r k
  end.

Definition is_ws (c : ascii) : bool :=
  mem_char c (String " " (String (ascii_of_nat 9)
             (String (ascii_of_nat 10) (String (ascii_of_nat 13) "")))).

Definition skip_ws (s : string) : string := lstrip_by is_ws s.

Definition is_digit (c : ascii) : bool :=
  let n := nat_of_ascii c in (48 <=? n) && (n <=? 57).

Definition hex_digit (c : ascii) : option nat :=
  let n := nat_of_ascii c in
  if (48 <=? n) && (n <=? 57) then Some (n - 48)
  else if (97 <=? n) && (n <=? 102) then Some (n - 87)
  else if (65 <=? n) && (n <=? 70) then Some (n - 55)
  else None.

(** The longest prefix of digits, and what follows it. *)
Fixpoint digits (s : string) : string * string :=
  match s with
  | "" => ("", "")
  | String c r =>
      if is_digit c then let (d, t) := digits r in (String c d, t)
      else ("", s)
  end.

(** [NUMBER_RE] at the start of [s]: an optional minus sign and either 0 or
    a run of digits that does not start with 0; then, optionally, a dot and
    digits; then, optionally, e or E, a sign and digits.  The lexeme
    matched and the rest. *)
Definition number_int (s : string) : option (string * string) :=
  let (sign, s1) :=
    match s with
    | String "-" r => ("-", r)
    | _ => ("", s)
    end in
  match s1 with
  | String "0" r => Some (sign ++ "0", r)
  | String c _ =>
      if is_digit c then let (d, t) := digits s1 in Some (sign ++ d, t)
      else None
  | "" => None
  end.

Definition number_frac (s : string) : string * string :=
  match s with
  | String "." r =>
      let (d, t) := digits r in
      if is_empty d then ("", s) else (String "." d, t)
  | _ => ("", s)
  end.

Definition number_exp (s : string) : string * string :=
  match s with
  | String e r =>
      if Ascii.eqb e "e" || Ascii.eqb e "E" then
        let (sign, r1) :=
          match r with
          | String "+" r' => ("+", r')
          | String "-" r' => ("-", r')
          | _ => ("", r)
          end in
        let (d, t) := digits r1 in
        if is_empty d then ("", s) else (String e (sign ++ d), t)
      else ("", s)
  | "" => ("", s)
  end.

Definition match_number (s : string) : option (string * string) :=
  match number_int s with
  | None => None
  | Some (i, s1) =>
      let (f, s2) := number_frac s1 in
      let (e, s3) := number_exp s2 in
      Some (i ++ f ++ e, s3)
  end.

Definition BACKSLASH (esc : ascii) : option ascii :=
  if Ascii.eqb esc DQ then Some DQ
  else if Ascii.eqb esc "\" then Some "\"%char
  else if Ascii.eqb esc "/" then Some "/"%char
  else if Ascii.eqb esc "b" then Some (ascii_of_nat 8)
  else if Ascii.eqb esc "f" then Some (ascii_of_nat 12)
  else if Ascii.eqb esc "n" then Some (ascii_of_nat 10)
  else if Ascii.eqb esc "r" then Some (ascii_of_nat 13)
  else if Ascii.eqb esc "t" then Some (ascii_of_nat 9)
  else None.

(** [scanstring], from the character after the opening quote: the decoded
    text and what follows the closing quote.  Control characters are
    refused (the decoder is strict); a [\u] escape takes four hexadecimal
    digits. *)
Inductive scan_state : Type :=
| Plain
| Escape
| Hex (todo acc : nat).

Fixpoint scanstring_in (st : scan_state) (s : string)
  : Py.result (string * string) :=
  match s with
  | "" => Py.Raise Py.JSONDecodeError
  | String c r =>
      let keep ch st' :=
        match scanstring_in st' r with
        | Py.Ok (t, rest) => Py.Ok (String ch t, rest)
        | Py.Raise e => Py.Raise e
        end in
      match st with
      | Plain =>
          if Ascii.eqb c DQ then Py.Ok ("", r)
          else if Ascii.eqb c "\" then scanstring_in Escape r
          else if nat_of_ascii c <? 32 then Py.Raise Py.JSONDecodeError
          else keep c Plain
      | Escape =>
          if Ascii.eqb c "u" then scanstring_in (Hex 4 0) r
          else match BACKSLASH c with
               | Some ch => keep ch Plain
               | None => Py.Raise Py.JSONDecodeError
               end
      | Hex todo acc =>
          match hex_digit c with
          | None => Py.Raise Py.JSONDecodeError
          | Some d =>
              let acc' := acc * 16 + d in
              if todo <=? 1 then
                if acc' <? 256 then keep (ascii_of_nat acc') Plain
                else Py.Raise Py.OutsideModel
              else scanstring_in (Hex (todo - 1) acc') r
          end
      end
  end.

Definition scanstring (s : string) : Py.result (string * string) :=
  scanstring_in Plain s.

(** [scan_once] with [JSONObject] and [JSONArray].  Each call uses one unit
    of [fuel] and is made after at least one character was consumed, so
    [json_loads] below gives enough of it. *)
Fixpoint scan_once (fuel : nat) (s : string) {struct fuel}
  : Py.result (value * string) :=
  match fuel with
  | O => Py.Raise Py.RecursionError
  | S fuel' =>
      match s with
      | "" => Py.Raise Py.JSONDecodeError
      | String c r =>
          if Ascii.eqb c DQ then
            match scanstring r with
            | Py.Ok (t, rest) => Py.Ok (VStr t, rest)
            | Py.Raise e => Py.Raise e
            end
          else if Ascii.eqb c "{" then
            match skip_ws r with
            | String "}" rest => Py.Ok (VDict [], rest)
            | String q rest =>
                if Ascii.eqb q DQ then members fuel' rest []
                else Py.Raise Py.JSONDecodeError
            | "" => Py.Raise Py.JSONDecodeError
            end
          else if Ascii.eqb c "[" then
            match skip_ws r with
            | String "]" rest => Py.Ok (VList [], rest)
            | r1 => elements fuel' r1 []
            end
          else if startswith s "null" then Py.Ok (VNone, drop 4 s)
          else if startswith s "true" then Py.Ok (VBool true, drop 4 s)
          else if startswith s "false" then Py.Ok (VBool false, drop 5 s)
          else match match_number s with
               | Some (lexeme, rest) => Py.Ok (VNumber lexeme, rest)
               | None =>
                   if startswith s "NaN" then Py.Ok (VNumber "NaN", drop 3 s)
                   else if startswith s "Infinity"
                   then Py.Ok (VNumber "Infinity", drop 8 s)
                   else if startswith s "-Infinity"
                   then Py.Ok (VNumber "-Infinity", drop 9 s)
                   else Py.Raise Py.JSONDecodeError
               end
      end
  end

with members (fuel : nat) (s : string) (pairs : list (string * value))
    {struct fuel} : Py.result (value * string) :=
  match fuel with
  | O => Py.Raise Py.RecursionError
  | S fuel' =>
      match scanstring s with
      | Py.Raise e => Py.Raise e
      | Py.Ok (key, s1) =>
          match skip_ws s1 with
          | String ":" s2 =>
              match scan_once fuel' (skip_ws s2) with
              | Py.Raise e => Py.Raise e
              | Py.Ok (v, s3) =>
                  let pairs' := (pairs ++ [(key, v)])%list in
                  match skip_ws s3 with
                  | String "}" rest => Py.Ok (VDict (dict_of_pairs pairs'), rest)
                  | String "," rest =>
                      match skip_ws rest with
                      | String q rest' =>
                          if Ascii.eqb q DQ then members fuel' rest' pairs'
                          else Py.Raise Py.JSONDecodeError
                      | "" => Py.Raise Py.JSONDecodeError
                      end
                  | _ => Py.Raise Py.JSONDecodeError
                  end
              end
          | _ => Py.Raise Py.JSONDecodeError
          end
      end
  end

with elements (fuel : nat) (s : string) (values : list value)
    {struct fuel} : Py.result (value * string) :=
  match fuel with
  | O => Py.Raise Py.RecursionError
  | S fuel' =>
      match scan_once fuel' s with
      | Py.Raise e => Py.Raise e
      | Py.Ok (v, s1) =>
          let values' := (values ++ [v])%list in
          match skip_ws s1 with
          | String "]" rest => Py.Ok (VList values', rest)
          | String "," rest => elements fuel' (skip_ws rest) values'
          | _ => Py.Raise Py.JSONDecodeError
          end
      end
  end.

(** [json.loads] of a [str]: one value between optional white space, and
    nothing after it. *)
Definition json_loads (s : string) : Py.result value :=
  match scan_once (2 + String.length s) (skip_ws s) with
  | Py.Raise e => Py.Raise e
  | Py.Ok (v, rest) =>
      if is_empty (skip_ws rest) then Py.Ok v
      else Py.Raise Py.JSONDecodeError
  end.

End Json.

(* ================================================================== *)
(** * [DependencyAnalyzer] *)
(* ================================================================== *)

Module DependencyAnalyzer.
Import PyStr Json.

(** One dependency: the dict with the keys [name], [version], [type] and
    [is_dev]. *)
Record Dependency : Type := {
  name : string;
  version : value;
  type : string;
  is_dev : bool
}.

Definition mem (s : string) (l : list string) : bool :=
  existsb (String.eqb s) l.

(** [key in data] *)
Definition py_in (key : string) (data : value) : Py.result bool :=
  match data with
  | VDict d => Py.Ok (match dict_find d key with Some _ => true | None => false end)
  | VList l =>
      Py.Ok (existsb (fun v => match v with
                               | VStr s => String.eqb s key
                               | _ => false
                               end) l)
  | VStr s => Py.Ok (contains s key)
  | VNone | VBool _ | VNumber _ => Py.Raise Py.TypeError
  end.

(** [data[key]] for a [str] key *)
Definition getitem (data : value) (key : string) : Py.result value :=
  match data with
  | VDict d =>
      match dict_find d key with
      | Some v => Py.Ok v
      | None => Py.Raise Py.KeyError
      end
  | _ => Py.Raise Py.TypeError
  end.

(** [v.items()] *)
Definition items (v : value) : Py.result (list (string * value)) :=
  match v with
  | VDict d => Py.Ok d
  | _ => Py.Raise Py.AttributeError
  end.

(** The body shared by [_parse_npm_dependencies] and
    [_parse_composer_dependencies]: the loop over the two keys of the
    decoded document; [dev_key] is the second of them. *)
Fixpoint json_sections (data : value) (kind dev_key : string)
    (dep_types : list string) (dependencies : list Dependency)
  : Py.result (list Dependency) :=
  match dep_types with
  | [] => Py.Ok dependencies
  | dep_type :: rest =>
      present <- py_in dep_type data ;;
      if present then
        section <- getitem data dep_type ;;
        entries <- items section ;;
        json_sections data kind dev_key rest
          (dependencies ++
           map (fun nv => {| name := fst nv; version := snd nv; type := kind;
                             is_dev := String.eqb dep_type dev_key |})
               entries)%list
      else json_sections data kind dev_key rest dependencies
  end.

Definition _parse_npm_dependencies (content : string)
  : Py.result (list Dependency) :=
  data <- json_loads content ;;
  json_sections data "npm" "devDependencies"
    ["dependencies"; "devDependencies"] [].

Definition _parse_composer_dependencies (content : string)
  : Py.result (list Dependency) :=
  data <- json_loads content ;;
  json_sections data "composer" "require-dev" ["require"; "require-dev"] [].

(** [x or star] for a string [x], where [star] is the one-character
    string made of an asterisk. *)
Definition or_star (x : string) : string := if is_empty x then "*" else x.

(** The class [[>=<~!]] of the pattern given to [re.split]. *)
Definition is_operator (c : ascii) : bool := mem_char c ">=<~!".

Fixpoint pip_loop (lines : list string) (dependencies : list Dependency)
  : Py.result (list Dependency) :=
  match lines with
  | [] => Py.Ok dependencies
  | line0 :: rest =>
      let line := strip line0 in
      if negb (is_empty line) && negb (startswith line "#") then
        first <- Py.index (split_by is_operator line) 0 ;;
        let name_version := strip first in
        let version := or_star (strip (replace line name_version "")) in
        pip_loop rest
          (dependencies ++
           [{| name := name_version; version := VStr version; type := "pip";
               is_dev := false |}])%list
      else pip_loop rest dependencies
  end.

Definition _parse_pip_dependencies (content : string)
  : Py.result (list Dependency) :=
  pip_loop (split_char LF content) [].

(** [s.replace(q, '')] where [q] is the double quote: every double quote
    of [s] is removed. *)
Definition unquote (s : string) : string := replace s (String DQ "") "".

Fixpoint pipfile_loop (lines : list string) (current_section : string)
    (dependencies : list Dependency) : Py.result (list Dependency) :=
  match lines with
  | [] => Py.Ok dependencies
  | line0 :: rest =>
      let line := strip line0 in
      if startswith line "[" && endswith line "]" then
        pipfile_loop rest (slice_1_m1 line) dependencies
      else if contains line "="
              && mem current_section ["packages"; "dev-packages"] then
        lhs <- Py.index (split_char "=" line) 0 ;;
        rhs <- Py.index (split_char "=" line) 1 ;;
        pipfile_loop rest current_section
          (dependencies ++
           [{| name := strip lhs; version := VStr (unquote (strip rhs));
               type := "pipenv";
               is_dev := String.eqb current_section "dev-packages" |}])%list
      else pipfile_loop rest current_section dependencies
  end.

Definition _parse_pipfile_dependencies (content : string)
  : Py.result (list Dependency) :=
  pipfile_loop (split_char LF content) "" [].

Fixpoint cargo_loop (lines : list string) (in_dependencies : bool)
    (dependencies : list Dependency) : Py.result (list Dependency) :=
  match lines with
  | [] => Py.Ok dependencies
  | line0 :: rest =>
      let line := strip line0 in
      if String.eqb line "[dependencies]" then cargo_loop rest true dependencies
      else if startswith line "[" && negb (String.eqb line "[dependencies]")
      then cargo_loop rest false dependencies
      else if in_dependencies && contains line "=" then
        lhs <- Py.index (split_char "=" line) 0 ;;
        rhs <- Py.index (split_char "=" line) 1 ;;
        cargo_loop rest in_dependencies
          (dependencies ++
           [{| name := strip lhs; version := VStr (unquote (strip rhs));
               type := "cargo"; is_dev := false |}])%list
      else cargo_loop rest in_dependencies dependencies
  end.

Definition _parse_cargo_dependencies (content : string)
  : Py.result (list Dependency) :=
  cargo_loop (split_char LF content) false [].

Fixpoint go_loop (lines : list string) (dependencies : list Dependency)
  : Py.result (list Dependency) :=
  match lines with
  | [] => Py.Ok dependencies
  | line0 :: rest =>
      let line := strip line0 in
      if contains line "require"
         || (contains line " v" && negb (startswith line "module")
             && negb (startswith line "go ")) then
        let parts := split_ws (strip (replace line "require" "")) in
        if 2 <=? List.length parts then
          n <- Py.index parts 0 ;;
          v <- Py.index parts 1 ;;
          go_loop rest
            (dependencies ++
             [{| name := n; version := VStr v; type := "go";
                 is_dev := false |}])%list
        else go_loop rest dependencies
      else go_loop rest dependencies
  end.

Definition _parse_go_dependencies (content : string)
  : Py.result (list Dependency) :=
  go_loop (split_char LF content) [].

(** ** [_parse_maven_dependencies]

    The pattern is the text [<groupId>], a group of one or more characters
    other than [<], the text [</groupId>], white space, and the same for
    [artifactId] and [version].  A group stops at the first [<] and white
    space is never [<], so the longest run is the only way each part can
    match: no other choice has to be tried. *)
Definition literal (lit s : string) : option string :=
  if startswith s lit then Some (drop (String.length lit) s) else None.

Fixpoint run_of (p : ascii -> bool) (s : string) : string * string :=
  match s with
  | "" => ("", "")
  | String c r =>
      if p c then let (g, t) := run_of p r in (String c g, t) else ("", s)
  end.

Definition group (s : string) : option (string * string) :=
  let (g, r) := run_of (fun c => negb (Ascii.eqb c "<")) s in
  if is_empty g then None else Some (g, r).

Definition tagged (tag : string) (s : string) : option (string * string) :=
  match literal ("<" ++ tag ++ ">") s with
  | None => None
  | Some s1 =>
      match group s1 with
      | None => None
      | Some (g, s2) =>
          match literal ("</" ++ tag ++ ">") s2 with
          | None => None
          | Some s3 => Some (g, s3)
          end
      end
  end.

Definition artifact_pattern (s : string)
  : option ((string * string * string) * string) :=
  match tagged "groupId" s with
  | None => None
  | Some (g, s1) =>
      match tagged "artifactId" (lstrip_by isspace s1) with
      | None => None
      | Some (a, s2) =>
          match tagged "version" (lstrip_by isspace s2) with
          | None => None
          | Some (v, s3) => Some ((g, a, v), s3)
          end
      end
  end.

(** [re.findall]: the matches from the left, none overlapping another. *)
Fixpoint findall_from (skip : nat) (s : string)
  : list (string * string * string) :=
  match s with
  | "" => []
  | String _ r =>
      match skip with
      | S k => findall_from k r
      | O =>
          match artifact_pattern s with
          | Some (groups, rest) =>
              groups
              :: findall_from (String.length s - String.length rest - 1) r
          | None => findall_from 0 r
          end
      end
  end.

Definition _parse_maven_dependencies (content : string)
  : Py.result (list Dependency) :=
  Py.Ok
    (map (fun m : string * string * string =>
            let '(group_id, artifact_id, v) := m in
            {| name := group_id ++ ":" ++ artifact_id; version := VStr v;
               type := "maven"; is_dev := false |})
         (findall_from 0 content)).

(** ** [analyze_repository]

    [fetch_file_content] answers with the text of a file of the repository,
    or with the empty string. *)
Definition package_managers
  : list (string * (string -> Py.result (list Dependency))) :=
  [("package.json", _parse_npm_dependencies);
   ("requirements.txt", _parse_pip_dependencies);
   ("Pipfile", _parse_pipfile_dependencies);
   ("Cargo.toml", _parse_cargo_dependencies);
   ("go.mod", _parse_go_dependencies);
   ("pom.xml", _parse_maven_dependencies);
   ("composer.json", _parse_composer_dependencies)].

(** One turn of the loop: what [try: deps = parser(content) ... except
    Exception] adds to [dependencies]. *)
Definition contribution (parser : string -> Py.result (list Dependency))
    (content : string) : list Dependency :=
  if is_empty content then []
  else match parser content with
       | Py.Ok deps => deps
       | Py.Raise _ => []
       end.

Definition analyze_repository (fetch_file_content : string -> string)
  : list Dependency :=
  fold_left
    (fun dependencies entry =>
       (dependencies
        ++ contribution (snd entry) (fetch_file_content (fst entry)))%list)
    package_managers [].

End DependencyAnalyzer.

(* ================================================================== *)
(** * Regular expressions of the technology catalog *)
(* ================================================================== *)

Module Re.
Import PyStr.

(** The patterns of the catalog are made of plain characters, escaped
    characters, the dot, sets of characters in brackets and the star. *)
Inductive atom : Type :=
| Lit (c : ascii)
| AnyChar
| Class (chars : list ascii).

Inductive item : Type :=
| One (a : atom)
| Star (a : atom).

Definition regex : Type := list item.

Inductive token : Type :=
| TAtom (a : atom)
| TStar.

Inductive lex_state : Type :=
| Top
| Escaped
| InClass (chars : list ascii)
| InClassEscaped (chars : list ascii).

Definition is_alnum (c : ascii) : bool :=
  let n := nat_of_ascii c in
  ((48 <=? n) && (n <=? 57)) || ((65 <=? n) && (n <=? 90))
  || ((97 <=? n) && (n <=? 122)).

(** The characters with a meaning of their own that the catalog does not
    use: a pattern that has one of them unescaped is not translated. *)
Definition unsupported (c : ascii) : bool := mem_char c "+?{}()|^$]".

Fixpoint lex (st : lex_state) (s : string) : option (list token) :=
  match s with
  | "" => match st with Top => Some [] | _ => None end
  | String c r =>
      let emit a st' :=
        match lex st' r with
        | Some ts => Some (TAtom a :: ts)
        | None => None
        end in
      match st with
      | Top =>
          if Ascii.eqb c "\" then lex Escaped r
          else if Ascii.eqb c "." then emit AnyChar Top
          else if Ascii.eqb c "[" then lex (InClass []) r
          else if Ascii.eqb c "*" then
            match lex Top r with
            | Some ts => Some (TStar :: ts)
            | None => None
            end
          else if unsupported c then None
          else emit (Lit c) Top
      | Escaped => if is_alnum c then None else emit (Lit c) Top
      | InClass chars =>
          if Ascii.eqb c "]" then
            match chars with
            | [] => None
            | _ => emit (Class chars) Top
            end
          else if Ascii.eqb c "\" then lex (InClassEscaped chars) r
          else if Ascii.eqb c "-" || Ascii.eqb c "^" || Ascii.eqb c "[" then None
          else lex (InClass (chars ++ [c])) r
      | InClassEscaped chars =>
          if is_alnum c then None else lex (InClass (chars ++ [c])) r
      end
  end.

Fixpoint attach (ts : list token) : option regex :=
  match ts with
  | [] => Some []
  | TStar :: _ => None
  | TAtom a :: TStar :: r =>
      match attach r with
      | Some re => Some (Star a :: re)
      | None => None
      end
  | TAtom a :: r =>
      match attach r with
      | Some re => Some (One a :: re)
      | None => None
      end
  end.

Definition compile (pattern : string) : option regex :=
  match lex Top pattern with
  | Some ts => attach ts
  | None => None
  end.

(** One character against one atom under [re.IGNORECASE]; the dot does not
    match a line feed. *)
Definition same_letter (x c : ascii) : bool :=
  Ascii.eqb (lower_char x) (lower_char c).

Definition atom_matches (a : atom) (c : ascii) : bool :=
  match a with
  | Lit x => same_letter x c
  | AnyChar => negb (Ascii.eqb c LF)
  | Class chars => existsb (fun x => same_letter x c) chars
  end.

(** A match of [re] at the start of [s]: what is left of [s] after it.  A
    star takes as many characters as it can and gives them back one by one
    when the rest of the pattern does not match. *)
Fixpoint match_here (re : regex) (s : string) {struct re} : option string :=
  match re with
  | [] => Some s
  | One a :: re' =>
      match s with
      | String c t => if atom_matches a c then match_here re' t else None
      | "" => None
      end
  | Star a :: re' =>
      (fix star (s : string) : option string :=
         match s with
         | String c t =>
             if atom_matches a c then
               match star t with
               | Some rest => Some rest
               | None => match_here re' s
               end
             else match_here re' s
         | "" => match_here re' ""
         end) s
  end.

(** The number of matches [re.findall] returns, for a pattern that never
    matches the empty string. *)
Fixpoint count_matches_from (re : regex) (skip : nat) (s : string) : nat :=
  match s with
  | "" => 0
  | String _ r =>
      match skip with
      | S k => count_matches_from re k r
      | O =>
          match match_here re s with
          | Some rest =>
              S (count_matches_from re
                   (String.length s - String.length rest - 1) r)
          | None => count_matches_from re 0 r
          end
      end
  end.

(** [len(re.findall(pattern, content, re.IGNORECASE | re.MULTILINE))] *)
Definition findall_count (pattern content : string) : nat :=
  match compile pattern with
  | Some re => count_matches_from re 0 content
  | None => 0
  end.

End Re.

(* ================================================================== *)
(** * [TechnologyDetector] *)
(* ================================================================== *)

Module TechnologyDetector.
Import PyStr.

(** [a < b], [max(a, b)] and [min(a, b)] on scores: [max] answers with its
    first argument unless the second is greater, [min] with its first
    unless the second is smaller. *)
Definition ltb (a b : Qc) : bool :=
  match Qccompare a b with Lt => true | _ => false end.
Definition max (a b : Qc) : Qc := if ltb a b then b else a.
Definition min (a b : Qc) : Qc := if ltb b a then b else a.

Definition zero : Qc := Q2Qc 0.
Definition one : Qc := Q2Qc 1.
Definition c0_1 : Qc := Q2Qc (1 # 10).
Definition c0_3 : Qc := Q2Qc (3 # 10).
Definition c0_8 : Qc := Q2Qc (8 # 10).

(** A dict from the name of a technology to a score, in insertion order. *)
Definition scores : Type := list (string * Qc).

Fixpoint get (d : scores) (k : string) (default : Qc) : Qc :=
  match d with
  | [] => default
  | (k', v) :: r => if String.eqb k k' then v else get r k default
  end.

Fixpoint set (d : scores) (k : string) (v : Qc) : scores :=
  match d with
  | [] => [(k, v)]
  | (k', v') :: r =>
      if String.eqb k k' then (k, v) :: r else (k', v') :: set r k v
  end.

Fixpoint has (d : scores) (k : string) : bool :=
  match d with
  | [] => false
  | (k', _) :: r => String.eqb k k' || has r k
  end.

Definition q : string := String DQ "".

(** [self.technology_patterns] *)
Definition technology_patterns
  : list (string * list (string * list string)) :=
  [("frameworks",
    [("React", ["import.*react"; "from ['\" ++ q ++ "]react['\" ++ q ++ "]";
                "react"]);
     ("Angular", ["@angular"; "ng\."; "angular"]);
     ("Vue", ["import.*vue"; "from ['\" ++ q ++ "]vue['\" ++ q ++ "]"; "vue"]);
     ("Django", ["from django"; "import django"; "django"]);
     ("Flask", ["from flask"; "import flask"; "flask"]);
     ("Express", ["express\(\)";
                  "require\(['\" ++ q ++ "]express['\" ++ q ++ "]";
                  "express"]);
     ("Spring Boot", ["@SpringBootApplication"; "spring-boot"; "spring"]);
     ("Laravel", ["use Illuminate"; "laravel/framework"; "laravel"])]);
   ("databases",
    [("MongoDB", ["mongodb://"; "mongoose"; "pymongo"; "mongodb"]);
     ("PostgreSQL", ["postgresql://"; "psycopg2"; "pg"; "postgresql"]);
     ("MySQL", ["mysql://"; "mysql2"; "pymysql"; "mysql"]);
     ("Redis", ["redis://"; "redis"; "jedis"; "redis"]);
     ("SQLite", ["sqlite3"; "sqlite"; "better-sqlite3"; "sqlite"])]);
   ("testing",
    [("Jest", ["describe\("; "test\("; "it\("; "jest"]);
     ("PyTest", ["def test_"; "pytest"; "pytest"]);
     ("JUnit", ["@Test"; "junit"; "junit"]);
     ("Mocha", ["describe\("; "it\("; "mocha"])])].

(** The technologies of all categories, in the order the two nested loops
    over [technology_patterns] visit them. *)
Definition technologies_in_order : list (string * list string) :=
  flat_map snd technology_patterns.

Definition Qc_of_nat (n : nat) : Qc := Q2Qc (inject_Z (Z.of_nat n)).

(** The loop over the patterns of one technology in
    [_analyze_file_content]. *)
Definition pattern_confidence (content : string) (confidence : Qc)
    (pattern : string) : Qc :=
  if negb (startswith pattern "\.") then
    let matches := Re.findall_count pattern content in
    if 0 <? matches
    then max confidence (min (Qc_of_nat matches * c0_3)%Qc one)
    else confidence
  else confidence.

Definition content_confidence (content : string) (patterns : list string)
  : Qc :=
  fold_left (pattern_confidence content) patterns zero.

Definition _analyze_file_content (content : string) : scores :=
  fold_left
    (fun detected tech =>
       let confidence := content_confidence content (snd tech) in
       if ltb zero confidence then set detected (fst tech) confidence
       else detected)
    technologies_in_order [].

(** The loop over the patterns of one technology in [_analyze_dependency]:
    whether it reaches the assignment before the patterns run out. *)
Definition dependency_hit (dep_lower : string) (patterns : list string)
  : bool :=
  existsb (fun pattern => contains dep_lower (lower pattern)) patterns.

Definition _analyze_dependency (dependency_name : string) : scores :=
  let dep_lower := lower dependency_name in
  fold_left
    (fun detected tech =>
       if dependency_hit dep_lower (snd tech)
       then set detected (fst tech) c0_8
       else detected)
    technologies_in_order [].

Fixpoint _get_technology_category_in
    (cats : list (string * list (string * list string))) (tech_name : string)
  : string :=
  match cats with
  | [] => "other"
  | (category, technologies) :: rest =>
      if existsb (fun t => String.eqb tech_name (fst t)) technologies
      then category
      else _get_technology_category_in rest tech_name
  end.

Definition _get_technology_category (tech_name : string) : string :=
  _get_technology_category_in technology_patterns tech_name.

(** [detected[tech_name] = max(detected.get(tech_name, 0), confidence)] for
    every item of [tech_matches]. *)
Definition merge (detected tech_matches : scores) : scores :=
  fold_left
    (fun d tc => set d (fst tc) (max (get d (fst tc) zero) (snd tc)))
    tech_matches detected.

Record Technology : Type := {
  name : string;
  category : string;
  confidence : Qc
}.

(** The dict [detected] when the two loops of [detect_technologies] are
    done, and the list the method returns. *)
Definition detected_after (files : list CodeAnalyzer.File)
    (dependencies : list DependencyAnalyzer.Dependency) : scores :=
  let detected :=
    fold_left
      (fun d file_obj =>
         if negb (is_empty (CodeAnalyzer.content file_obj))
         then merge d (_analyze_file_content (CodeAnalyzer.content file_obj))
         else d)
      files [] in
  fold_left
    (fun d dep => merge d (_analyze_dependency (DependencyAnalyzer.name dep)))
    dependencies detected.

Definition detect_technologies (files : list CodeAnalyzer.File)
    (dependencies : list DependencyAnalyzer.Dependency) : list Technology :=
  map (fun tc => {| name := fst tc;
                    category := _get_technology_category (fst tc);
                    confidence := snd tc |})
      (filter (fun tc => ltb c0_1 (snd tc))
              (detected_after files dependencies)).

End TechnologyDetector.

(* ================================================================== *)
(** * [GitHubAPIClient]: the parts that do not touch the network *)
(* ================================================================== *)

Module GitHubAPIClient.
Import PyStr.

(** What [_parse_repo_url] does: it returns a pair or raises
    [ValueError]. *)
Inductive parsed (A : Type) : Type :=
| Parsed (a : A)
| ValueError.
Arguments Parsed {A} a.
Arguments ValueError {A}.

Definition github_prefix : string := "https://github.com/".

(** [_parse_repo_url]; the two indexings are guarded by the test on the
    length. *)
Definition _parse_repo_url (repo_url : string) : parsed (string * string) :=
  let parts := split_char "/" (replace repo_url github_prefix "") in
  if List.length parts <? 2 then ValueError
  else match parts with
       | owner :: repo :: _ => Parsed (owner, repo)
       | _ => ValueError
       end.

Definition readme_files : list string :=
  ["README.md"; "readme.md"; "README.rst"; "README.txt"; "README"].

(** The loop of [fetch_readme]: the first candidate whose content is not
    empty. *)
Fixpoint first_content (fetch_file_content : string -> string)
    (names : list string) : option string :=
  match names with
  | [] => None
  | readme_file :: rest =>
      let content := fetch_file_content readme_file in
      if negb (is_empty content) then Some content
      else first_content fetch_file_content rest
  end.

(** [fetch_readme]; [fetch_file_content] answers with the text of a file
    or with the empty string. *)
Definition fetch_readme (fetch_file_content : string -> string) : string :=
  match first_content fetch_file_content readme_files with
  | Some content => content
  | None => "No README file found"
  end.

End GitHubAPIClient.

(* ================================================================== *)
(** * [GitHubCodebaseAnalyzer.analyze_repository]: patterns and files *)
(* ================================================================== *)

Module Orchestrator.
Import PyStr.

(** The line boundaries of [str.splitlines] among the code points below
    256: LF, VT, FF, CR, FS, GS, RS and NEL; CR followed by LF is one
    boundary. *)
Definition is_line_break (c : ascii) : bool :=
  let n := nat_of_ascii c in
  ((10 <=? n) && (n <=? 13)) || ((28 <=? n) && (n <=? 30)) || (n =? 133).

Definition CR : ascii := ascii_of_nat 13.

(** [str.splitlines]: the lines without their boundaries; a boundary at the
    end of the text does not open a last empty line.  [after_cr] tells
    that the previous character was a CR. *)
Fixpoint splitlines_from (after_cr : bool) (s : string) : list string :=
  match s with
  | "" => []
  | String c r =>
      if after_cr && Ascii.eqb c LF then splitlines_from false r
      else if is_line_break c then "" :: splitlines_from (Ascii.eqb c CR) r
      else match splitlines_from false r with
           | [] => [String c ""]
           | h :: t => String c h :: t
           end
  end.

Definition splitlines (s : string) : list string := splitlines_from false s.

(** [set.add] on a set kept as a list without repetition. *)
Definition set_add (s : list string) (x : string) : list string :=
  if existsb (String.eqb x) s then s else (s ++ [x])%list.

(** Step 2.5: the set [ignore_patterns] built from the text of
    [.gitignore]. *)
Definition build_ignore_patterns (gitignore_content : string) : list string :=
  if is_empty gitignore_content then []
  else fold_left
         (fun ignore_patterns line0 =>
            let line := strip line0 in
            if negb (is_empty line) && negb (startswith line "#")
            then set_add ignore_patterns line
            else ignore_patterns)
         (splitlines gitignore_content) [].

Definition text_extensions : list string :=
  ["txt"; "md"; "yml"; "yaml"; "json"; "xml"].

Definition set_content (f : CodeAnalyzer.File) (text : string)
  : CodeAnalyzer.File :=
  {| CodeAnalyzer.path := CodeAnalyzer.path f;
     CodeAnalyzer.name := CodeAnalyzer.name f;
     CodeAnalyzer.extension := CodeAnalyzer.extension f;
     CodeAnalyzer.size := CodeAnalyzer.size f;
     CodeAnalyzer.content := text;
     CodeAnalyzer.language := CodeAnalyzer.language f;
     CodeAnalyzer.line_count := CodeAnalyzer.line_count f;
     CodeAnalyzer.function_count := CodeAnalyzer.function_count f;
     CodeAnalyzer.class_count := CodeAnalyzer.class_count f;
     CodeAnalyzer.complexity_score := CodeAnalyzer.complexity_score f |}.

(** [Path(file_name).suffix.lower().lstrip('.')] *)
Definition bare_extension (file_name : string) : string :=
  lstrip (lower (PathFilter.suffix file_name)) ".".

(** One turn of the loop over [files_to_analyze]: the [File] appended to
    [repo.files].  [fetch_file_content] is the client's method,
    [analyze_file] the analyzer's. *)
Definition build_file (fetch_file_content : string -> string)
    (analyze_file : CodeAnalyzer.File -> CodeAnalyzer.File)
    (item : PathFilter.tree_item) : CodeAnalyzer.File :=
  let file_path := PathFilter.path item in
  let file_name := PathFilter.file_name_of file_path in
  let extension := bare_extension file_name in
  let file_obj :=
    CodeAnalyzer.new_File file_path file_name extension
                          (PathFilter.size item) "" in
  if negb (String.eqb (CodeAnalyzer.language file_obj) "Unknown")
     || existsb (String.eqb extension) text_extensions
  then
    let content := fetch_file_content file_path in
    let file_obj := set_content file_obj content in
    if negb (is_empty content) then analyze_file file_obj else file_obj
  else file_obj.

(** [repo.files] after Step 4. *)
Definition repo_files (fetch_file_content : string -> string)
    (analyze_file : CodeAnalyzer.File -> CodeAnalyzer.File)
    (ignore_patterns : list string) (file_tree : list PathFilter.tree_item)
  : list CodeAnalyzer.File :=
  map (build_file fetch_file_content analyze_file)
      (PathFilter.capped
         (PathFilter.files_to_analyze ignore_patterns file_tree)).

End Orchestrator.

(* ================================================================== *)
(** * [CodeAnalyzer.analyze_file] *)
(* ================================================================== *)

Module FileAnalysis.
Import PyStr CodeAnalyzer.

Definition set_line_count (f : File) (n : nat) : File :=
  {| path := path f; name := name f; extension := extension f;
     size := size f; content := content f; language := language f;
     line_count := n;
     function_count := function_count f; class_count := class_count f;
     complexity_score := complexity_score f |}.

Definition set_complexity (f : File) (score : PyFloat.float) : File :=
  {| path := path f; name := name f; extension := extension f;
     size := size f; content := content f; language := language f;
     line_count := line_count f;
     function_count := function_count f; class_count := class_count f;
     complexity_score := score |}.

(** The patterns of [_analyze_javascript_code], as the source writes
    them. *)
Definition function_patterns : list string :=
  ["function\s+\w+\s*\("; "\w+\s*:\s*function\s*\(";
   "\w+\s*=\s*function\s*\("; "\w+\s*=\s*\([^)]*\)\s*=>";
   "async\s+function\s+\w+\s*\("].

Definition class_pattern : string := "class\s+\w+".

(** [_analyze_javascript_code]; [re_count pattern content] is
    [len(re.findall(pattern, content, re.MULTILINE))]. *)
Definition _analyze_javascript_code (re_count : string -> string -> nat)
    (file_obj : File) : File :=
  let text := content file_obj in
  let functions :=
    fold_left (fun functions pattern => functions + re_count pattern text)
              function_patterns 0 in
  let classes := re_count class_pattern text in
  set_counts file_obj functions classes.

(** [analyze_file]: nothing is done for an empty content; otherwise the
    lines are counted, the analysis of the language runs and the score is
    set. *)
Definition analyze_file (ast_parse : string -> Py.result node)
    (re_count : string -> string -> nat) (file_obj : File) : File :=
  if is_empty (content file_obj) then file_obj
  else
    let f1 :=
      set_line_count file_obj
        (List.length (split_char LF (content file_obj))) in
    let f2 :=
      if String.eqb (language f1) "Python" then
        match _analyze_python_code ast_parse f1 with
        | Py.Ok f => f
        | Py.Raise _ => f1
        end
      else if existsb (String.eqb (language f1)) ["JavaScript"; "TypeScript"]
      then _analyze_javascript_code re_count f1
      else _analyze_generic_code f1 in
    set_complexity f2 (_calculate_complexity (content f2)).

End FileAnalysis.

(* ================================================================== *)
(** * [DocumentationGenerator]: the computed parts *)
(* ================================================================== *)

Module DocumentationGenerator.
Import PyStr.

(** ** [generate_readme]: the metrics *)

Definition image_extensions : list string := ["png"; "jpg"; "gif"; "ico"].

Definition total_files (files : list CodeAnalyzer.File) : nat :=
  List.length
    (filter (fun f => negb (existsb (String.eqb (CodeAnalyzer.extension f))
                                    image_extensions)) files).

Definition total_loc (files : list CodeAnalyzer.File) : nat :=
  fold_right (fun f acc => CodeAnalyzer.line_count f + acc) 0 files.

(** ** [encode_plantuml] *)

Definition alphabet : string :=
  "0123456789ABCDEFGHIJKLMNOPQRSTUVWXYZabcdefghijklmnopqrstuvwxyz-_".

(** [alphabet[i]] *)
Definition alphabet_at (i : Z) : Py.result ascii :=
  let n := Z.of_nat (String.length alphabet) in
  let j := if (i <? 0)%Z then (n + i)%Z else i in
  if (j <? 0)%Z then Py.Raise Py.IndexError
  else Py.index (list_ascii_of_string alphabet) (Z.to_nat j).

(** The value of a byte. *)
Definition int_of (b : Byte.byte) : Z := Z.of_N (Byte.to_N b).

(** The four characters written for one chunk of three bytes. *)
Definition encode_chunk (b1 b2 b3 : Z) : Py.result string :=
  c1 <- alphabet_at (Z.land (Z.shiftr b1 2) 63) ;;
  c2 <- alphabet_at (Z.lor (Z.shiftl (Z.land b1 3) 4)
                           (Z.land (Z.shiftr b2 4) 15)) ;;
  c3 <- alphabet_at (Z.lor (Z.shiftl (Z.land b2 15) 2)
                           (Z.land (Z.shiftr b3 6) 3)) ;;
  c4 <- alphabet_at (Z.land b3 63) ;;
  Py.Ok (String c1 (String c2 (String c3 (String c4 "")))).

(** [encode_base64]: the data is read three bytes at a time, the last
    chunk filled with zero bytes. *)
Fixpoint encode_base64 (data : list Byte.byte) : Py.result string :=
  match data with
  | [] => Py.Ok ""
  | [a] => encode_chunk (int_of a) 0 0
  | [a; b] => encode_chunk (int_of a) (int_of b) 0
  | a :: b :: c :: rest =>
      h <- encode_chunk (int_of a) (int_of b) (int_of c) ;;
      t <- encode_base64 rest ;;
      Py.Ok (h ++ t)
  end.

(** [LF.join(lines)] *)
Definition join_lines (lines : list string) : string := String.concat nl lines.

(** [lines[1:-1]] *)
Definition inner (lines : list string) : list string :=
  removelast (tl lines).

(** The text that [encode_plantuml] compresses: the diagram without its
    first and last line when it starts with the opening mark. *)
Definition payload (plantuml_text : string) : string :=
  let text := strip plantuml_text in
  if startswith text "@startuml"
  then join_lines (inner (split_char LF text))
  else text.

(** [text.encode('utf-8')] for code points below 256. *)
Definition encode_utf8_char (c : ascii) : list Byte.byte :=
  let n := nat_of_ascii c in
  if n <? 128 then [byte_of_ascii c]
  else [byte_of_ascii (ascii_of_nat (192 + n / 64));
        byte_of_ascii (ascii_of_nat (128 + n mod 64))].

Fixpoint encode_utf8 (s : string) : list Byte.byte :=
  match s with
  | "" => []
  | String c r => (encode_utf8_char c ++ encode_utf8 r)%list
  end.

(** [encode_plantuml]; [zlib_compress] is [zlib.compress]. *)
Definition encode_plantuml
    (zlib_compress : list Byte.byte -> list Byte.byte)
    (plantuml_text : string) : Py.result string :=
  encode_base64 (zlib_compress (encode_utf8 (payload plantuml_text))).

End DocumentationGenerator.

(* ================================================================== *)
(** * Facts about strings *)
(* ================================================================== *)

Module PyStrFacts.
Import PyStr.

Lemma startswith_refl (s : string) : startswith s s = true.
Proof.
  induction s as [|c r IH]; simpl; [reflexivity|].
  now rewrite Ascii.eqb_refl, IH.
Qed.

Lemma startswith_trans (s p q : string) :
  startswith s p = true -> startswith p q = true -> startswith s q = true.
Proof.
  revert s p; induction q as [|c q IH]; intros s p Hsp Hpq.
  - now destruct s.
  - destruct p as [|b p]; [discriminate|].
    destruct s as [|a s]; [discriminate|].
    simpl in *.
    apply andb_true_iff in Hsp as [Hba Hsp].
    apply andb_true_iff in Hpq as [Hcb Hpq].
    apply Ascii.eqb_eq in Hba, Hcb; subst.
    rewrite Ascii.eqb_refl; simpl.
    now apply IH with p.
Qed.

Lemma startswith_rstrip_by (f : ascii -> bool) (s : string) :
  startswith s (rstrip_by f s) = true.
Proof.
  induction s as [|c r IH]; simpl; [reflexivity|].
  destruct (is_empty (rstrip_by f r) && f c); simpl; [reflexivity|].
  now rewrite Ascii.eqb_refl, IH.
Qed.

Lemma endswith_nonempty (s p : string) :
  endswith s p = true -> is_empty p = false -> is_empty s = false.
Proof. destruct s; simpl; [congruence | reflexivity]. Qed.

(** Taking the last character off a text that ends with a stripped
    character does not change what [rstrip] leaves. *)
Lemma rstrip_by_drop_last (f : ascii -> bool) (c : ascii) (s : string) :
  f c = true -> endswith s (String c "") = true ->
  rstrip_by f (drop_last s) = rstrip_by f s.
Proof.
  intros Hc; induction s as [|a r IH]; intros He; [reflexivity|].
  simpl in He.
  destruct r as [|b r'].
  - simpl in *. rewrite orb_false_r in He.
    destruct (Ascii.eqb_spec a c) as [->|]; [|discriminate].
    now rewrite Hc.
  - assert (Hr : endswith (String b r') (String c "") = true).
    { destruct (Ascii.eqb a c); simpl in He; [|exact He].
      exact He. }
    specialize (IH Hr).
    change (drop_last (String a (String b r')))
      with (String a (drop_last (String b r'))).
    change (rstrip_by f (String a (drop_last (String b r'))))
      with (let r0 := rstrip_by f (drop_last (String b r')) in
            if is_empty r0 && f a then "" else String a r0).
    change (rstrip_by f (String a (String b r')))
      with (let r0 := rstrip_by f (String b r') in
            if is_empty r0 && f a then "" else String a r0).
    now rewrite IH.
Qed.

Lemma string_eqb_true (a b : string) : String.eqb a b = true -> a = b.
Proof. apply String.eqb_eq. Qed.

End PyStrFacts.

(* ================================================================== *)
(** * Properties of the path filter *)
(* ================================================================== *)

Module PathFilterFacts.
Import PyStr PyStrFacts PathFilter.

Lemma ignored_of_hit (ignore_patterns : list string)
    (pattern file_path file_name : string) :
  In pattern ignore_patterns ->
  pattern_hits pattern file_path file_name = true ->
  ignored ignore_patterns file_path file_name = true.
Proof.
  induction ignore_patterns as [|p rest IH]; intros Hin Hhit; [easy|].
  simpl. destruct (pattern_hits p file_path file_name) eqn:E; [reflexivity|].
  destruct Hin as [->|Hin]; [congruence | now apply IH].
Qed.

Lemma scan_patterns_fst (ignore_patterns : list string)
    (file_path file_name : string) :
  fst (scan_patterns ignore_patterns file_path file_name)
  = ignored ignore_patterns file_path file_name.
Proof.
  induction ignore_patterns as [|p rest IH]; simpl; [reflexivity|].
  destruct (pattern_hits p file_path file_name); [reflexivity|].
  destruct (scan_patterns rest file_path file_name); exact IH.
Qed.

(** The logged filter decides as the plain one. *)
Lemma keeps_logged_fst (ignore_patterns : list string) (item : tree_item) :
  fst (keeps_logged ignore_patterns item) = keeps ignore_patterns item.
Proof.
  unfold keeps_logged, keeps.
  rewrite <- scan_patterns_fst.
  destruct (scan_patterns ignore_patterns (path item)
              (file_name_of (path item))) as [ign log]; simpl.
  destruct ign; simpl; [reflexivity|].
  destruct (size item <? max_size)%Z; reflexivity.
Qed.

(** When neither the patterns nor the extension reject a file, the size
    test alone decides, and it rejects from 100,000 bytes on. *)
Lemma size_gate (ignore_patterns : list string) (item : tree_item) :
  ignored ignore_patterns (path item) (file_name_of (path item)) = false ->
  mem (extension_of (file_name_of (path item))) excluded_extensions = false ->
  (keeps ignore_patterns item = false <-> (100000 <= size item)%Z).
Proof.
  intros Hi He. unfold keeps, max_size. rewrite Hi, He; simpl.
  rewrite andb_true_r.
  destruct (Z.ltb_spec (size item) 100000); split; intros; try lia;
    try reflexivity; discriminate.
Qed.

(** C1.  A Python file of exactly 100,000 bytes, with no ignore pattern
    and an extension outside the excluded ones, is not kept: the size test
    of the filter is [size < 100000]. *)
Theorem exactly_100000_bytes_is_rejected :
  let item := {| path := "src/main.py"; type := "blob"; size := 100000 |} in
  ignored [] (path item) (file_name_of (path item)) = false
  /\ mem (extension_of (file_name_of (path item))) excluded_extensions = false
  /\ keeps [] item = false
  /\ files_to_analyze [] [item] = [].
Proof. repeat split. Qed.

(** C9 as stated: a file with an excluded extension and a size above the
    ceiling is rejected, the decision does not depend on the patterns, and
    no pattern is consulted for it. *)
Definition extension_size_patterns_order : Prop :=
  forall (ignore_patterns : list string) (item : tree_item),
    mem (extension_of (file_name_of (path item))) excluded_extensions = true ->
    (max_size < size item)%Z ->
    fst (keeps_logged ignore_patterns item) = false
    /\ (forall other_patterns,
          keeps other_patterns item = keeps ignore_patterns item)
    /\ existsb consults_pattern (snd (keeps_logged ignore_patterns item))
       = false.

(** C9, counterexample.  For [logo.png] of 200,000 bytes and the one
    pattern [dist/], the filter tests the pattern first and the size next;
    the extension is never looked at. *)
Lemma patterns_are_consulted_first : ~ extension_size_patterns_order.
Proof.
  intros H.
  destruct (H ["dist/"]
              {| path := "logo.png"; type := "blob"; size := 200000 |})
    as (_ & _ & Hlog); [reflexivity | reflexivity |].
  discriminate Hlog.
Qed.

(** C9, amended.  A file with an excluded extension and a size above the
    ceiling is rejected whatever the patterns are.  The tests run in the
    order patterns, size, extension: the log is the scan of the patterns,
    followed by the size test when no pattern hit; the extension test is
    not reached. *)
Theorem oversized_excluded_file_rejected
    (ignore_patterns other_patterns : list string) (item : tree_item) :
  mem (extension_of (file_name_of (path item))) excluded_extensions = true ->
  (max_size < size item)%Z ->
  keeps ignore_patterns item = false
  /\ keeps other_patterns item = keeps ignore_patterns item
  /\ fst (keeps_logged ignore_patterns item) = false
  /\ snd (keeps_logged ignore_patterns item)
     = (snd (scan_patterns ignore_patterns (path item)
               (file_name_of (path item)))
        ++ (if ignored ignore_patterns (path item) (file_name_of (path item))
            then [] else [CheckSize]))%list.
Proof.
  intros Hext Hsize.
  assert (Hk : forall ps, keeps ps item = false).
  { intros ps. unfold keeps. rewrite Hext. simpl. now rewrite andb_false_r. }
  repeat split.
  - apply Hk.
  - now rewrite !Hk.
  - rewrite keeps_logged_fst. apply Hk.
  - unfold keeps_logged. rewrite <- scan_patterns_fst.
    destruct (scan_patterns ignore_patterns (path item)
                (file_name_of (path item))) as [ign log]; simpl.
    destruct ign; simpl; [now rewrite app_nil_r|].
    destruct (Z.ltb_spec (size item) max_size); [lia | reflexivity].
Qed.

Lemma oversized_excluded_file_rejected_witness :
  let item := {| path := "logo.png"; type := "blob"; size := 200000 |} in
  keeps ["dist/"] item = false
  /\ keeps ["*.png"; "logo.png"] item = keeps ["dist/"] item
  /\ fst (keeps_logged ["dist/"] item) = false
  /\ snd (keeps_logged ["dist/"] item) = [CheckPattern "dist/"; CheckSize].
Proof.
  exact (oversized_excluded_file_rejected ["dist/"] ["*.png"; "logo.png"]
           {| path := "logo.png"; type := "blob"; size := 200000 |}
           eq_refl eq_refl).
Defined.

(** C10.  A pattern that ends with a slash excludes every blob whose path
    starts with the pattern without its last character, wherever the next
    path segment begins. *)
Theorem directory_pattern_is_a_plain_prefix
    (ignore_patterns : list string) (pattern : string)
    (file_tree : list tree_item) (item : tree_item) :
  In pattern ignore_patterns ->
  endswith pattern "/" = true ->
  startswith (path item) (drop_last pattern) = true ->
  keeps ignore_patterns item = false
  /\ ~ In item (files_to_analyze ignore_patterns file_tree).
Proof.
  intros Hin Hend Hpre.
  assert (Hk : keeps ignore_patterns item = false).
  { unfold keeps.
    rewrite (ignored_of_hit ignore_patterns pattern); [reflexivity | exact Hin |].
    assert (Hp : startswith (path item) (rstrip pattern "/") = true).
    { apply startswith_trans with (drop_last pattern); [exact Hpre|].
      unfold rstrip.
      rewrite <- (rstrip_by_drop_last _ "/" pattern);
        [| reflexivity | exact Hend].
      apply startswith_rstrip_by. }
    unfold pattern_hits. now rewrite Hend, Hp. }
  split; [exact Hk|].
  unfold files_to_analyze. rewrite filter_In. intros [_ H].
  rewrite Hk, andb_false_r in H. discriminate.
Qed.

Lemma directory_pattern_is_a_plain_prefix_witness :
  let blob p := {| path := p; type := "blob"; size := 120 |} in
  let tree := [blob "dist/bundle.js"; blob "distribution/file.js";
               blob "distfile.txt"; blob "src/dist/file.js"] in
  (endswith "dist/" "/" = true
   /\ startswith "distribution/file.js" (drop_last "dist/") = true)
  /\ (keeps ["dist/"] (blob "dist/bundle.js") = false
      /\ ~ In (blob "dist/bundle.js") (files_to_analyze ["dist/"] tree))
  /\ (keeps ["dist/"] (blob "distribution/file.js") = false
      /\ ~ In (blob "distribution/file.js") (files_to_analyze ["dist/"] tree))
  /\ (keeps ["dist/"] (blob "distfile.txt") = false
      /\ ~ In (blob "distfile.txt") (files_to_analyze ["dist/"] tree)).
Proof.
  intros blob tree.
  split; [split; reflexivity|].
  repeat apply conj.
  1-2: apply (directory_pattern_is_a_plain_prefix ["dist/"] "dist/" tree
                (blob "dist/bundle.js")); simpl; auto.
  1-2: apply (directory_pattern_is_a_plain_prefix ["dist/"] "dist/" tree
                (blob "distribution/file.js")); simpl; auto.
  1-2: apply (directory_pattern_is_a_plain_prefix ["dist/"] "dist/" tree
                (blob "distfile.txt")); simpl; auto.
Defined.

End PathFilterFacts.

(* ================================================================== *)
(** * Properties of the Python analysis *)
(* ================================================================== *)

Module PythonAnalysisFacts.
Import PyStr CodeAnalyzer.

(** The number of nodes of class [c] in a tree, at any depth. *)
Fixpoint count_class (c : node_class) (n : node) : nat :=
  match n with
  | Node _ l =>
      (if isinstance n c then 1 else 0)
      + fold_right (fun ch acc => count_class c ch + acc) 0 l
  end.

Definition count_class_all (c : node_class) (l : list node) : nat :=
  fold_right (fun ch acc => count_class c ch + acc) 0 l.

(** The function definitions of a module: [def] and [async def]
    statements, at the top level or nested. *)
Definition function_definitions (tree : node) : nat :=
  count_class FunctionDef tree + count_class AsyncFunctionDef tree.

Definition class_definitions (tree : node) : nat := count_class ClassDef tree.

Lemma count_class_all_app (c : node_class) (l1 l2 : list node) :
  count_class_all c (l1 ++ l2) = count_class_all c l1 + count_class_all c l2.
Proof.
  unfold count_class_all. induction l1 as [|a l1 IH]; simpl; [reflexivity|].
  rewrite IH. lia.
Qed.

Lemma queue_size_app (l1 l2 : list node) :
  queue_size (l1 ++ l2) = queue_size l1 + queue_size l2.
Proof.
  unfold queue_size. induction l1 as [|a l1 IH]; simpl; [reflexivity|].
  rewrite IH. lia.
Qed.

Lemma node_size_pos (n : node) : 1 <= node_size n.
Proof. destruct n; simpl; lia. Qed.

(** With one unit of fuel per node in the queue, the walk visits every
    node, and the loop adds to its two counters the number of
    [FunctionDef] and of [ClassDef] nodes. *)
Lemma count_loop_walk_queue (fuel : nat) :
  forall (todo : list node) (functions classes : nat),
    queue_size todo <= fuel ->
    count_loop (walk_queue fuel todo) functions classes
    = (functions + count_class_all FunctionDef todo,
       classes + count_class_all ClassDef todo).
Proof.
  induction fuel as [|fuel IH]; intros todo functions classes Hsize.
  - destruct todo as [|n rest].
    + simpl. now rewrite !Nat.add_0_r.
    + pose proof (node_size_pos n). unfold queue_size in Hsize.
      simpl in Hsize. lia.
  - destruct todo as [|n rest].
    + simpl. now rewrite !Nat.add_0_r.
    + destruct n as [k l].
      assert (Hq : queue_size (rest ++ l) <= fuel).
      { rewrite queue_size_app. unfold queue_size in *. simpl in Hsize.
        fold (queue_size l) in *. lia. }
      change (walk_queue (S fuel) (Node k l :: rest))
        with (Node k l :: walk_queue fuel (rest ++ l)).
      unfold count_class_all at 1 2. simpl fold_right.
      fold (count_class_all FunctionDef l). fold (count_class_all ClassDef l).
      fold (count_class_all FunctionDef rest).
      fold (count_class_all ClassDef rest).
      destruct k; simpl count_loop; cbn [isinstance cls_of];
        rewrite (IH _ _ _ Hq), !count_class_all_app; f_equal; lia.
Qed.

Lemma count_loop_walk (tree : node) :
  count_loop (walk tree) 0 0
  = (count_class FunctionDef tree, count_class ClassDef tree).
Proof.
  unfold walk. rewrite count_loop_walk_queue.
  - unfold count_class_all; simpl. f_equal; lia.
  - unfold queue_size; simpl. lia.
Qed.

(** When the text parses, the two counts are the numbers of [FunctionDef]
    and of [ClassDef] nodes of the tree, nested ones included. *)
Lemma python_counts_when_parsed (ast_parse : string -> Py.result node)
    (file_obj : File) (tree : node) :
  ast_parse (content file_obj) = Py.Ok tree ->
  _analyze_python_code ast_parse file_obj
  = Py.Ok (set_counts file_obj (count_class FunctionDef tree)
                               (count_class ClassDef tree)).
Proof.
  intros H. unfold _analyze_python_code. rewrite H.
  now rewrite count_loop_walk.
Qed.

(** When [ast.parse] raises, the method returns and the file is as it was:
    a new file keeps its two counts at zero. *)
Lemma python_parse_error_is_caught (ast_parse : string -> Py.result node)
    (file_obj : File) (e : Py.exn) :
  ast_parse (content file_obj) = Py.Raise e ->
  _analyze_python_code ast_parse file_obj = Py.Ok file_obj.
Proof. intros H. unfold _analyze_python_code. now rewrite H. Qed.

Lemma python_never_raises (ast_parse : string -> Py.result node)
    (file_obj : File) :
  Py.returns (_analyze_python_code ast_parse file_obj).
Proof.
  unfold Py.returns, _analyze_python_code.
  destruct (ast_parse (content file_obj)) as [tree|e]; [|now eexists].
  destruct (count_loop (walk tree) 0 0); now eexists.
Qed.

(** The tree of the module whose text is the two lines [async def f():]
    and [pass]: a [Module] with one [AsyncFunctionDef], which holds its
    [arguments] and a [Pass]. *)
Definition async_def_text : string :=
  "async def f():" ++ nl ++ "    pass" ++ nl.

Definition async_def_module : node :=
  Node Module_ [Node AsyncFunctionDef [Node OtherNode []; Node OtherNode []]].

(** C2.  A module that defines one function with [async def] gets
    [function_count] 0: the loop tests [isinstance(node, ast.FunctionDef)]
    and an [AsyncFunctionDef] is not one. *)
Theorem async_def_is_not_counted (ast_parse : string -> Py.result node)
    (file_obj : File) :
  ast_parse (content file_obj) = Py.Ok async_def_module ->
  function_definitions async_def_module = 1
  /\ exists analyzed,
       _analyze_python_code ast_parse file_obj = Py.Ok analyzed
       /\ function_count analyzed = 0
       /\ class_count analyzed = 0.
Proof.
  intros H. split; [reflexivity|].
  rewrite (python_counts_when_parsed _ _ _ H).
  eexists; repeat split.
Qed.

Lemma async_def_is_not_counted_witness :
  let file_obj := new_File "svc.py" "svc.py" "py" 24 async_def_text in
  let ast_parse := fun _ : string => Py.Ok async_def_module in
  language file_obj = "Python"
  /\ function_definitions async_def_module = 1
  /\ exists analyzed,
       _analyze_python_code ast_parse file_obj = Py.Ok analyzed
       /\ function_count analyzed = 0
       /\ class_count analyzed = 0.
Proof.
  intros file_obj ast_parse. split; [reflexivity|].
  exact (async_def_is_not_counted ast_parse file_obj eq_refl).
Defined.

End PythonAnalysisFacts.

(* ================================================================== *)
(** * Facts about floats *)
(* ================================================================== *)

Module FloatFacts.
Import PyFloat.
Local Open Scope Z_scope.

(** ** The number of binary digits *)

Lemma digits2_pos_bounds (m : positive) :
  2 ^ (Zpos (digits2_pos m) - 1) <= Zpos m < 2 ^ Zpos (digits2_pos m).
Proof.
  induction m as [m IH|m IH|]; cbn [digits2_pos].
  - rewrite Pos2Z.inj_succ.
    replace (Z.succ (Zpos (digits2_pos m)) - 1)
      with (Z.succ (Zpos (digits2_pos m) - 1)) by lia.
    rewrite !Z.pow_succ_r by lia. lia.
  - rewrite Pos2Z.inj_succ.
    replace (Z.succ (Zpos (digits2_pos m)) - 1)
      with (Z.succ (Zpos (digits2_pos m) - 1)) by lia.
    rewrite !Z.pow_succ_r by lia. lia.
  - cbn. lia.
Qed.

Lemma digits2_pos_unique (m : positive) (d : Z) :
  2 ^ (d - 1) <= Zpos m < 2 ^ d -> Zpos (digits2_pos m) = d.
Proof.
  intros [Hlo Hhi]. pose proof (digits2_pos_bounds m) as [Blo Bhi].
  assert (Hd : 0 < d).
  { destruct (Z.lt_ge_cases 0 d) as [|Hle]; [assumption|].
    destruct (Z.eq_dec d 0) as [->|Hne]; [cbn in Hhi; lia|].
    rewrite Z.pow_neg_r in Hhi by lia. lia. }
  destruct (Z.lt_trichotomy (Zpos (digits2_pos m)) d) as [Hlt|[Heq|Hgt]];
    [|exact Heq|].
  - assert (2 ^ Zpos (digits2_pos m) <= 2 ^ (d - 1))
      by (apply Z.pow_le_mono_r; lia). lia.
  - assert (2 ^ d <= 2 ^ (Zpos (digits2_pos m) - 1))
      by (apply Z.pow_le_mono_r; lia). lia.
Qed.

(** ** Shifting to the right *)

(** The record [mrs] is what is left of [x] when it is counted in units
    of [W]: the quotient, whether the rest is at least half a unit, and
    whether it is neither nothing nor half a unit. *)
Definition weighed (x W : Z) (mrs : shr_record) : Prop :=
  exists rem,
    0 <= shr_m mrs /\ 0 <= rem < W
    /\ x = shr_m mrs * W + rem
    /\ shr_r mrs = (W <=? 2 * rem)
    /\ shr_s mrs = negb ((rem =? 0) || (2 * rem =? W)).

(** The same after [k] digits were shifted out, the unit being [U] at
    first. *)
Definition shifted (x U k : Z) (mrs : shr_record) : Prop :=
  weighed x (U * 2 ^ k) mrs.

Lemma shifted_start (m0 : Z) :
  0 <= m0 -> shifted m0 1 0 (shr_record_of_loc m0 loc_Exact).
Proof.
  intros H. exists 0. cbn. repeat split; lia.
Qed.

Lemma shr_1_weighed (x W : Z) (mrs : shr_record) :
  0 < W -> weighed x W mrs -> weighed x (W * 2) (shr_1 mrs).
Proof.
  intros HW (rem & Hm & Hrem & H0 & Hr & Hs).
  destruct mrs as [m r s]. cbn [shr_m shr_r shr_s] in *.
  assert (Hrs : (r || s)%bool = negb (rem =? 0)).
  { rewrite Hr, Hs.
    destruct (Z.leb_spec W (2 * rem)), (Z.eqb_spec rem 0),
      (Z.eqb_spec (2 * rem) W); cbn [negb orb]; try reflexivity; lia. }
  unfold weighed.
  destruct m as [|[p|p|]|p]; [| | | |lia]; cbn [shr_1 shr_m shr_r shr_s].
  - exists rem. rewrite Hrs.
    destruct (Z.leb_spec (W * 2) (2 * rem)), (Z.eqb_spec rem 0),
      (Z.eqb_spec (2 * rem) (W * 2)); cbn [negb orb];
      repeat split; try lia.
  - exists (W + rem). rewrite Hrs.
    destruct (Z.leb_spec (W * 2) (2 * (W + rem))),
      (Z.eqb_spec rem 0), (Z.eqb_spec (W + rem) 0),
      (Z.eqb_spec (2 * (W + rem)) (W * 2)); cbn [negb orb];
      repeat split; try lia.
  - exists rem. rewrite Hrs.
    destruct (Z.leb_spec (W * 2) (2 * rem)), (Z.eqb_spec rem 0),
      (Z.eqb_spec (2 * rem) (W * 2)); cbn [negb orb];
      repeat split; try lia.
  - exists (W + rem). rewrite Hrs.
    destruct (Z.leb_spec (W * 2) (2 * (W + rem))),
      (Z.eqb_spec rem 0), (Z.eqb_spec (W + rem) 0),
      (Z.eqb_spec (2 * (W + rem)) (W * 2)); cbn [negb orb];
      repeat split; try lia.
Qed.

Lemma shr_1_shifted (x U k : Z) (mrs : shr_record) :
  0 < U -> 0 <= k -> shifted x U k mrs -> shifted x U (k + 1) (shr_1 mrs).
Proof.
  intros HU Hk H. unfold shifted in *.
  rewrite Z.pow_add_r, Z.pow_1_r, Z.mul_assoc by lia.
  apply shr_1_weighed; [|exact H].
  apply Z.mul_pos_pos; [exact HU | apply Z.pow_pos_nonneg; lia].
Qed.

Lemma iter_pos_shifted (x U : Z) (p : positive) :
  forall k mrs,
    0 < U -> 0 <= k -> shifted x U k mrs ->
    shifted x U (k + Zpos p) (iter_pos shr_1 p mrs).
Proof.
  induction p as [p IH|p IH|]; intros k mrs HU Hk H; cbn [iter_pos].
  - replace (k + Zpos p~1) with (k + 1 + Zpos p + Zpos p) by lia.
    apply IH; [exact HU|lia|]. apply IH; [exact HU|lia|].
    now apply shr_1_shifted.
  - replace (k + Zpos p~0) with (k + Zpos p + Zpos p) by lia.
    apply IH; [exact HU|lia|]. now apply IH.
  - now apply shr_1_shifted.
Qed.

(** Rounding what was shifted: at most half a unit away. *)
Lemma round_nearest_even_weighed (x W : Z) (mrs : shr_record) :
  0 < W -> weighed x W mrs ->
  let mr := round_nearest_even (shr_m mrs) (loc_of_shr_record mrs) in
  shr_m mrs <= mr <= shr_m mrs + 1
  /\ 2 * Z.abs (mr * W - x) <= W.
Proof.
  intros HW (rem & Hm & Hrem & H0 & Hr & Hs). cbv zeta.
  destruct mrs as [m r s]. cbn [shr_m shr_r shr_s] in *.
  destruct r, s; cbn [loc_of_shr_record round_nearest_even];
    destruct (Z.leb_spec W (2 * rem)), (Z.eqb_spec rem 0),
      (Z.eqb_spec (2 * rem) W); cbn in Hr, Hs;
      try discriminate; try (destruct (Z.even m)); split; nia.
Qed.

(** ** Rounding a mantissa and an exponent to a float *)

Lemma fexp_normal (x : Z) :
  -1021 <= x -> fexp prec emax x = x - 53.
Proof. unfold fexp, emin, prec, emax. lia. Qed.

(** The end of [binary_round_aux]: the rounding of the shifted mantissa,
    and one more shift when the rounding gives a digit more. *)
Definition finish (s : bool) (mrs : shr_record) (e : Z) : float :=
  let '(mrs', e') :=
    shr_fexp prec emax
      (round_nearest_even (shr_m mrs) (loc_of_shr_record mrs)) e loc_Exact in
  match shr_m mrs' with
  | Z0 => S754_zero s
  | Zpos m =>
      if e' <=? emax - prec then S754_finite s m e' else S754_infinity s
  | _ => S754_nan
  end.

Lemma binary_round_aux_finish (s : bool) (m e : Z) (l : location) :
  binary_round_aux prec emax s m e l
  = finish s (fst (shr_fexp prec emax m e l)) (snd (shr_fexp prec emax m e l)).
Proof.
  unfold binary_round_aux, finish.
  now destruct (shr_fexp prec emax m e l).
Qed.

(** A mantissa of 53 digits in units of [W], rounded: a float away from
    [x] by a part in [2 ^ 53] at most. *)
Lemma finish_spec (s : bool) (mrs : shr_record) (e x W : Z) :
  0 < W -> weighed x W mrs -> 2 ^ 52 <= shr_m mrs < 2 ^ 53 ->
  -1074 <= e <= 970 ->
  exists m' k,
    0 <= k <= 1 /\ finish s mrs e = S754_finite s m' (e + k)
    /\ 2 ^ 53 * Z.abs (Zpos m' * 2 ^ k * W - x) <= x.
Proof.
  intros HW Hw Hm He.
  pose proof (round_nearest_even_weighed x W mrs HW Hw) as [Hmr Herr].
  unfold finish.
  set (mr := round_nearest_even (shr_m mrs) (loc_of_shr_record mrs)) in *.
  destruct Hw as (rem & Hm1 & Hrem & H0 & _).
  assert (Hx : 2 ^ 52 * W <= x) by nia.
  assert (Hmrb : 2 ^ 52 <= mr <= 2 ^ 53) by lia.
  destruct mr as [|q|q] eqn:Emr; [lia| |lia].
  unfold shr_fexp.
  destruct (Z.eq_dec (Zpos q) (2 ^ 53)) as [Htop|Hlow].
  - assert (Eq : q = 9007199254740992%positive) by (cbn in Htop; lia).
    subst q. cbn [Zdigits2 digits2_pos Pos.succ].
    rewrite (fexp_normal (54 + e)) by lia.
    replace (54 + e - 53 - e) with 1 by lia.
    cbn [shr iter_pos shr_record_of_loc shr_1 shr_m].
    exists 4503599627370496%positive, 1. split; [lia|].
    replace (e + 1 <=? emax - prec) with true
      by (symmetry; apply Z.leb_le; unfold emax, prec; lia).
    split; [reflexivity|].
    change (Zpos 4503599627370496 * 2 ^ 1) with (2 ^ 53).
    change (Zpos 9007199254740992) with (2 ^ 53) in Herr. nia.
  - assert (Hdq : Zpos (digits2_pos q) = 53)
      by (apply digits2_pos_unique; lia).
    cbn [Zdigits2]. rewrite Hdq.
    rewrite (fexp_normal (53 + e)) by lia.
    replace (53 + e - 53 - e) with 0 by lia.
    cbn [shr shr_record_of_loc shr_m].
    exists q, 0. split; [lia|].
    replace (e <=? emax - prec) with true
      by (symmetry; apply Z.leb_le; unfold emax, prec; lia).
    rewrite Z.add_0_r. split; [reflexivity|].
    rewrite Z.pow_0_r, Z.mul_1_r. nia.
Qed.

(** In the normal range and without overflow, the float made of the
    mantissa [m] and the exponent [e] is a float whose exponent is not
    smaller, and which is away from [m] by a part in [2 ^ 53] at most. *)
Lemma binary_round_aux_spec (s : bool) (m : positive) (e : Z) :
  -1021 <= Zpos (digits2_pos m) + e <= 972 ->
  exists m' k,
    0 <= k
    /\ binary_round_aux prec emax s (Zpos m) e loc_Exact
       = S754_finite s m' (e + k)
    /\ 2 ^ 53 * Z.abs (Zpos m' * 2 ^ k - Zpos m) <= Zpos m.
Proof.
  intros Hde. pose proof (digits2_pos_bounds m) as Hd.
  set (d := Zpos (digits2_pos m)) in *.
  assert (Hd1 : 1 <= d) by (unfold d; lia).
  destruct (Z.le_gt_cases d 53) as [Hsmall|Hbig].
  - unfold binary_round_aux, shr_fexp. cbn [Zdigits2]. fold d.
    rewrite (fexp_normal (d + e)) by lia.
    replace (d + e - 53 - e) with (d - 53) by lia.
    assert (Hshr : forall mrs, shr mrs e (d - 53) = (mrs, e))
      by (intros mrs; destruct (d - 53) eqn:E; try reflexivity; lia).
    rewrite Hshr.
    cbn [shr_record_of_loc shr_m loc_of_shr_record round_nearest_even
         Zdigits2]. fold d.
    rewrite (fexp_normal (d + e)) by lia.
    replace (d + e - 53 - e) with (d - 53) by lia.
    rewrite Hshr. cbn [shr_m].
    exists m, 0. split; [lia|].
    replace (e <=? emax - prec) with true
      by (symmetry; apply Z.leb_le; unfold emax, prec; lia).
    rewrite Z.add_0_r. split; [reflexivity|].
    rewrite Z.pow_0_r, Z.mul_1_r, Z.sub_diag. cbn. lia.
  - rewrite binary_round_aux_finish. unfold shr_fexp. cbn [Zdigits2]. fold d.
    rewrite (fexp_normal (d + e)) by lia.
    replace (d + e - 53 - e) with (d - 53) by lia.
    destruct (d - 53) as [|p|p] eqn:Ed; [lia| |lia]. cbn [shr fst snd].
    pose proof (iter_pos_shifted (Zpos m) 1 p 0
                  (shr_record_of_loc (Zpos m) loc_Exact) Z.lt_0_1
                  (Z.le_refl 0)
                  (shifted_start (Zpos m) (Pos2Z.is_nonneg m))) as Hsh.
    unfold shifted in Hsh. rewrite Z.add_0_l, Z.mul_1_l in Hsh.
    set (mrs := iter_pos shr_1 p (shr_record_of_loc (Zpos m) loc_Exact))
      in *.
    assert (HP : 0 < 2 ^ Zpos p) by (apply Z.pow_pos_nonneg; lia).
    assert (Hpow : 2 ^ d = 2 ^ 53 * 2 ^ Zpos p)
      by (rewrite <- Z.pow_add_r by lia; f_equal; lia).
    assert (Hpow1 : 2 ^ (d - 1) = 2 ^ 52 * 2 ^ Zpos p)
      by (rewrite <- Z.pow_add_r by lia; f_equal; lia).
    rewrite Hpow, Hpow1 in Hd.
    assert (Hm1b : 2 ^ 52 <= shr_m mrs < 2 ^ 53).
    { destruct Hsh as (rem & Hm1 & Hrem & H0 & _). nia. }
    destruct (finish_spec s mrs (e + Zpos p) (Zpos m) (2 ^ Zpos p) HP Hsh
                Hm1b ltac:(lia)) as (m' & k & Hk & Hres & Herr).
    exists m', (Zpos p + k). split; [lia|].
    rewrite Z.add_assoc. split; [exact Hres|].
    rewrite Z.pow_add_r by lia.
    replace (Zpos m' * (2 ^ Zpos p * 2 ^ k))
      with (Zpos m' * 2 ^ k * 2 ^ Zpos p) by ring.
    exact Herr.
Qed.

(** ** The quotient of two integers *)

Lemma new_location_weighed (den r q : Z) :
  0 < den -> 0 <= r < den -> 0 <= q ->
  weighed (q * den + r) den (shr_record_of_loc q (new_location den r)).
Proof.
  intros Hden Hr Hq. exists r.
  unfold new_location, new_location_even, new_location_odd.
  destruct (Z.even den) eqn:Eeven.
  - destruct (Z.eqb_spec r 0) as [E0|E0].
    + cbn [shr_record_of_loc shr_m shr_r shr_s].
      destruct (Z.leb_spec den (2 * r)); cbn [negb orb];
        repeat split; lia.
    + destruct (Z.compare_spec (2 * r) den);
        cbn [shr_record_of_loc shr_m shr_r shr_s];
        destruct (Z.leb_spec den (2 * r)), (Z.eqb_spec (2 * r) den);
        cbn [negb orb]; repeat split; lia.
  - assert (Hodd : 2 * r <> den).
    { intros E. rewrite <- E, Z.even_mul in Eeven. discriminate Eeven. }
    destruct (Z.eqb_spec r 0) as [E0|E0].
    + cbn [shr_record_of_loc shr_m shr_r shr_s].
      destruct (Z.leb_spec den (2 * r)); cbn [negb orb];
        repeat split; lia.
    + destruct (Z.compare_spec (2 * r + 1) den);
        cbn [shr_record_of_loc shr_m shr_r shr_s];
        destruct (Z.leb_spec den (2 * r)), (Z.eqb_spec (2 * r) den);
        cbn [negb orb]; repeat split; lia.
Qed.

Lemma digits2_pos_le (m : positive) (d : Z) :
  Zpos m < 2 ^ d -> Zpos (digits2_pos m) <= d.
Proof.
  intros H. pose proof (digits2_pos_bounds m) as [Hlo _].
  destruct (Z.le_gt_cases (Zpos (digits2_pos m)) d) as [|Hgt]; [assumption|].
  assert (2 ^ d <= 2 ^ (Zpos (digits2_pos m) - 1)).
  { destruct (Z.lt_ge_cases d 0) as [Hneg|Hpos].
    - rewrite (Z.pow_neg_r 2 d) by exact Hneg. apply Z.pow_nonneg. lia.
    - apply Z.pow_le_mono_r; lia. }
  lia.
Qed.

(** The quotient of two integers as a float: away from the quotient by
    a part in [2 ^ 53] at most, in units of the divisor. *)
Lemma div_spec (s : bool) (num den : positive) :
  -1000 <= Zpos (digits2_pos num) - Zpos (digits2_pos den) <= 900 ->
  exists m' e sft,
    0 <= sft /\ 0 <= e + sft
    /\ SFdiv prec emax (S754_finite s num 0) (S754_finite false den 0)
       = S754_finite s m' e
    /\ 2 ^ 53 * Z.abs (Zpos m' * 2 ^ (e + sft) * Zpos den
                       - Zpos num * 2 ^ sft)
       <= Zpos num * 2 ^ sft.
Proof.
  intros HD.
  pose proof (digits2_pos_bounds num) as Hnum.
  pose proof (digits2_pos_bounds den) as Hden.
  set (d1 := Zpos (digits2_pos num)) in *.
  set (d2 := Zpos (digits2_pos den)) in *.
  assert (Hd1 : 1 <= d1) by (unfold d1; lia).
  assert (Hd2 : 1 <= d2) by (unfold d2; lia).
  unfold SFdiv, SFdiv_core_binary. cbn [Zdigits2 xorb]. fold d1. fold d2.
  rewrite !Z.add_0_r, Z.sub_diag, xorb_false_r.
  rewrite (fexp_normal (d1 - d2)) by lia.
  set (e' := Z.min (d1 - d2 - 53) 0).
  set (sft := - e').
  replace (0 - e') with sft by (unfold sft; lia).
  assert (Hsft : 0 <= sft) by (unfold sft, e'; lia).
  assert (Hsft1 : 53 - (d1 - d2) <= sft) by (unfold sft, e'; lia).
  assert (Em : match sft with
               | 0 => Zpos num
               | Zpos _ => Z.shiftl (Zpos num) sft
               | Zneg _ => 0
               end = Zpos num * 2 ^ sft).
  { destruct sft eqn:E; [rewrite Z.pow_0_r; lia | | lia].
    now rewrite Z.shiftl_mul_pow2 by lia. }
  rewrite Em. set (x := Zpos num * 2 ^ sft).
  pose proof (Z_div_mod x (Zpos den) ltac:(lia)) as Hdm.
  destruct (Z.div_eucl x (Zpos den)) as [q r]. destruct Hdm as [Hx Hr].
  assert (HP : 0 < 2 ^ sft) by (apply Z.pow_pos_nonneg; lia).
  assert (Hxlo : 2 ^ 52 * Zpos den <= x).
  { unfold x.
    assert (H1 : 2 ^ (52 + d2) <= 2 ^ (d1 - 1 + sft))
      by (apply Z.pow_le_mono_r; lia).
    rewrite !Z.pow_add_r in H1 by lia. nia. }
  assert (Hxhi : x < 2 ^ (d1 - d2 + sft + 1) * Zpos den).
  { unfold x.
    replace (d1 - d2 + sft + 1) with (d1 + sft - (d2 - 1)) by lia.
    assert (H1 : 2 ^ (d1 + sft) = 2 ^ (d1 + sft - (d2 - 1)) * 2 ^ (d2 - 1))
      by (rewrite <- Z.pow_add_r by lia; f_equal; lia).
    rewrite Z.pow_add_r in H1 by lia. nia. }
  assert (Hq : 2 ^ 52 <= q) by nia.
  assert (Hqhi : q < 2 ^ (d1 - d2 + sft + 1)).
  { assert (H0 : 0 < 2 ^ (d1 - d2 + sft + 1))
      by (apply Z.pow_pos_nonneg; lia). nia. }
  destruct q as [|qp|qp]; [lia| |lia].
  pose proof (digits2_pos_bounds qp) as Hqd.
  pose proof (digits2_pos_le qp _ Hqhi) as Hqd2.
  assert (Hqd1 : 53 <= Zpos (digits2_pos qp)).
  { destruct (Z.le_gt_cases 53 (Zpos (digits2_pos qp))); [assumption|].
    assert (2 ^ Zpos (digits2_pos qp) <= 2 ^ 52)
      by (apply Z.pow_le_mono_r; lia). lia. }
  set (dq := Zpos (digits2_pos qp)) in *.
  rewrite binary_round_aux_finish. unfold shr_fexp. cbn [Zdigits2]. fold dq.
  rewrite (fexp_normal (dq + e')) by (unfold sft in *; lia).
  replace (dq + e' - 53 - e') with (dq - 53) by lia.
  pose proof (new_location_weighed (Zpos den) r (Zpos qp) ltac:(lia) Hr
                ltac:(lia)) as Hw.
  replace (Zpos qp * Zpos den + r) with x in Hw by lia.
  destruct (dq - 53) as [|p|p] eqn:Ed; [| |lia]; cbn [shr fst snd].
  - destruct (finish_spec s _ e' x (Zpos den) ltac:(lia) Hw)
      as (m' & k & Hk & Hres & Herr).
    { assert (Hdq : dq = 53) by lia. rewrite Hdq in Hqd.
      destruct (new_location (Zpos den) r) as [|[| |]];
        cbn [shr_record_of_loc shr_m]; lia. }
    { unfold sft in *. lia. }
    exists m', (e' + k), sft. split; [exact Hsft|].
    split; [unfold sft; lia|]. split; [exact Hres|].
    replace (e' + k + sft) with k by (unfold sft; lia). exact Herr.
  - pose proof (iter_pos_shifted x (Zpos den) p 0 _ ltac:(lia)
                  (Z.le_refl 0)
                  ltac:(unfold shifted; rewrite Z.pow_0_r, Z.mul_1_r;
                        exact Hw)) as Hsh.
    unfold shifted in Hsh. rewrite Z.add_0_l in Hsh.
    set (mrs := iter_pos shr_1 p
                  (shr_record_of_loc (Zpos qp) (new_location (Zpos den) r)))
      in *.
    assert (HPp : 0 < 2 ^ Zpos p) by (apply Z.pow_pos_nonneg; lia).
    assert (Hpow : 2 ^ dq = 2 ^ 53 * 2 ^ Zpos p)
      by (rewrite <- Z.pow_add_r by lia; f_equal; lia).
    assert (Hpow1 : 2 ^ (dq - 1) = 2 ^ 52 * 2 ^ Zpos p)
      by (rewrite <- Z.pow_add_r by lia; f_equal; lia).
    rewrite Hpow, Hpow1 in Hqd.
    assert (Hm1b : 2 ^ 52 <= shr_m mrs < 2 ^ 53).
    { destruct Hsh as (rem & Hm1 & Hrem & H0 & _). nia. }
    destruct (finish_spec s mrs (e' + Zpos p) x (Zpos den * 2 ^ Zpos p)
                ltac:(nia) Hsh Hm1b ltac:(unfold sft in *; lia))
      as (m' & k & Hk & Hres & Herr).
    exists m', (e' + Zpos p + k), sft. split; [exact Hsft|].
    split; [unfold sft; lia|]. split; [exact Hres|].
    replace (e' + Zpos p + k + sft) with (Zpos p + k) by (unfold sft; lia).
    rewrite Z.pow_add_r by lia.
    replace (Zpos m' * (2 ^ Zpos p * 2 ^ k) * Zpos den)
      with (Zpos m' * 2 ^ k * (Zpos den * 2 ^ Zpos p)) by ring.
    exact Herr.
Qed.

(** ** The value of a float *)

Local Open Scope Q_scope.

Lemma two_nonzero : ~ 2 == 0.
Proof. discriminate. Qed.

Lemma pow2_pos (e : Z) : 0 < 2 ^ e.
Proof. apply Qpower_0_lt. reflexivity. Qed.

Lemma pow2_add (a b : Z) : 2 ^ (a + b) == 2 ^ a * 2 ^ b.
Proof. apply Qpower_plus, two_nonzero. Qed.

Lemma pow2_inject (k : Z) : (0 <= k)%Z -> inject_Z (2 ^ k) == 2 ^ k.
Proof. intros H. now rewrite Zpower_Qpower. Qed.

Lemma pow2_le (a b : Z) : (a <= b)%Z -> 2 ^ a <= 2 ^ b.
Proof. intros H. apply Qpower_le_compat_l; [exact H | discriminate]. Qed.

(** The value of a mantissa and an exponent. *)
Definition scaled (m e : Z) : Q := inject_Z m * 2 ^ e.

Lemma scaled_shift (m k e : Z) :
  (0 <= k)%Z -> scaled (m * 2 ^ k) e == scaled m (e + k).
Proof.
  intros Hk. unfold scaled.
  rewrite inject_Z_mult, (pow2_inject k Hk), pow2_add. ring.
Qed.

Lemma scaled_bounds (m : positive) (e : Z) :
  2 ^ (Zpos (digits2_pos m) - 1 + e) <= scaled (Zpos m) e
  /\ scaled (Zpos m) e < 2 ^ (Zpos (digits2_pos m) + e).
Proof.
  pose proof (digits2_pos_bounds m) as [Hlo Hhi].
  pose proof (pow2_pos e) as He. unfold scaled.
  rewrite !pow2_add.
  rewrite <- (pow2_inject (Zpos (digits2_pos m) - 1)) by lia.
  rewrite <- (pow2_inject (Zpos (digits2_pos m))) by lia.
  split.
  - apply Qmult_le_compat_r; [|now apply Qlt_le_weak].
    now rewrite <- Zle_Qle.
  - apply Qmult_lt_compat_r; [exact He|]. now rewrite <- Zlt_Qlt.
Qed.

(** The exponent range that a value between 1/1024 and [2 ^ 60] needs. *)
Lemma scaled_range (m : positive) (e : Z) :
  1 # 1024 <= scaled (Zpos m) e -> scaled (Zpos m) e <= 2 ^ 60 ->
  (-1021 <= Zpos (digits2_pos m) + e <= 972)%Z.
Proof.
  intros Hlo Hhi. destruct (scaled_bounds m e) as [Blo Bhi].
  set (d := Zpos (digits2_pos m)) in *. split.
  - destruct (Z.lt_ge_cases (d + e) (-10)) as [Hlt|]; [|lia].
    exfalso. pose proof (pow2_le (d + e) (-10) ltac:(lia)) as H.
    change (2 ^ (-10)) with (1 # 1024) in H.
    apply (Qlt_irrefl (scaled (Zpos m) e)).
    eapply Qlt_le_trans; [exact Bhi|]. eapply Qle_trans; eassumption.
  - destruct (Z.lt_ge_cases 61 (d - 1 + e)) as [Hlt|]; [|lia].
    exfalso. pose proof (pow2_le 61 (d - 1 + e) ltac:(lia)) as H.
    assert (H60 : 2 ^ 60 < 2 ^ 61) by reflexivity.
    apply (Qlt_irrefl (2 ^ 60)).
    eapply Qlt_le_trans; [exact H60|].
    eapply Qle_trans; [exact H|]. eapply Qle_trans; eassumption.
Qed.

(** The relative error of one rounding. *)
Definition eps : Q := 1 # 9007199254740992.

(** A float that is not negative and is away from [v] by a part in
    [2 ^ 53] at most. *)
Definition rounds (x : float) (v : Q) : Prop :=
  exists m e, x = S754_finite false m e
              /\ v - v * eps <= value x /\ value x <= v + v * eps.

Lemma binary_round_aux_rounds (m : positive) (e : Z) :
  1 # 1024 <= scaled (Zpos m) e -> scaled (Zpos m) e <= 2 ^ 60 ->
  rounds (binary_round_aux prec emax false (Zpos m) e loc_Exact)
         (scaled (Zpos m) e).
Proof.
  intros Hlo Hhi.
  destruct (binary_round_aux_spec false m e (scaled_range m e Hlo Hhi))
    as (m' & k & Hk & -> & Herr).
  exists m', (e + k)%Z. split; [reflexivity|].
  cbn [value cond_Zopp]. fold (scaled (Zpos m') (e + k)).
  rewrite <- (scaled_shift (Zpos m') k e Hk). unfold scaled, eps.
  set (a := (Zpos m' * 2 ^ k)%Z) in *.
  assert (H1 : inject_Z (2 ^ 53 * Zpos m) <= inject_Z (2 ^ 53 * a + Zpos m))
    by (rewrite <- Zle_Qle; lia).
  assert (H2 : inject_Z (2 ^ 53 * a) <= inject_Z (2 ^ 53 * Zpos m + Zpos m))
    by (rewrite <- Zle_Qle; lia).
  rewrite inject_Z_plus, !inject_Z_mult in H1, H2.
  change (inject_Z (2 ^ 53)) with (9007199254740992 # 1) in H1, H2.
  pose proof (pow2_pos e) as He.
  split.
  - setoid_replace (inject_Z (Zpos m) * 2 ^ e
                    - inject_Z (Zpos m) * 2 ^ e * (1 # 9007199254740992))
      with ((inject_Z (Zpos m)
             - inject_Z (Zpos m) * (1 # 9007199254740992)) * 2 ^ e)
      by ring.
    apply Qmult_le_compat_r; [lra | now apply Qlt_le_weak].
  - setoid_replace (inject_Z (Zpos m) * 2 ^ e
                    + inject_Z (Zpos m) * 2 ^ e * (1 # 9007199254740992))
      with ((inject_Z (Zpos m)
             + inject_Z (Zpos m) * (1 # 9007199254740992)) * 2 ^ e)
      by ring.
    apply Qmult_le_compat_r; [lra | now apply Qlt_le_weak].
Qed.


Lemma rounds_ext (x : float) (v v' : Q) : v == v' -> rounds x v -> rounds x v'.
Proof.
  intros E (m & e & Hx & Hlo & Hhi). exists m, e.
  split; [exact Hx|]. rewrite <- E. now split.
Qed.

(** ** Aligning a mantissa on a smaller exponent *)

Lemma iter_xO_value (m d : positive) :
  Zpos (Pos.iter xO m d) = (Zpos m * 2 ^ Zpos d)%Z.
Proof.
  induction d as [|d IH] using Pos.peano_ind.
  - cbn [Pos.iter]. lia.
  - rewrite Pos.iter_succ, Pos2Z.inj_succ, Z.pow_succ_r, Pos2Z.inj_xO, IH
      by lia. ring.
Qed.

Lemma shl_align_value (m : positive) (e e0 : Z) :
  scaled (Zpos (fst (shl_align m e e0))) (snd (shl_align m e e0))
  == scaled (Zpos m) e.
Proof.
  unfold shl_align. destruct (e0 - e)%Z as [|d|d] eqn:E; cbn [fst snd];
    try reflexivity.
  rewrite iter_xO_value, scaled_shift by lia.
  unfold scaled. replace (e0 + Zpos d)%Z with e by lia. reflexivity.
Qed.

Lemma shl_align_on (m : positive) (e e0 : Z) :
  (e0 <= e)%Z ->
  scaled (Zpos (fst (shl_align m e e0))) e0 == scaled (Zpos m) e.
Proof.
  intros H. rewrite <- (shl_align_value m e e0).
  unfold shl_align. destruct (e0 - e)%Z as [|d|d] eqn:E; cbn [fst snd];
    try reflexivity; [|lia].
  replace e0 with e by lia. reflexivity.
Qed.

Lemma binary_round_rounds (m : positive) (e : Z) :
  1 # 1024 <= scaled (Zpos m) e -> scaled (Zpos m) e <= 2 ^ 60 ->
  rounds (binary_round prec emax false m e) (scaled (Zpos m) e).
Proof.
  intros Hlo Hhi. unfold binary_round.
  pose proof (shl_align_value m e
                (fexp prec emax (Zpos (digits2_pos m) + e))) as Hv.
  destruct (shl_align m e (fexp prec emax (Zpos (digits2_pos m) + e)))
    as [mz ez]. cbn [fst snd] in Hv.
  apply (rounds_ext _ _ _ Hv).
  apply binary_round_aux_rounds; now rewrite Hv.
Qed.

(** ** The operations *)

Lemma value_finite (m : positive) (e : Z) :
  value (S754_finite false m e) = scaled (Zpos m) e.
Proof. reflexivity. Qed.

Lemma mul_rounds (mx my : positive) (ex ey : Z) :
  let x := S754_finite false mx ex in
  let y := S754_finite false my ey in
  1 # 1024 <= value x * value y -> value x * value y <= 2 ^ 60 ->
  rounds (mul x y) (value x * value y).
Proof.
  cbv zeta. rewrite !value_finite. intros Hlo Hhi.
  assert (E : scaled (Zpos (mx * my)) (ex + ey)
              == scaled (Zpos mx) ex * scaled (Zpos my) ey).
  { unfold scaled. rewrite Pos2Z.inj_mul, inject_Z_mult, pow2_add. ring. }
  apply (rounds_ext _ _ _ E). unfold mul. cbn [SFmul xorb].
  apply binary_round_aux_rounds; now rewrite E.
Qed.

Lemma add_rounds (mx my : positive) (ex ey : Z) :
  let x := S754_finite false mx ex in
  let y := S754_finite false my ey in
  1 # 1024 <= value x + value y -> value x + value y <= 2 ^ 60 ->
  rounds (add x y) (value x + value y).
Proof.
  cbv zeta. rewrite !value_finite. intros Hlo Hhi.
  unfold add. cbn [SFadd cond_Zopp Z.add].
  set (ez := Z.min ex ey).
  assert (E : scaled (Zpos (fst (shl_align mx ex ez)
                            + fst (shl_align my ey ez))) ez
              == scaled (Zpos mx) ex + scaled (Zpos my) ey).
  { rewrite <- (shl_align_on mx ex ez), <- (shl_align_on my ey ez)
      by (unfold ez; lia).
    unfold scaled. rewrite Pos2Z.inj_add, inject_Z_plus. ring. }
  apply (rounds_ext _ _ _ E). cbn [binary_normalize].
  apply binary_round_rounds; now rewrite E.
Qed.

Lemma of_nat_zero : of_nat 0 = S754_zero false.
Proof. reflexivity. Qed.

Lemma of_nat_rounds (n : nat) :
  (0 < n)%nat -> inject_Z (Z.of_nat n) <= 2 ^ 60 ->
  rounds (of_nat n) (inject_Z (Z.of_nat n)).
Proof.
  intros Hn Hhi. unfold of_nat.
  destruct (Z.of_nat n) as [|p|p] eqn:E; [lia| |lia].
  cbn [binary_normalize].
  assert (Ev : scaled (Zpos p) 0 == inject_Z (Zpos p))
    by (unfold scaled; change (2 ^ 0) with 1; ring).
  apply (rounds_ext _ _ _ Ev).
  apply binary_round_rounds; rewrite Ev; [|exact Hhi].
  assert (H1 : inject_Z 1 <= inject_Z (Zpos p)) by (rewrite <- Zle_Qle; lia).
  eapply Qle_trans; [|exact H1]. discriminate.
Qed.

Lemma mul_zero_l (m : positive) (e : Z) :
  mul (S754_zero false) (S754_finite false m e) = S754_zero false.
Proof. reflexivity. Qed.

Lemma add_zero_r (m : positive) (e : Z) :
  add (S754_finite false m e) (S754_zero false) = S754_finite false m e.
Proof. reflexivity. Qed.


(** ** The float nearest to a quotient *)

Lemma nearest_rounds (num den : positive) :
  (-1000 <= Zpos (digits2_pos num) - Zpos (digits2_pos den) <= 900)%Z ->
  rounds (nearest (Zpos num) den) (Zpos num # den).
Proof.
  intros HD.
  destruct (div_spec false num den HD)
    as (m' & e & sft & Hsft & Hes & Hres & Herr).
  unfold nearest. rewrite Hres. exists m', e. split; [reflexivity|].
  cbn [value cond_Zopp].
  set (A := inject_Z (Zpos m') * 2 ^ e).
  set (P := 2 ^ sft). set (D := inject_Z (Zpos den)).
  set (v := Zpos num # den).
  assert (HP : 0 < P) by apply pow2_pos.
  assert (HDpos : 0 < D)
    by (unfold D; change 0 with (inject_Z 0); now rewrite <- Zlt_Qlt).
  assert (Hv : inject_Z (Zpos num) == v * D).
  { unfold v, D, Qeq, Qmult, inject_Z. cbn [Qnum Qden].
    rewrite Pos2Z.inj_mul. ring. }
  assert (HA : inject_Z (Zpos m' * 2 ^ (e + sft)) == A * P).
  { rewrite inject_Z_mult, (pow2_inject (e + sft) Hes), pow2_add.
    unfold A, P. ring. }
  assert (HN : inject_Z (Zpos num * 2 ^ sft) == v * D * P).
  { rewrite inject_Z_mult, (pow2_inject sft Hsft), Hv. reflexivity. }
  assert (H1 : inject_Z (2 ^ 53 * (Zpos m' * 2 ^ (e + sft) * Zpos den))
               <= inject_Z (2 ^ 53 * (Zpos num * 2 ^ sft)
                            + Zpos num * 2 ^ sft))
    by (rewrite <- Zle_Qle; lia).
  assert (H2 : inject_Z (2 ^ 53 * (Zpos num * 2 ^ sft))
               <= inject_Z (2 ^ 53 * (Zpos m' * 2 ^ (e + sft) * Zpos den)
                            + Zpos num * 2 ^ sft))
    by (rewrite <- Zle_Qle; lia).
  rewrite ?inject_Z_plus, ?inject_Z_mult in H1, H2.
  rewrite <- !inject_Z_mult in H1, H2.
  rewrite !inject_Z_mult with (x := (2 ^ 53)%Z) in H1, H2.
  rewrite (inject_Z_mult (Zpos m' * 2 ^ (e + sft)) (Zpos den)) in H1, H2.
  rewrite HA, HN in H1, H2. fold D in H1, H2.
  change (inject_Z (2 ^ 53)) with (9007199254740992 # 1) in H1, H2.
  unfold eps. split.
  - apply Qmult_lt_0_le_reg_r with (z := D * P);
      [now apply Qmult_lt_0_compat|].
    apply Qmult_le_l with (z := 9007199254740992 # 1); [reflexivity|].
    setoid_replace ((9007199254740992 # 1)
                    * ((v - v * (1 # 9007199254740992)) * (D * P)))
      with ((9007199254740992 # 1) * (v * D * P) - v * D * P) by field.
    setoid_replace ((9007199254740992 # 1) * (A * (D * P)))
      with ((9007199254740992 # 1) * (A * P * D)) by ring.
    lra.
  - apply Qmult_lt_0_le_reg_r with (z := D * P);
      [now apply Qmult_lt_0_compat|].
    apply Qmult_le_l with (z := 9007199254740992 # 1); [reflexivity|].
    setoid_replace ((9007199254740992 # 1)
                    * ((v + v * (1 # 9007199254740992)) * (D * P)))
      with ((9007199254740992 # 1) * (v * D * P) + v * D * P) by field.
    setoid_replace ((9007199254740992 # 1) * (A * (D * P)))
      with ((9007199254740992 # 1) * (A * P * D)) by ring.
    lra.
Qed.

(** ** The literals *)

Lemma f0_1_bits : f0_1 = S754_finite false 7205759403792794 (-56).
Proof. reflexivity. Qed.

Lemma f0_5_bits : f0_5 = S754_finite false 4503599627370496 (-53).
Proof. reflexivity. Qed.

(** The float [0.1] is above the tenth by one part in [10 * 2 ^ 54]. *)
Lemma f0_1_value : value f0_1 == (1 # 10) + (1 # 180143985094819840).
Proof. reflexivity. Qed.

Lemma f0_5_value : value f0_5 == 1 # 2.
Proof. reflexivity. Qed.

(** ** Rounding to the nearest integer *)

Lemma round_half_even_near (q : Q) (M : Z) :
  inject_Z M - (1 # 2) < q -> q < inject_Z M + (1 # 2) ->
  round_half_even q = M.
Proof.
  destruct q as [n d]. unfold Qlt, Qminus, Qplus, Qopp, inject_Z.
  cbn [Qnum Qden]. intros Hlo Hhi. unfold round_half_even. cbn [Qnum Qden].
  pose proof (Z.div_mod n (Zpos d) ltac:(lia)) as Hdiv.
  pose proof (Z.mod_pos_bound n (Zpos d) ltac:(lia)) as Hmod.
  set (f := (n / Zpos d)%Z) in *. set (r := (n mod Zpos d)%Z) in *.
  rewrite !Pos2Z.inj_mul in Hlo, Hhi.
  clearbody f r.
  assert (Hd : (0 < Zpos d)%Z) by lia.
  assert (Hf : (f <= M <= f + 1)%Z).
  { split.
    - assert (H : ((2 * f - 1) * Zpos d < (2 * M + 1) * Zpos d)%Z) by nia.
      apply Z.mul_lt_mono_pos_r in H; lia.
    - assert (H : ((2 * M - 1) * Zpos d < (2 * f + 2) * Zpos d)%Z) by nia.
      apply Z.mul_lt_mono_pos_r in H; lia. }
  destruct (Z.compare_spec (2 * r) (Zpos d)) as [E|E|E].
  - exfalso.
    assert (H1 : ((2 * M - 1) * Zpos d < (2 * f + 1) * Zpos d)%Z) by lia.
    assert (H2 : ((2 * f + 1) * Zpos d < (2 * M + 1) * Zpos d)%Z) by lia.
    apply Z.mul_lt_mono_pos_r in H1, H2; lia.
  - assert (H : ((2 * M - 1) * Zpos d < (2 * f + 1) * Zpos d)%Z) by lia.
    apply Z.mul_lt_mono_pos_r in H; lia.
  - assert (H : ((2 * f + 1) * Zpos d < (2 * M + 1) * Zpos d)%Z) by lia.
    apply Z.mul_lt_mono_pos_r in H; lia.
Qed.

(** ** Floats close to a number *)

Local Open Scope Q_scope.

(** A float that is not negative and within [err] of [sum]. *)
Definition approx (x : float) (sum err : Q) : Prop :=
  exists m e, x = S754_finite false m e
              /\ sum - err <= value x /\ value x <= sum + err.

(** The error of one rounding of a number below [2 ^ 36]. *)
Definition delta : Q := 1 # 131072.

Lemma rounds_approx (x : float) (v : Q) :
  rounds x v -> 0 <= v -> v <= 2 ^ 36 -> approx x v delta.
Proof.
  intros (m & e & Hx & Hlo & Hhi) H0 H36. exists m, e.
  split; [exact Hx|]. unfold eps, delta in *.
  change (2 ^ 36) with (68719476736 # 1) in H36. split; lra.
Qed.

(** The first term: the number of lines times [0.1]. *)
Lemma lines_term (n : nat) :
  (0 < n)%nat -> (Z.of_nat n <= 2 ^ 33)%Z ->
  approx (mul (of_nat n) f0_1) (inject_Z (Z.of_nat n) * (1 # 10))
         (3 * delta).
Proof.
  intros Hn Hmax.
  assert (H1 : 1 <= inject_Z (Z.of_nat n))
    by (change 1 with (inject_Z 1); rewrite <- Zle_Qle; lia).
  assert (H2 : inject_Z (Z.of_nat n) <= 8589934592 # 1)
    by (change (8589934592 # 1) with (inject_Z (2 ^ 33));
        rewrite <- Zle_Qle; lia).
  destruct (of_nat_rounds n Hn) as (m & e & Hx & Hlo & Hhi).
  { change (2 ^ 60) with (1152921504606846976 # 1). lra. }
  rewrite Hx in *. rewrite f0_1_bits.
  pose proof f0_1_value as Ht. rewrite f0_1_bits in Ht.
  set (v := value (S754_finite false m e)) in *.
  unfold eps in *.
  destruct (mul_rounds m 7205759403792794 e (-56))
    as (m' & e' & Hx' & Hlo' & Hhi'); cbv zeta; fold v; rewrite ?Ht.
  { lra. }
  { change (2 ^ 60) with (1152921504606846976 # 1). lra. }
  exists m', e'. split; [exact Hx'|].
  cbv zeta in Hlo', Hhi'. fold v in Hlo', Hhi'. rewrite Ht in Hlo', Hhi'.
  unfold eps, delta in *. split; lra.
Qed.

(** One turn of the loop: the count of a keyword times [0.5] is added. *)
Lemma keyword_term (acc : float) (c : nat) (sum err : Q) :
  approx acc sum err -> 1 # 16 <= sum - err ->
  (Z.of_nat c <= 2 ^ 32)%Z ->
  sum + err + inject_Z (Z.of_nat c) * (1 # 2) <= 2 ^ 35 ->
  approx (add acc (mul (of_nat c) f0_5))
         (sum + inject_Z (Z.of_nat c) * (1 # 2)) (err + 3 * delta).
Proof.
  intros (ma & ea & Ha & Alo & Ahi) Hlow Hc Hhigh.
  change (2 ^ 35) with (34359738368 # 1) in Hhigh.
  rewrite Ha in *. set (a := value (S754_finite false ma ea)) in *.
  rewrite f0_5_bits.
  destruct c as [|c'].
  - rewrite of_nat_zero, mul_zero_l, add_zero_r.
    exists ma, ea. split; [reflexivity|]. fold a.
    change (inject_Z (Z.of_nat 0)) with 0. unfold delta. split; lra.
  - set (c := S c') in *.
    assert (H1 : 1 <= inject_Z (Z.of_nat c))
      by (change 1 with (inject_Z 1); rewrite <- Zle_Qle; lia).
    assert (H2 : inject_Z (Z.of_nat c) <= 4294967296 # 1)
      by (change (4294967296 # 1) with (inject_Z (2 ^ 32));
          rewrite <- Zle_Qle; lia).
    destruct (of_nat_rounds c ltac:(lia)) as (m & e & Hx & Hlo & Hhi).
    { change (2 ^ 60) with (1152921504606846976 # 1). lra. }
    rewrite Hx in *. set (v := value (S754_finite false m e)) in *.
    pose proof f0_5_value as Ht. rewrite f0_5_bits in Ht.
    unfold eps in *.
    destruct (mul_rounds m 4503599627370496 e (-53))
      as (m' & e' & Hx' & Hlo' & Hhi'); cbv zeta; fold v; rewrite ?Ht.
    { lra. }
    { change (2 ^ 60) with (1152921504606846976 # 1). lra. }
    cbv zeta in Hlo', Hhi'. fold v in Hlo', Hhi'. rewrite Ht in Hlo', Hhi'.
    rewrite Hx' in *.
    set (h := value (S754_finite false m' e')) in *.
    destruct (add_rounds ma m' ea e')
      as (m'' & e'' & Hx'' & Hlo'' & Hhi''); cbv zeta; fold a; fold h.
    { unfold eps in *. lra. }
    { change (2 ^ 60) with (1152921504606846976 # 1). unfold eps in *. lra. }
    cbv zeta in Hlo'', Hhi''. fold a in Hlo'', Hhi''. fold h in Hlo'', Hhi''.
    exists m'', e''. split; [exact Hx''|].
    unfold eps, delta in *. split; lra.
Qed.


Lemma approx_ext (x : float) (sum sum' err err' : Q) :
  sum == sum' -> err == err' -> approx x sum err -> approx x sum' err'.
Proof.
  intros Es Ee (m & e & Hx & Hlo & Hhi). exists m, e.
  split; [exact Hx|]. rewrite <- Es, <- Ee. now split.
Qed.

Lemma inject_of_nat_succ (n : nat) :
  inject_Z (Z.of_nat (S n)) == inject_Z (Z.of_nat n) + 1.
Proof. rewrite Nat2Z.inj_succ. unfold Z.succ. now rewrite inject_Z_plus. Qed.

Lemma inject_of_nat_add (a b : nat) :
  inject_Z (Z.of_nat (a + b))
  == inject_Z (Z.of_nat a) + inject_Z (Z.of_nat b).
Proof. now rewrite Nat2Z.inj_add, inject_Z_plus. Qed.

Lemma inject_of_nat_nonneg (n : nat) : 0 <= inject_Z (Z.of_nat n).
Proof. change 0 with (inject_Z 0). rewrite <- Zle_Qle. lia. Qed.

(** The loop over the keywords: every turn adds half the count of a
    keyword and three roundings. *)
Lemma keyword_loop {A : Type} (f : A -> nat) (l : list A) :
  forall acc sum err,
    approx acc sum err ->
    (forall k, In k l -> (Z.of_nat (f k) <= 2 ^ 32)%Z) ->
    (1 # 16) + inject_Z (Z.of_nat (List.length l)) * (3 * delta)
    <= sum - err ->
    sum + err
    + inject_Z (Z.of_nat (List.length l)) * ((2147483648 # 1) + 3 * delta)
    <= 2 ^ 35 ->
    approx
      (fold_left (fun acc k => add acc (mul (of_nat (f k)) f0_5)) l acc)
      (sum + inject_Z (Z.of_nat (fold_right (fun k t => (f k + t)%nat) O l))
             * (1 # 2))
      (err + inject_Z (Z.of_nat (List.length l)) * (3 * delta)).
Proof.
  induction l as [|k l IH]; intros acc sum err Hacc Hf Hlow Hhigh.
  - cbn [fold_left fold_right List.length]. revert Hacc.
    apply approx_ext; change (inject_Z (Z.of_nat 0)) with 0; ring.
  - cbn [fold_left fold_right]. cbn [List.length] in Hlow, Hhigh.
    rewrite inject_of_nat_succ in Hlow, Hhigh.
    pose proof (inject_of_nat_nonneg (List.length l)) as Hlen.
    pose proof (inject_of_nat_nonneg (f k)) as Hk0.
    assert (Hk : inject_Z (Z.of_nat (f k)) <= 4294967296 # 1).
    { change (4294967296 # 1) with (inject_Z (2 ^ 32)).
      rewrite <- Zle_Qle. apply Hf. now left. }
    change (2 ^ 35) with (34359738368 # 1) in *. unfold delta in *.
    eapply approx_ext;
      [| |apply (IH (add acc (mul (of_nat (f k)) f0_5))
                    (sum + inject_Z (Z.of_nat (f k)) * (1 # 2))
                    (err + 3 * (1 # 131072)))].
    + rewrite inject_of_nat_add. ring.
    + cbn [List.length]. rewrite inject_of_nat_succ. ring.
    + apply keyword_term; try assumption.
      * lra.
      * apply Hf. now left.
      * change (2 ^ 35) with (34359738368 # 1). lra.
    + intros k' Hk'. apply Hf. now right.
    + lra.
    + lra.
Qed.

(** ** Rounding to two decimals *)

Lemma round2_near (x : float) (hundredths : Z) (err : Q) :
  (0 < hundredths)%Z ->
  approx x (inject_Z hundredths * (1 # 100)) err -> err < 1 # 200 ->
  round2 x = nearest hundredths 100.
Proof.
  intros Hpos (m & e & -> & Hlo & Hhi) Herr. unfold round2.
  rewrite (round_half_even_near _ hundredths).
  - destruct hundredths; [lia | reflexivity | lia].
  - change (inject_Z 100) with (100 # 1). lra.
  - change (inject_Z 100) with (100 # 1). lra.
Qed.

End FloatFacts.

(* ================================================================== *)
(** * Properties of the complexity score *)
(* ================================================================== *)

Module ComplexityFacts.
Import PyStr PyStrFacts CodeAnalyzer.

(** ** Occurrences of a keyword *)

(** The number of positions of [s] at which [kw] starts. *)
Fixpoint occurrences (kw s : string) : nat :=
  match s with
  | "" => 0
  | String _ r => (if startswith s kw then 1 else 0) + occurrences kw r
  end.

(** [kw] starts at the head of [s] when case is ignored; [kw] is in lower
    case. *)
Fixpoint starts_ignoring_case (s kw : string) : bool :=
  match kw, s with
  | "", _ => true
  | String _ _, "" => false
  | String a kw', String b s' =>
      Ascii.eqb a (lower_char b) && starts_ignoring_case s' kw'
  end.

(** The case-insensitive substring occurrence count of [kw] in [s]. *)
Fixpoint occurrences_ignoring_case (kw s : string) : nat :=
  match s with
  | "" => 0
  | String _ r =>
      (if starts_ignoring_case s kw then 1 else 0)
      + occurrences_ignoring_case kw r
  end.

(** No proper suffix of [kw] other than the empty one starts [kw]: two
    occurrences of such a keyword never overlap. *)
Definition unbordered (kw : string) : bool :=
  forallb (fun j => negb (startswith kw (drop j kw)))
          (seq 1 (String.length kw - 1)).

Lemma starts_ignoring_case_lower (s kw : string) :
  starts_ignoring_case s kw = startswith (lower s) kw.
Proof.
  revert s; induction kw as [|a kw IH]; intros [|b s]; simpl;
    try reflexivity.
  now rewrite IH.
Qed.

Lemma occurrences_ignoring_case_lower (kw s : string) :
  occurrences_ignoring_case kw s = occurrences kw (lower s).
Proof.
  induction s as [|c r IH]; [reflexivity|].
  cbn [occurrences_ignoring_case lower occurrences].
  rewrite starts_ignoring_case_lower, IH. reflexivity.
Qed.

Lemma startswith_drop (i : nat) :
  forall s kw, startswith s kw = true ->
               startswith (drop i s) (drop i kw) = true.
Proof.
  induction i as [|i IH]; intros s kw H; [exact H|].
  destruct kw as [|a kw].
  - change (drop (S i) "") with "". now destruct (drop (S i) s).
  - destruct s as [|b s]; [discriminate|].
    simpl in *. apply andb_true_iff in H as [_ H]. now apply IH.
Qed.

(** Two prefixes of one text: the shorter starts the longer. *)
Lemma prefixes_nest (a : string) :
  forall x b, startswith x a = true -> startswith x b = true ->
              String.length a <= String.length b ->
              startswith b a = true.
Proof.
  induction a as [|c a IH]; intros x b Ha Hb Hlen; [now destruct b|].
  destruct b as [|d b]; [simpl in Hlen; lia|].
  destruct x as [|e x]; [discriminate|].
  simpl in *.
  apply andb_true_iff in Ha as [Hce Ha].
  apply andb_true_iff in Hb as [Hde Hb].
  apply Ascii.eqb_eq in Hce, Hde; subst.
  rewrite Ascii.eqb_refl; simpl.
  apply IH with x; [exact Ha | exact Hb | lia].
Qed.

Lemma length_drop (i : nat) :
  forall s, String.length (drop i s) <= String.length s.
Proof.
  induction i as [|i IH]; intros [|c s]; simpl; try lia.
  specialize (IH s). lia.
Qed.

Lemma unbordered_spec (kw : string) (j : nat) :
  unbordered kw = true -> 0 < j < String.length kw ->
  startswith kw (drop j kw) = false.
Proof.
  unfold unbordered. rewrite forallb_forall. intros H Hj.
  apply negb_true_iff, H, in_seq. lia.
Qed.

(** An occurrence of an unbordered keyword leaves no room for another one
    before it ends. *)
Lemma no_overlap (kw s : string) (j : nat) :
  unbordered kw = true -> startswith s kw = true ->
  0 < j < String.length kw -> startswith (drop j s) kw = false.
Proof.
  intros Hu Hs Hj.
  destruct (startswith (drop j s) kw) eqn:E; [|reflexivity].
  rewrite <- (unbordered_spec kw j Hu Hj).
  symmetry. apply prefixes_nest with (drop j s).
  - now apply startswith_drop.
  - exact E.
  - apply length_drop.
Qed.

(** [str.count] skips the characters of the occurrence it has just
    counted; for an unbordered keyword no occurrence starts there. *)
Lemma count_from_occurrences (kw : string) :
  unbordered kw = true ->
  forall s skip,
    (forall j, j < skip -> startswith (drop j s) kw = false) ->
    count_from kw skip s = occurrences kw s.
Proof.
  intros Hu. induction s as [|c r IH]; intros skip Hskip.
  - destruct skip; reflexivity.
  - destruct skip as [|k]; cbn [count_from occurrences].
    + destruct (startswith (String c r) kw) eqn:E.
      * rewrite IH; [reflexivity|].
        intros j Hj.
        apply (no_overlap kw (String c r) (S j) Hu E). lia.
      * apply IH. intros j Hj. lia.
    + assert (H0 : startswith (String c r) kw = false)
        by (apply (Hskip 0); lia).
      rewrite H0. simpl.
      apply IH. intros j Hj. apply (Hskip (S j)). lia.
Qed.

Lemma count_occurrences (kw s : string) :
  unbordered kw = true -> is_empty kw = false ->
  count s kw = occurrences kw s.
Proof.
  intros Hu Hne. unfold count. rewrite Hne.
  apply count_from_occurrences; [exact Hu|]. intros j Hj. lia.
Qed.

Lemma control_structures_unbordered :
  forallb (fun kw => unbordered kw && negb (is_empty kw)) control_structures
  = true.
Proof. reflexivity. Qed.

(** What [content.lower().count(structure)] counts is the number of
    case-insensitive occurrences of the keyword. *)
Lemma count_control_structure (content kw : string) :
  In kw control_structures ->
  count (lower content) kw = occurrences_ignoring_case kw content.
Proof.
  intros Hin.
  pose proof control_structures_unbordered as H.
  rewrite forallb_forall in H. specialize (H kw Hin).
  apply andb_true_iff in H as [Hu Hne]. apply negb_true_iff in Hne.
  rewrite occurrences_ignoring_case_lower.
  now apply count_occurrences.
Qed.

(** ** The size of the counts *)

Definition sum_over (f : string -> nat) (l : list string) : nat :=
  fold_right (fun kw acc => f kw + acc) 0 l.

(** The sum, over the seven keywords, of the case-insensitive occurrence
    counts. *)
Definition keyword_occurrences (content : string) : nat :=
  sum_over (fun kw => occurrences_ignoring_case kw content)
           control_structures.

(** [len(content.split(LF))] *)
Definition lines_of (content : string) : nat :=
  List.length (split_char LF content).

Fixpoint line_feeds (s : string) : nat :=
  match s with
  | "" => 0
  | String c r => (if Ascii.eqb c LF then 1 else 0) + line_feeds r
  end.

Lemma lines_of_line_feeds (content : string) :
  lines_of content = S (line_feeds content).
Proof.
  unfold lines_of, split_char.
  induction content as [|c r IH]; [reflexivity|].
  simpl. destruct (Ascii.eqb c LF); simpl.
  - now rewrite IH.
  - destruct (split_by (fun c0 => Ascii.eqb c0 LF) r); simpl in *; lia.
Qed.

Lemma sum_over_ext (f g : string -> nat) (l : list string) :
  (forall kw, In kw l -> f kw = g kw) -> sum_over f l = sum_over g l.
Proof.
  unfold sum_over.
  induction l as [|kw l IH]; intros H; simpl; [reflexivity|].
  rewrite H by now left. rewrite IH; [reflexivity|].
  intros; apply H; now right.
Qed.

Lemma line_feeds_le (s : string) : line_feeds s <= String.length s.
Proof.
  induction s as [|c r IH]; [reflexivity|]. cbn [line_feeds String.length].
  destruct (Ascii.eqb c LF); lia.
Qed.

Lemma occurrences_ignoring_case_le (kw s : string) :
  occurrences_ignoring_case kw s <= String.length s.
Proof.
  induction s as [|c r IH]; [reflexivity|].
  cbn [occurrences_ignoring_case String.length].
  destruct (starts_ignoring_case (String c r) kw); lia.
Qed.

(** ** The score *)

Import PyFloat FloatFacts.

(** The text [a], [b], [c] on three lines: the product of 3 and [0.1] is
    the float above three tenths, and the rounding to two decimals gives
    the float nearest to three tenths. *)
Lemma three_lines_are_rounded :
  mul (of_nat 3) f0_1 = S754_finite false 5404319552844596 (-54)
  /\ _calculate_complexity ("a" ++ nl ++ "b" ++ nl ++ "c")
     = S754_finite false 5404319552844595 (-54)
  /\ nearest 3 10 = S754_finite false 5404319552844595 (-54).
Proof. repeat split; vm_compute; reflexivity. Qed.

(** The float that the loops compute is within 24 roundings of the exact
    sum. *)
Lemma complexity_sum_is_close (content : string) :
  (Z.of_nat (String.length content) < 2 ^ 32)%Z ->
  approx
    (fold_left
       (fun acc structure =>
          add acc (mul (of_nat (count (lower content) structure)) f0_5))
       control_structures
       (mul (of_nat (lines_of content)) f0_1))
    (inject_Z (10 * Z.of_nat (lines_of content)
               + 50 * Z.of_nat (keyword_occurrences content))
     * (1 # 100))%Q
    (24 * delta)%Q.
Proof.
  intros Hlen.
  pose proof (lines_of_line_feeds content) as Hl.
  pose proof (line_feeds_le content) as Hlf.
  assert (Hn : (Z.of_nat (lines_of content) <= 2 ^ 32)%Z) by lia.
  assert (Hn1 : (1 <= Z.of_nat (lines_of content))%Z) by lia.
  assert (Hcount : forall kw, In kw control_structures ->
            (Z.of_nat (count (lower content) kw) <= 2 ^ 32)%Z).
  { intros kw Hkw. rewrite (count_control_structure content kw Hkw).
    pose proof (occurrences_ignoring_case_le kw content). lia. }
  assert (Qn : (inject_Z (Z.of_nat (lines_of content)) <= 4294967296 # 1)%Q).
  { change (4294967296 # 1)%Q with (inject_Z (2 ^ 32)).
    now rewrite <- Zle_Qle. }
  assert (Qn1 : (1 <= inject_Z (Z.of_nat (lines_of content)))%Q).
  { change 1%Q with (inject_Z 1). now rewrite <- Zle_Qle. }
  pose proof (lines_term (lines_of content) ltac:(lia) ltac:(lia)) as Hstart.
  pose proof (keyword_loop (fun kw => count (lower content) kw)
                control_structures _ _ _ Hstart Hcount) as Hloop.
  cbv beta in Hloop.
  change (inject_Z (Z.of_nat (List.length control_structures)))
    with (7 # 1)%Q in Hloop.
  change (fold_right (fun k t => count (lower content) k + t) 0
            control_structures)
    with (sum_over (fun kw => count (lower content) kw) control_structures)
    in Hloop.
  rewrite (sum_over_ext _ (fun kw => occurrences_ignoring_case kw content))
    in Hloop by (intros; now apply count_control_structure).
  fold (keyword_occurrences content) in Hloop.
  unfold delta in *. change (2 ^ 35)%Q with (34359738368 # 1)%Q in Hloop.
  eapply approx_ext; [| |apply Hloop].
  - rewrite inject_Z_plus, !inject_Z_mult.
    change (inject_Z 10) with (10 # 1)%Q.
    change (inject_Z 50) with (50 # 1)%Q. field.
  - reflexivity.
  - lra.
  - lra.
Qed.

Lemma keyword_occurrences_le (content : string) :
  keyword_occurrences content <= 7 * String.length content.
Proof.
  unfold keyword_occurrences, sum_over, control_structures.
  cbn [fold_right].
  pose proof (occurrences_ignoring_case_le "if" content).
  pose proof (occurrences_ignoring_case_le "for" content).
  pose proof (occurrences_ignoring_case_le "while" content).
  pose proof (occurrences_ignoring_case_le "switch" content).
  pose proof (occurrences_ignoring_case_le "case" content).
  pose proof (occurrences_ignoring_case_le "try" content).
  pose proof (occurrences_ignoring_case_le "catch" content).
  lia.
Qed.

(** The decimal number that the rule gives: 0.1 times the number of lines
    plus 0.5 times the sum of the case-insensitive occurrence counts of
    the seven keywords. *)
Definition exact_score (content : string) : Q :=
  (1 # 10) * inject_Z (Z.of_nat (lines_of content))
  + (1 # 2) * inject_Z (Z.of_nat (keyword_occurrences content)).

(** C8.  For a text of less than [2 ^ 32] characters, the score is the
    float nearest to the decimal number 0.1 times the number of lines plus
    0.5 times the sum of the case-insensitive occurrence counts of the
    seven keywords, a number of hundredths: the roundings of the float
    products and sums are undone by the rounding to two decimals.  The
    score is away from that decimal number by a part in [2 ^ 53] at most.
    A text of 1,000 lines with 5 occurrences of [if], 3 of [for] and none
    of the other keywords scores the float 104. *)
Theorem complexity_score_formula (content : string) :
  (Z.of_nat (String.length content) < 2 ^ 32)%Z ->
  _calculate_complexity content
  = nearest (10 * Z.of_nat (lines_of content)
             + 50 * Z.of_nat (keyword_occurrences content)) 100
  /\ (exact_score content - exact_score content * eps
      <= value (_calculate_complexity content)
      <= exact_score content + exact_score content * eps)%Q
  /\ (lines_of content = 1000 ->
      occurrences_ignoring_case "if" content = 5 ->
      occurrences_ignoring_case "for" content = 3 ->
      (forall kw, In kw ["while"; "switch"; "case"; "try"; "catch"] ->
                  occurrences_ignoring_case kw content = 0) ->
      _calculate_complexity content = of_nat 104).
Proof.
  intros Hlen.
  pose proof (lines_of_line_feeds content) as Hl1.
  assert (E : _calculate_complexity content
              = nearest (10 * Z.of_nat (lines_of content)
                         + 50 * Z.of_nat (keyword_occurrences content)) 100).
  { unfold _calculate_complexity. fold (lines_of content).
    apply round2_near with (err := (24 * delta)%Q).
    - lia.
    - now apply complexity_sum_is_close.
    - reflexivity. }
  split; [exact E|]. split.
  - rewrite E.
    pose proof (line_feeds_le content) as Hlf.
    pose proof (keyword_occurrences_le content) as Hk.
    assert (Ev : (exact_score content
                  == inject_Z (10 * Z.of_nat (lines_of content)
                               + 50 * Z.of_nat (keyword_occurrences content))
                     * (1 # 100))%Q).
    { unfold exact_score. rewrite inject_Z_plus, !inject_Z_mult.
      change (inject_Z 10) with (10 # 1)%Q.
      change (inject_Z 50) with (50 # 1)%Q. field. }
    destruct (10 * Z.of_nat (lines_of content)
              + 50 * Z.of_nat (keyword_occurrences content))%Z
      as [|hundredths|hundredths] eqn:EM; [lia| |lia].
    assert (Hd : (Zpos (digits2_pos hundredths) <= 41)%Z)
      by (apply digits2_pos_le; lia).
    pose proof (digits2_pos_bounds hundredths) as [Hd0 _].
    destruct (nearest_rounds hundredths 100) as (m & e & Hx & Hlo & Hhi).
    { change (Zpos (digits2_pos 100)) with 7%Z. lia. }
    assert (Eq : (Zpos hundredths # 100 == exact_score content)%Q).
    { rewrite Ev. unfold Qeq, Qmult, inject_Z. cbn [Qnum Qden]. lia. }
    rewrite Eq in Hlo, Hhi. now split.
  - intros Hl Hif Hfor Hrest. rewrite E, Hl.
    unfold keyword_occurrences, control_structures, sum_over.
    cbn [fold_right].
    rewrite Hif, Hfor, !Hrest by (simpl; tauto).
    vm_compute. reflexivity.
Qed.

(** A text of 1,000 lines: five begin with [if], three with [for], the
    other 992 are an assignment. *)
Definition thousand_lines : string :=
  String.concat nl
    (["if a:"; "if b:"; "if c:"; "if d:"; "if e:";
      "for x in a:"; "for y in b:"; "for z in c:"]
     ++ repeat "n = n + 1" 992)%list.

Lemma complexity_score_formula_witness :
  (Z.of_nat (String.length thousand_lines) < 2 ^ 32)%Z
  /\ lines_of thousand_lines = 1000
  /\ occurrences_ignoring_case "if" thousand_lines = 5
  /\ occurrences_ignoring_case "for" thousand_lines = 3
  /\ _calculate_complexity thousand_lines = of_nat 104.
Proof.
  assert (Hlen : (Z.of_nat (String.length thousand_lines) < 2 ^ 32)%Z)
    by (vm_compute; reflexivity).
  assert (Hl : lines_of thousand_lines = 1000) by (vm_compute; reflexivity).
  assert (Hif : occurrences_ignoring_case "if" thousand_lines = 5)
    by (vm_compute; reflexivity).
  assert (Hfor : occurrences_ignoring_case "for" thousand_lines = 3)
    by (vm_compute; reflexivity).
  assert (Hrest : forall kw,
            In kw ["while"; "switch"; "case"; "try"; "catch"] ->
            occurrences_ignoring_case kw thousand_lines = 0).
  { intros kw Hkw. simpl in Hkw.
    destruct Hkw as [<-|[<-|[<-|[<-|[<-|[]]]]]]; vm_compute; reflexivity. }
  split; [exact Hlen|]. split; [exact Hl|]. split; [exact Hif|].
  split; [exact Hfor|].
  exact (proj2 (proj2 (complexity_score_formula thousand_lines Hlen))
           Hl Hif Hfor Hrest).
Defined.

End ComplexityFacts.

(* ================================================================== *)
(** * Properties of the manifest parsers *)
(* ================================================================== *)

Module ManifestFacts.
Import PyStr PyStrFacts Json DependencyAnalyzer.

(** ** The indexings of the parsers are in range *)

Lemma split_by_cons (p : ascii -> bool) (s : string) :
  exists h t, split_by p s = h :: t.
Proof.
  induction s as [|c r [h [t IH]]]; simpl; [now eauto|].
  destruct (p c); [now eauto|]. rewrite IH. eauto.
Qed.

Lemma index_0_split_by (p : ascii -> bool) (s : string) :
  exists h, Py.index (split_by p s) 0 = Py.Ok h.
Proof. destruct (split_by_cons p s) as [h [t ->]]. now exists h. Qed.

(** A line that contains the separator splits into two fields at least. *)
Lemma split_char_two_fields (c : ascii) (line : string) :
  contains line (String c "") = true ->
  2 <= List.length (split_char c line).
Proof.
  unfold split_char. induction line as [|a r IH]; [discriminate|].
  simpl. intros H.
  destruct (Ascii.eqb_spec a c) as [->|Hne].
  - destruct (split_by_cons (fun x => Ascii.eqb x c) r) as [h [t ->]].
    simpl. lia.
  - assert (Hr : contains r (String c "") = true).
    { destruct (Ascii.eqb_spec c a) as [->|_]; [congruence|exact H]. }
    specialize (IH Hr).
    destruct (split_by (fun x => Ascii.eqb x c) r); simpl in *; lia.
Qed.

Lemma index_0_1 {A : Type} (l : list A) :
  2 <= List.length l ->
  exists a b, Py.index l 0 = Py.Ok a /\ Py.index l 1 = Py.Ok b.
Proof.
  destruct l as [|a [|b l]]; simpl; try lia. intros _. now exists a, b.
Qed.

(** ** The five line-oriented parsers always return *)

Lemma pip_loop_returns (lines : list string) :
  forall dependencies, Py.returns (pip_loop lines dependencies).
Proof.
  induction lines as [|line0 rest IH]; intros deps; cbn [pip_loop];
    [now eexists|].
  destruct (negb (is_empty (strip line0))
            && negb (startswith (strip line0) "#")); [|apply IH].
  destruct (index_0_split_by is_operator (strip line0)) as [h ->].
  cbn [Py.bind]. apply IH.
Qed.

Lemma pipfile_loop_returns (lines : list string) :
  forall current_section dependencies,
    Py.returns (pipfile_loop lines current_section dependencies).
Proof.
  induction lines as [|line0 rest IH]; intros sec deps;
    cbn [pipfile_loop]; [now eexists|].
  destruct (startswith (strip line0) "[" && endswith (strip line0) "]");
    [apply IH|].
  destruct (contains (strip line0) "=") eqn:E; cbn [andb]; [|apply IH].
  destruct (mem sec ["packages"; "dev-packages"]); [|apply IH].
  destruct (index_0_1 _ (split_char_two_fields _ _ E)) as (a & b & -> & ->).
  cbn [Py.bind]. apply IH.
Qed.

Lemma cargo_loop_returns (lines : list string) :
  forall in_dependencies dependencies,
    Py.returns (cargo_loop lines in_dependencies dependencies).
Proof.
  induction lines as [|line0 rest IH]; intros ind deps;
    cbn [cargo_loop]; [now eexists|].
  destruct (String.eqb (strip line0) "[dependencies]"); [apply IH|].
  destruct (startswith (strip line0) "[" && negb false); [apply IH|].
  destruct ind; cbn [andb]; [|apply IH].
  destruct (contains (strip line0) "=") eqn:E; [|apply IH].
  destruct (index_0_1 _ (split_char_two_fields _ _ E)) as (a & b & -> & ->).
  cbn [Py.bind]. apply IH.
Qed.

Lemma go_loop_returns (lines : list string) :
  forall dependencies, Py.returns (go_loop lines dependencies).
Proof.
  induction lines as [|line0 rest IH]; intros deps; cbn [go_loop];
    [now eexists|].
  destruct (contains (strip line0) "require"
            || contains (strip line0) " v"
               && negb (startswith (strip line0) "module")
               && negb (startswith (strip line0) "go ")); [|apply IH].
  destruct (Nat.leb_spec 2
              (List.length
                 (split_ws (strip (replace (strip line0) "require" "")))))
    as [Hlen|_]; [|apply IH].
  destruct (index_0_1 _ Hlen) as (a & b & -> & ->).
  cbn [Py.bind]. apply IH.
Qed.

Lemma pip_returns (content : string) :
  Py.returns (_parse_pip_dependencies content).
Proof. apply pip_loop_returns. Qed.

Lemma pipfile_returns (content : string) :
  Py.returns (_parse_pipfile_dependencies content).
Proof. apply pipfile_loop_returns. Qed.

Lemma cargo_returns (content : string) :
  Py.returns (_parse_cargo_dependencies content).
Proof. apply cargo_loop_returns. Qed.

Lemma go_returns (content : string) :
  Py.returns (_parse_go_dependencies content).
Proof. apply go_loop_returns. Qed.

Lemma maven_returns (content : string) :
  Py.returns (_parse_maven_dependencies content).
Proof. unfold _parse_maven_dependencies. now eexists. Qed.

(** ** Texts without a section header *)

Lemma append_last (c : ascii) (r : string) :
  endswith r (String c "") = true -> r = drop_last r ++ String c "".
Proof.
  induction r as [|a r IH]; [discriminate|].
  destruct r as [|b r'].
  - simpl. rewrite orb_false_r.
    destruct (Ascii.eqb_spec a c) as [->|]; [reflexivity | discriminate].
  - intros H.
    assert (Hr : endswith (String b r') (String c "") = true).
    { simpl in H. destruct (Ascii.eqb a c); exact H. }
    change (drop_last (String a (String b r')))
      with (String a (drop_last (String b r'))).
    cbn [append]. f_equal. exact (IH Hr).
Qed.

(** A bracketed line is its inside between two brackets. *)
Lemma bracketed (line : string) :
  startswith line "[" = true -> endswith line "]" = true ->
  line = "[" ++ slice_1_m1 line ++ "]".
Proof.
  destruct line as [|c r]; [discriminate|]. intros Hs He.
  cbn [startswith] in Hs. apply andb_true_iff in Hs as [Hs _].
  apply Ascii.eqb_eq in Hs; subst c.
  assert (Hr : endswith r "]" = true).
  { cbn [endswith] in He. apply orb_true_iff in He as [He|He]; [|exact He].
    apply String.eqb_eq in He. discriminate He. }
  cbn [slice_1_m1 append]. f_equal. exact (append_last "]" r Hr).
Qed.

Lemma pipfile_loop_no_header (lines : list string) :
  forall current_section dependencies,
    mem current_section ["packages"; "dev-packages"] = false ->
    (forall line, In line lines ->
                  strip line <> "[packages]"
                  /\ strip line <> "[dev-packages]") ->
    pipfile_loop lines current_section dependencies = Py.Ok dependencies.
Proof.
  induction lines as [|line0 rest IH]; intros sec deps Hsec Hlines;
    cbn [pipfile_loop]; [reflexivity|].
  assert (Hrest : forall line, In line rest ->
                    strip line <> "[packages]"
                    /\ strip line <> "[dev-packages]")
    by (intros; apply Hlines; now right).
  destruct (startswith (strip line0) "[") eqn:Es;
    [destruct (endswith (strip line0) "]") eqn:Ee|]; cbn [andb].
  - apply IH; [|exact Hrest].
    destruct (Hlines line0 (or_introl eq_refl)) as [H1 H2].
    pose proof (bracketed _ Es Ee) as Hb.
    unfold mem; simpl.
    destruct (String.eqb_spec (slice_1_m1 (strip line0)) "packages") as [E|_];
      [rewrite E in Hb; now elim H1|].
    destruct (String.eqb_spec (slice_1_m1 (strip line0)) "dev-packages")
      as [E|_]; [rewrite E in Hb; now elim H2| reflexivity].
  - rewrite Hsec, andb_false_r. now apply IH.
  - rewrite Hsec, andb_false_r. now apply IH.
Qed.

Lemma cargo_loop_no_header (lines : list string) :
  forall dependencies,
    (forall line, In line lines -> strip line <> "[dependencies]") ->
    cargo_loop lines false dependencies = Py.Ok dependencies.
Proof.
  induction lines as [|line0 rest IH]; intros deps Hlines;
    cbn [cargo_loop]; [reflexivity|].
  assert (Hrest : forall line, In line rest -> strip line <> "[dependencies]")
    by (intros; apply Hlines; now right).
  destruct (String.eqb_spec (strip line0) "[dependencies]") as [E|_];
    [now elim (Hlines line0 (or_introl eq_refl))|].
  cbn [andb negb].
  destruct (startswith (strip line0) "[" && true); now apply IH.
Qed.

(** ** The two JSON parsers and the loop that calls the parsers *)

Lemma json_parsers_raise (content : string) (e : Py.exn) :
  json_loads content = Py.Raise e ->
  _parse_npm_dependencies content = Py.Raise e
  /\ _parse_composer_dependencies content = Py.Raise e.
Proof.
  intros H. unfold _parse_npm_dependencies, _parse_composer_dependencies.
  now rewrite H.
Qed.

Lemma raise_contributes_nothing
    (parser : string -> Py.result (list Dependency)) (content : string)
    (e : Py.exn) :
  parser content = Py.Raise e -> contribution parser content = [].
Proof.
  intros H. unfold contribution. rewrite H. now destruct (is_empty content).
Qed.

(** The first part of C4 as stated: each of the seven registered parsers
    returns on every text. *)
Definition every_parser_returns : Prop :=
  forall (content file_name : string)
         (parser : string -> Py.result (list Dependency)),
    In (file_name, parser) package_managers -> Py.returns (parser content).

(** A [package.json] written with single quotes. *)
Definition single_quoted_manifest : string := "{'name': 'app'}".

(** ** The version of a requirement *)

(** A line cut at its first operator character: what is before it, and
    what starts with it (nothing when the line has no operator). *)
Fixpoint cut_at_operator (line : string) : string * string :=
  match line with
  | "" => ("", "")
  | String c r =>
      if is_operator c then ("", line)
      else let (before, from) := cut_at_operator r in (String c before, from)
  end.

(** The name and the version of a requirement as the rule reads: the two
    parts of the line cut at its first operator, the version being the
    star when there is no operator. *)
Definition name_and_version (line : string) : string * string :=
  let (before, from) := cut_at_operator (strip line) in
  (strip before, or_star (strip from)).

(** The requirements list of the scenario. *)
Definition requirements_scenario : string :=
  "flask>=2.0" ++ nl ++ "# comment" ++ nl ++ "requests" ++ nl.

Lemma pip_scenario :
  _parse_pip_dependencies requirements_scenario
  = Py.Ok [{| name := "flask"; version := VStr ">=2.0"; type := "pip";
              is_dev := false |};
           {| name := "requests"; version := VStr "*"; type := "pip";
              is_dev := false |}].
Proof. reflexivity. Qed.

(** The name is always the text before the first operator. *)
Lemma split_by_head_is_cut (line : string) :
  exists t, split_by is_operator line = fst (cut_at_operator line) :: t.
Proof.
  induction line as [|c r [t IH]]; [now exists []|].
  cbn [split_by cut_at_operator].
  destruct (is_operator c); [now eexists|].
  rewrite IH. destruct (cut_at_operator r). now eexists.
Qed.

(** C7.  The requirement [b2==3.0.0b2] (the package [b2], second beta of
    3.0.0) is recorded with the version [==3.0.0]: the version is the line
    from which every occurrence of the name is removed, not the part of
    the line that starts at the operator. *)
Theorem pip_version_loses_text_equal_to_name :
  _parse_pip_dependencies "b2==3.0.0b2"
  = Py.Ok [{| name := "b2"; version := VStr "==3.0.0"; type := "pip";
              is_dev := false |}]
  /\ name_and_version "b2==3.0.0b2" = ("b2", "==3.0.0b2").
Proof. split; reflexivity. Qed.

(** ** The version of a Pipfile entry *)

(** What follows the first occurrence of [c] in a line. *)
Fixpoint after_first (c : ascii) (line : string) : string :=
  match line with
  | "" => ""
  | String a r => if Ascii.eqb a c then r else after_first c r
  end.

(** A text without the double quotes around it. *)
Definition without_surrounding_quotes (s : string) : string :=
  if (2 <=? String.length s) && startswith s (String DQ "")
     && endswith s (String DQ "")
  then slice_1_m1 s else s.

(** The version of an entry as the rule reads: the whole right-hand side
    of the first equals sign, without the quotes around it. *)
Definition right_hand_side (line : string) : string :=
  without_surrounding_quotes (strip (after_first "=" (strip line))).

Definition pinned_entry : string :=
  "flask = " ++ String DQ "==2.0" ++ String DQ "".

Definition pinned_pipfile : string :=
  "[packages]" ++ nl ++ pinned_entry ++ nl.

(** C3.  The Pipfile entry that pins [flask] to [==2.0] is recorded with
    an empty version: the version is the second field of the line split at
    every equals sign, which here is the text between the first two of
    them. *)
Theorem pipfile_version_stops_at_second_equals :
  _parse_pipfile_dependencies pinned_pipfile
  = Py.Ok [{| name := "flask"; version := VStr ""; type := "pipenv";
              is_dev := false |}]
  /\ right_hand_side pinned_entry = "==2.0".
Proof. split; reflexivity. Qed.

End ManifestFacts.

(* ================================================================== *)
(** * Properties of the technology scores *)
(* ================================================================== *)

Module TechnologyFacts.
Import PyStr TechnologyDetector.

(** ** [max] on scores *)

Lemma ltb_spec (a b : Qc) : reflect (a < b)%Qc (ltb a b).
Proof.
  unfold ltb, Qccompare.
  destruct (Qcompare a b) eqn:E; constructor; rewrite Qclt_alt;
    unfold Qccompare; congruence.
Qed.

Ltac order_cases :=
  unfold max, min;
  repeat match goal with
         | |- context [ltb ?a ?b] =>
             is_var a; is_var b; destruct (ltb_spec a b)
         end;
  try reflexivity;
  try apply Qc_is_canon;
  unfold Qclt, Qcle in *; lra.

Lemma max_comm (a b : Qc) : max a b = max b a.
Proof. order_cases. Qed.

Lemma max_swap (x a b : Qc) : max (max x a) b = max (max x b) a.
Proof. order_cases. Qed.

Lemma max_ge_l (a b : Qc) : (a <= max a b)%Qc.
Proof. order_cases. Qed.

(** The greatest of a list of scores and a start value. *)
Definition maximum_from (start : Qc) (l : list Qc) : Qc := fold_left max l start.
Definition maximum (l : list Qc) : Qc := maximum_from zero l.

Lemma maximum_from_perm (l l' : list Qc) :
  Permutation l l' -> forall start, maximum_from start l = maximum_from start l'.
Proof.
  unfold maximum_from.
  induction 1 as [|a l l' _ IH|a b l|l1 l2 l3 _ IH1 _ IH2]; intros start;
    simpl.
  - reflexivity.
  - apply IH.
  - now rewrite max_swap.
  - now rewrite IH1.
Qed.

Lemma maximum_from_app (l1 l2 : list Qc) (start : Qc) :
  maximum_from start (l1 ++ l2) = maximum_from (maximum_from start l1) l2.
Proof. apply fold_left_app. Qed.

(** ** The dict of scores *)

Lemma get_set (d : scores) (k k' : string) (v x : Qc) :
  get (set d k v) k' x = if String.eqb k' k then v else get d k' x.
Proof.
  induction d as [|[k0 v0] r IH]; simpl; [reflexivity|].
  destruct (String.eqb_spec k k0) as [->|Hk]; simpl.
  - destruct (String.eqb_spec k' k0); reflexivity.
  - rewrite IH.
    destruct (String.eqb_spec k' k0) as [->|]; [|reflexivity].
    destruct (String.eqb_spec k0 k); [congruence | reflexivity].
Qed.

Lemma has_In (d : scores) (k : string) :
  has d k = true <-> In k (map fst d).
Proof.
  induction d as [|[k0 v0] r IH]; simpl; [split; [discriminate | tauto]|].
  rewrite orb_true_iff, IH, String.eqb_eq. intuition congruence.
Qed.

Lemma get_absent (d : scores) (k : string) (x : Qc) :
  ~ In k (map fst d) -> get d k x = x.
Proof.
  induction d as [|[k0 v0] r IH]; simpl; [reflexivity|]. intros H.
  destruct (String.eqb_spec k k0) as [->|_]; [tauto|]. apply IH. tauto.
Qed.

Lemma set_keys (d : scores) (k : string) (v : Qc) :
  map fst (set d k v)
  = if has d k then map fst d else (map fst d ++ [k])%list.
Proof.
  induction d as [|[k0 v0] r IH]; simpl; [reflexivity|].
  destruct (String.eqb k k0) eqn:E; simpl.
  - apply String.eqb_eq in E. now subst.
  - rewrite IH. now destruct (has r k).
Qed.

Lemma set_nodup (d : scores) (k : string) (v : Qc) :
  NoDup (map fst d) -> NoDup (map fst (set d k v)).
Proof.
  intros H. rewrite set_keys. destruct (has d k) eqn:E; [exact H|].
  apply Permutation_NoDup with (k :: map fst d).
  - apply Permutation_cons_append.
  - constructor; [|exact H]. rewrite <- has_In. congruence.
Qed.

Lemma merge_nodup (tech_matches : scores) :
  forall d, NoDup (map fst d) -> NoDup (map fst (merge d tech_matches)).
Proof.
  unfold merge. induction tech_matches as [|[k v] m IH]; intros d H;
    simpl; [exact H|].
  apply IH, set_nodup, H.
Qed.

Lemma detected_after_nodup (files : list CodeAnalyzer.File)
    (dependencies : list DependencyAnalyzer.Dependency) :
  NoDup (map fst (detected_after files dependencies)).
Proof.
  unfold detected_after.
  assert (Hfiles : forall d, NoDup (map fst d) ->
            NoDup (map fst
              (fold_left
                 (fun d file_obj =>
                    if negb (is_empty (CodeAnalyzer.content file_obj))
                    then merge d (_analyze_file_content
                                    (CodeAnalyzer.content file_obj))
                    else d) files d))).
  { induction files as [|f files IH]; intros d H; cbn [fold_left];
      [exact H|].
    apply IH. destruct (negb (is_empty (CodeAnalyzer.content f)));
      [now apply merge_nodup | exact H]. }
  generalize (Hfiles [] (NoDup_nil _)).
  generalize (fold_left
                (fun d file_obj =>
                   if negb (is_empty (CodeAnalyzer.content file_obj))
                   then merge d (_analyze_file_content
                                   (CodeAnalyzer.content file_obj))
                   else d) files []).
  induction dependencies as [|dep deps IH]; intros d H; cbn [fold_left];
    [exact H|].
  apply IH, merge_nodup, H.
Qed.

(** ** Evidence *)

(** The scores a dict of matches holds for one technology. *)
Definition entries (tech_matches : scores) (tech_name : string) : list Qc :=
  map snd (filter (fun tc => String.eqb tech_name (fst tc)) tech_matches).

(** What one file and one dependency contribute for a technology. *)
Definition content_evidence (tech_name : string)
    (file_obj : CodeAnalyzer.File) : list Qc :=
  if negb (is_empty (CodeAnalyzer.content file_obj))
  then entries (_analyze_file_content (CodeAnalyzer.content file_obj))
               tech_name
  else [].

Definition dependency_evidence (tech_name : string)
    (dep : DependencyAnalyzer.Dependency) : list Qc :=
  entries (_analyze_dependency (DependencyAnalyzer.name dep)) tech_name.

(** All the contributions of a run for a technology: those of the files,
    then those of the dependencies. *)
Definition evidence (files : list CodeAnalyzer.File)
    (dependencies : list DependencyAnalyzer.Dependency)
    (tech_name : string) : list Qc :=
  (flat_map (content_evidence tech_name) files
   ++ flat_map (dependency_evidence tech_name) dependencies)%list.

(** The confidence of the record emitted for a technology, if any. *)
Definition emitted (files : list CodeAnalyzer.File)
    (dependencies : list DependencyAnalyzer.Dependency)
    (tech_name : string) : option Qc :=
  option_map confidence
    (find (fun t => String.eqb (name t) tech_name)
          (detect_technologies files dependencies)).

Lemma merge_get (tech_matches : scores) (tech_name : string) :
  forall d,
    get (merge d tech_matches) tech_name zero
    = maximum_from (get d tech_name zero) (entries tech_matches tech_name).
Proof.
  unfold merge, maximum_from, entries.
  induction tech_matches as [|[k v] m IH]; intros d; simpl; [reflexivity|].
  rewrite IH, get_set.
  destruct (String.eqb_spec tech_name k) as [->|]; reflexivity.
Qed.

Lemma files_loop_get (tech_name : string) (files : list CodeAnalyzer.File) :
  forall d,
    get (fold_left
           (fun d file_obj =>
              if negb (is_empty (CodeAnalyzer.content file_obj))
              then merge d (_analyze_file_content
                              (CodeAnalyzer.content file_obj))
              else d) files d) tech_name zero
    = maximum_from (get d tech_name zero)
                   (flat_map (content_evidence tech_name) files).
Proof.
  induction files as [|f files IH]; intros d; cbn [fold_left flat_map];
    [reflexivity|].
  rewrite IH, maximum_from_app. f_equal. unfold content_evidence.
  destruct (negb (is_empty (CodeAnalyzer.content f)));
    [apply merge_get | reflexivity].
Qed.

Lemma dependencies_loop_get (tech_name : string)
    (dependencies : list DependencyAnalyzer.Dependency) :
  forall d,
    get (fold_left
           (fun d dep =>
              merge d (_analyze_dependency (DependencyAnalyzer.name dep)))
           dependencies d) tech_name zero
    = maximum_from (get d tech_name zero)
                   (flat_map (dependency_evidence tech_name) dependencies).
Proof.
  induction dependencies as [|dep deps IH]; intros d;
    cbn [fold_left flat_map]; [reflexivity|].
  rewrite IH, maximum_from_app. f_equal. apply merge_get.
Qed.

Lemma detected_after_get (files : list CodeAnalyzer.File)
    (dependencies : list DependencyAnalyzer.Dependency)
    (tech_name : string) :
  get (detected_after files dependencies) tech_name zero
  = maximum (evidence files dependencies tech_name).
Proof.
  unfold detected_after, maximum, evidence.
  rewrite dependencies_loop_get, files_loop_get, maximum_from_app.
  reflexivity.
Qed.

Lemma emitted_of_scores (d : scores) (tech_name : string) :
  NoDup (map fst d) ->
  option_map confidence
    (find (fun t => String.eqb (name t) tech_name)
       (map (fun tc => {| name := fst tc;
                          category := _get_technology_category (fst tc);
                          confidence := snd tc |})
            (filter (fun tc => ltb c0_1 (snd tc)) d)))
  = if ltb c0_1 (get d tech_name zero)
    then Some (get d tech_name zero) else None.
Proof.
  induction d as [|[k v] r IH]; intros Hnd; [reflexivity|].
  inversion Hnd as [|? ? Hk Hr]; subst.
  specialize (IH Hr). cbn [filter get snd fst].
  destruct (String.eqb_spec tech_name k) as [->|Hne].
  - destruct (ltb c0_1 v) eqn:E.
    + cbn [map find name fst]. now rewrite String.eqb_refl.
    + rewrite IH, (get_absent r k zero Hk). reflexivity.
  - destruct (ltb c0_1 v) eqn:E; [|exact IH].
    cbn [map find name fst].
    destruct (String.eqb_spec k tech_name); [congruence | exact IH].
Qed.

(** The score kept for a technology is the greatest of its evidence, and
    it is emitted when it is above 0.1. *)
Lemma emitted_is_maximum (files : list CodeAnalyzer.File)
    (dependencies : list DependencyAnalyzer.Dependency)
    (tech_name : string) :
  emitted files dependencies tech_name
  = if ltb c0_1 (maximum (evidence files dependencies tech_name))
    then Some (maximum (evidence files dependencies tech_name)) else None.
Proof.
  unfold emitted, detect_technologies.
  rewrite emitted_of_scores by apply detected_after_nodup.
  now rewrite detected_after_get.
Qed.

(** [maximum_from] is an upper bound of the list and one of its values. *)
Lemma maximum_from_ge_start (l : list Qc) :
  forall start, (start <= maximum_from start l)%Qc.
Proof.
  unfold maximum_from. induction l as [|a l IH]; intros start; simpl.
  - apply Qcle_refl.
  - apply Qcle_trans with (max start a); [apply max_ge_l | apply IH].
Qed.

Lemma maximum_from_upper_bound (l : list Qc) :
  forall start x, In x l -> (x <= maximum_from start l)%Qc.
Proof.
  induction l as [|a l IH]; intros start x Hin; [easy|].
  change (maximum_from start (a :: l)) with (maximum_from (max start a) l).
  destruct Hin as [->|Hin]; [|now apply IH].
  apply Qcle_trans with (max start x); [|apply maximum_from_ge_start].
  rewrite max_comm. apply max_ge_l.
Qed.

Lemma maximum_from_attained (l : list Qc) :
  forall start, maximum_from start l = start \/ In (maximum_from start l) l.
Proof.
  induction l as [|a l IH]; intros start; [now left|].
  change (maximum_from start (a :: l)) with (maximum_from (max start a) l).
  destruct (IH (max start a)) as [H|H]; [|right; now right].
  rewrite H. unfold max. destruct (ltb start a); [right; now left | now left].
Qed.

(** One file that imports flask once, and the dependency [Flask]. *)
Definition flask_file : CodeAnalyzer.File :=
  CodeAnalyzer.new_File "app.py" "app.py" "py" 12 "import flask".

Definition flask_dependency : DependencyAnalyzer.Dependency :=
  {| DependencyAnalyzer.name := "Flask";
     DependencyAnalyzer.version := Json.VStr ">=2.0";
     DependencyAnalyzer.type := "pip";
     DependencyAnalyzer.is_dev := false |}.

Definition redis_file : CodeAnalyzer.File :=
  CodeAnalyzer.new_File "cache.py" "cache.py" "py" 44
    ("import redis" ++ nl ++ "from flask import Flask" ++ nl).

Definition redis_dependency : DependencyAnalyzer.Dependency :=
  {| DependencyAnalyzer.name := "redis";
     DependencyAnalyzer.version := Json.VStr "*";
     DependencyAnalyzer.type := "pip";
     DependencyAnalyzer.is_dev := false |}.

(** C5.  The score kept for a technology is the greatest of the
    contributions of the files and of the dependencies, and it is the
    confidence emitted when it is above 0.1.  When the contributions are
    0.3 and 0.8, in either order, the confidence emitted is 0.8. *)
Theorem confidence_is_the_maximum
    (files : list CodeAnalyzer.File)
    (dependencies : list DependencyAnalyzer.Dependency)
    (tech_name : string) :
  get (detected_after files dependencies) tech_name zero
  = maximum (evidence files dependencies tech_name)
  /\ (forall x, In x (evidence files dependencies tech_name) ->
                (x <= maximum (evidence files dependencies tech_name))%Qc)
  /\ emitted files dependencies tech_name
     = (if ltb c0_1 (maximum (evidence files dependencies tech_name))
        then Some (maximum (evidence files dependencies tech_name))
        else None)
  /\ (Permutation (evidence files dependencies tech_name) [c0_3; c0_8] ->
      emitted files dependencies tech_name = Some c0_8)
  /\ (In c0_3 (evidence files dependencies tech_name) ->
      In c0_8 (evidence files dependencies tech_name) ->
      (forall x, In x (evidence files dependencies tech_name) ->
                 (x <= c0_8)%Qc) ->
      emitted files dependencies tech_name = Some c0_8).
Proof.
  split; [apply detected_after_get|].
  split; [intros x; apply maximum_from_upper_bound|].
  split; [apply emitted_is_maximum|].
  split.
  - intros Hperm. rewrite emitted_is_maximum.
    unfold maximum. rewrite (maximum_from_perm _ _ Hperm).
    reflexivity.
  - intros _ H8 Hle. rewrite emitted_is_maximum.
    assert (E : maximum (evidence files dependencies tech_name) = c0_8).
    { pose proof (maximum_from_upper_bound _ zero _ H8) as Hge.
      fold (maximum (evidence files dependencies tech_name)) in Hge.
      destruct (maximum_from_attained
                  (evidence files dependencies tech_name) zero) as [H0|Hin];
        fold (maximum (evidence files dependencies tech_name)) in *.
      - rewrite H0 in Hge. now vm_compute in Hge.
      - apply Qcle_antisym; [now apply Hle | exact Hge]. }
    rewrite E. reflexivity.
Qed.

Lemma confidence_is_the_maximum_witness :
  evidence [flask_file] [flask_dependency] "Flask" = [c0_3; c0_8]
  /\ emitted [flask_file] [flask_dependency] "Flask" = Some c0_8.
Proof.
  assert (E : evidence [flask_file] [flask_dependency] "Flask"
              = [c0_3; c0_8]) by (vm_compute; reflexivity).
  split; [exact E|].
  destruct (confidence_is_the_maximum [flask_file] [flask_dependency] "Flask")
    as (_ & _ & _ & Hperm & _).
  apply Hperm. rewrite E. apply Permutation_refl.
Defined.

(** C6.  The score kept for a technology, and the confidence emitted for
    it, are the same for every order of the files and every order of the
    dependencies. *)
Theorem confidence_is_order_independent
    (files files' : list CodeAnalyzer.File)
    (dependencies dependencies' : list DependencyAnalyzer.Dependency)
    (tech_name : string) :
  Permutation files files' ->
  Permutation dependencies dependencies' ->
  get (detected_after files dependencies) tech_name zero
  = get (detected_after files' dependencies') tech_name zero
  /\ emitted files dependencies tech_name
     = emitted files' dependencies' tech_name.
Proof.
  intros Hf Hd.
  assert (E : maximum (evidence files dependencies tech_name)
              = maximum (evidence files' dependencies' tech_name)).
  { apply maximum_from_perm. unfold evidence.
    apply Permutation_app; now apply Permutation_flat_map. }
  rewrite !detected_after_get, !emitted_is_maximum, E. now split.
Qed.

Lemma confidence_is_order_independent_witness :
  get (detected_after [flask_file; redis_file]
                      [flask_dependency; redis_dependency]) "Flask" zero
  = get (detected_after [redis_file; flask_file]
                        [redis_dependency; flask_dependency]) "Flask" zero
  /\ emitted [flask_file; redis_file]
             [flask_dependency; redis_dependency] "Flask"
     = emitted [redis_file; flask_file]
               [redis_dependency; flask_dependency] "Flask".
Proof.
  apply confidence_is_order_independent; apply perm_swap.
Defined.

End TechnologyFacts.

(* ================================================================== *)
(** * More about the path filter *)
(* ================================================================== *)

Module PathFilterMore.
Import PyStr PyStrFacts PathFilter PathFilterFacts.

Lemma ignored_false_iff (ignore_patterns : list string)
    (file_path file_name : string) :
  ignored ignore_patterns file_path file_name = false
  <-> forall pattern, In pattern ignore_patterns ->
                      pattern_hits pattern file_path file_name = false.
Proof.
  induction ignore_patterns as [|p rest IH]; simpl.
  - split; [intros _ pattern [] | reflexivity].
  - destruct (pattern_hits p file_path file_name) eqn:E.
    + split; [discriminate|]. intros H.
      rewrite <- E. apply H. now left.
    + rewrite IH. split.
      * intros H pattern [<-|Hin]; [exact E | now apply H].
      * intros H pattern Hin. apply H. now right.
Qed.

(** What is appended to [files_to_analyze]: the blobs of the tree below
    the size ceiling, with an extension outside the excluded ones, that no
    pattern hits. *)
Lemma files_to_analyze_spec (ignore_patterns : list string)
    (file_tree : list tree_item) (item : tree_item) :
  In item (files_to_analyze ignore_patterns file_tree)
  <-> In item file_tree
      /\ type item = "blob"
      /\ (size item < 100000)%Z
      /\ mem (extension_of (file_name_of (path item))) excluded_extensions
         = false
      /\ forall pattern, In pattern ignore_patterns ->
           pattern_hits pattern (path item) (file_name_of (path item))
           = false.
Proof.
  unfold files_to_analyze, is_blob, keeps, max_size.
  rewrite filter_In, !andb_true_iff, !negb_true_iff, String.eqb_eq,
    Z.ltb_lt, ignored_false_iff.
  tauto.
Qed.

(** X1.  The loop over the set [ignore_patterns] gives the same decision
    for every order in which the set is iterated, and repeated patterns
    change nothing. *)
Theorem decision_depends_on_the_set_of_patterns
    (patterns patterns' : list string) (file_tree : list tree_item) :
  (forall pattern, In pattern patterns <-> In pattern patterns') ->
  (forall item, keeps patterns item = keeps patterns' item)
  /\ files_to_analyze patterns file_tree
     = files_to_analyze patterns' file_tree.
Proof.
  intros Hsame.
  assert (Hk : forall item, keeps patterns item = keeps patterns' item).
  { intros item. unfold keeps. f_equal. f_equal. f_equal.
    destruct (ignored patterns' (path item) (file_name_of (path item)))
      eqn:E'.
    - destruct (ignored patterns (path item) (file_name_of (path item)))
        eqn:E; [reflexivity|].
      rewrite ignored_false_iff in E.
      assert (H : ignored patterns' (path item) (file_name_of (path item))
                  = false)
        by (apply ignored_false_iff; intros p Hp; apply E, Hsame, Hp).
      congruence.
    - rewrite ignored_false_iff in *. intros p Hp. apply E', Hsame, Hp. }
  split; [exact Hk|].
  unfold files_to_analyze. apply filter_ext. intros item. now rewrite Hk.
Qed.

Lemma decision_depends_on_the_set_of_patterns_witness :
  let item := {| path := "build/app.log"; type := "blob"; size := 10 |} in
  keeps ["*.log"; "dist/"] item = keeps ["dist/"; "*.log"; "dist/"] item
  /\ files_to_analyze ["*.log"; "dist/"] [item]
     = files_to_analyze ["dist/"; "*.log"; "dist/"] [item].
Proof.
  intros item.
  destruct (decision_depends_on_the_set_of_patterns
              ["*.log"; "dist/"] ["dist/"; "*.log"; "dist/"] [item])
    as [Hk Hf]; [simpl; tauto|].
  split; [apply Hk | exact Hf].
Defined.

Lemma lstrip_star_dot (ext : string) :
  startswith ext "." = true -> lstrip (String "*" ext) "*" = ext.
Proof.
  destruct ext as [|c r]; [discriminate|].
  cbn [startswith]. intros H. apply andb_true_iff in H as [H _].
  apply Ascii.eqb_eq in H; subst c. reflexivity.
Qed.

Lemma rejected_when_hit (ignore_patterns : list string) (pattern : string)
    (file_tree : list tree_item) (item : tree_item) :
  In pattern ignore_patterns ->
  pattern_hits pattern (path item) (file_name_of (path item)) = true ->
  keeps ignore_patterns item = false
  /\ ~ In item (files_to_analyze ignore_patterns file_tree).
Proof.
  intros Hin Hhit.
  assert (Hk : keeps ignore_patterns item = false).
  { unfold keeps. now rewrite (ignored_of_hit ignore_patterns pattern). }
  split; [exact Hk|].
  unfold files_to_analyze. rewrite filter_In. intros [_ H].
  rewrite Hk, andb_false_r in H. discriminate.
Qed.

(** X2.  A pattern made of a star and an extension excludes every file
    whose base name ends with that extension, in any directory and of any
    size. *)
Theorem star_pattern_excludes_by_name_ending
    (ignore_patterns : list string) (ext : string)
    (file_tree : list tree_item) (item : tree_item) :
  In (String "*" ext) ignore_patterns ->
  startswith ext "." = true ->
  endswith (file_name_of (path item)) ext = true ->
  keeps ignore_patterns item = false
  /\ ~ In item (files_to_analyze ignore_patterns file_tree).
Proof.
  intros Hin Hdot Hend.
  apply rejected_when_hit with (String "*" ext); [exact Hin|].
  unfold pattern_hits.
  assert (Hs : startswith (String "*" ext) "*." = true).
  { destruct ext as [|c r]; [discriminate|]. cbn [startswith] in *.
    rewrite Ascii.eqb_refl. exact Hdot. }
  rewrite Hs, (lstrip_star_dot ext Hdot), Hend.
  cbn [andb]. now rewrite orb_true_r.
Qed.

Lemma star_pattern_excludes_by_name_ending_witness :
  let item := {| path := "logs/2024/app.log"; type := "blob"; size := 5 |} in
  keeps ["*.log"] item = false
  /\ ~ In item (files_to_analyze ["*.log"] [item]).
Proof.
  intros item.
  apply (star_pattern_excludes_by_name_ending ["*.log"] ".log" [item] item);
    [now left | reflexivity | reflexivity].
Defined.

(** X3.  A pattern equal to the base name of a file or to its whole path
    excludes the file. *)
Theorem exact_pattern_excludes
    (ignore_patterns : list string) (file_tree : list tree_item)
    (item : tree_item) :
  In (file_name_of (path item)) ignore_patterns
  \/ In (path item) ignore_patterns ->
  keeps ignore_patterns item = false
  /\ ~ In item (files_to_analyze ignore_patterns file_tree).
Proof.
  intros [Hin|Hin].
  - apply rejected_when_hit with (file_name_of (path item)); [exact Hin|].
    unfold pattern_hits. rewrite String.eqb_refl.
    cbn [orb]. now rewrite orb_true_r.
  - apply rejected_when_hit with (path item); [exact Hin|].
    unfold pattern_hits. rewrite String.eqb_refl.
    now rewrite !orb_true_r.
Qed.

Lemma exact_pattern_excludes_witness :
  let item := {| path := "config/.env"; type := "blob"; size := 5 |} in
  keeps [".env"] item = false /\ ~ In item (files_to_analyze [".env"] [item]).
Proof.
  intros item. apply (exact_pattern_excludes [".env"] [item] item).
  left. now left.
Defined.

Fixpoint only_slashes (s : string) : bool :=
  match s with
  | "" => true
  | String c r => Ascii.eqb c "/" && only_slashes r
  end.

Lemma rstrip_only_slashes (s : string) :
  only_slashes s = true -> rstrip s "/" = "".
Proof.
  unfold rstrip. induction s as [|c r IH]; [reflexivity|].
  cbn [only_slashes rstrip_by]. intros H.
  apply andb_true_iff in H as [Hc Hr]. rewrite (IH Hr).
  apply Ascii.eqb_eq in Hc; subst c. reflexivity.
Qed.

Lemma endswith_only_slashes (s : string) :
  only_slashes s = true -> is_empty s = false -> endswith s "/" = true.
Proof.
  induction s as [|c r IH]; [discriminate|].
  cbn [only_slashes endswith]. intros H _.
  apply andb_true_iff in H as [Hc Hr]. apply Ascii.eqb_eq in Hc; subst c.
  destruct r as [|d r']; [reflexivity|].
  rewrite (IH Hr eq_refl). apply orb_true_r.
Qed.

(** X4.  A pattern made only of slashes excludes every file: what
    [rstrip] leaves of it is the empty text, which starts every path. *)
Theorem slash_pattern_excludes_everything
    (ignore_patterns : list string) (pattern : string)
    (file_tree : list tree_item) (item : tree_item) :
  In pattern ignore_patterns ->
  only_slashes pattern = true -> is_empty pattern = false ->
  keeps ignore_patterns item = false
  /\ files_to_analyze ignore_patterns file_tree = [].
Proof.
  intros Hin Hs Hne.
  assert (Hhit : forall it, pattern_hits pattern (path it)
                              (file_name_of (path it)) = true).
  { intros it. unfold pattern_hits.
    rewrite (endswith_only_slashes _ Hs Hne), (rstrip_only_slashes _ Hs).
    now destruct (path it). }
  split; [apply (rejected_when_hit _ pattern file_tree item Hin (Hhit item))|].
  unfold files_to_analyze.
  induction file_tree as [|it rest IH]; [reflexivity|].
  cbn [filter].
  destruct (rejected_when_hit _ pattern rest it Hin (Hhit it)) as [Hk _].
  rewrite Hk, andb_false_r. exact IH.
Qed.

Lemma slash_pattern_excludes_everything_witness :
  let tree := [{| path := "src/main.py"; type := "blob"; size := 120 |};
               {| path := "README.md"; type := "blob"; size := 64 |}] in
  keeps ["/"] {| path := "README.md"; type := "blob"; size := 64 |} = false
  /\ files_to_analyze ["/"] tree = [].
Proof.
  intros tree.
  apply (slash_pattern_excludes_everything ["/"] "/" tree);
    [now left | reflexivity | reflexivity].
Defined.

End PathFilterMore.

(* ================================================================== *)
(** * Properties of [analyze_file] *)
(* ================================================================== *)

Module FileAnalysisFacts.
Import PyStr PyStrFacts CodeAnalyzer FileAnalysis ComplexityFacts.

Section WithLibraries.

Variable ast_parse : string -> Py.result node.
Variable re_count : string -> string -> nat.

Lemma python_keeps_identity (f : File) :
  match _analyze_python_code ast_parse f with
  | Py.Ok g =>
      path g = path f /\ name g = name f /\ extension g = extension f
      /\ size g = size f /\ content g = content f
      /\ language g = language f /\ line_count g = line_count f
  | Py.Raise _ => False
  end.
Proof.
  unfold _analyze_python_code.
  destruct (ast_parse (content f)) as [tree|e]; [|now repeat split].
  destruct (count_loop (walk tree) 0 0). now repeat split.
Qed.

(** The file after the analysis of its language: the identity of the file
    and the line count just set are kept. *)
Lemma language_step_keeps (f1 : File) :
  let f2 :=
    if String.eqb (language f1) "Python" then
      match _analyze_python_code ast_parse f1 with
      | Py.Ok f => f
      | Py.Raise _ => f1
      end
    else if existsb (String.eqb (language f1)) ["JavaScript"; "TypeScript"]
    then _analyze_javascript_code re_count f1
    else _analyze_generic_code f1 in
  path f2 = path f1 /\ name f2 = name f1 /\ extension f2 = extension f1
  /\ size f2 = size f1 /\ content f2 = content f1
  /\ language f2 = language f1 /\ line_count f2 = line_count f1.
Proof.
  cbv zeta. destruct (String.eqb (language f1) "Python").
  - pose proof (python_keeps_identity f1) as H.
    destruct (_analyze_python_code ast_parse f1) as [g|e]; [exact H | easy].
  - destruct (existsb (String.eqb (language f1))
                ["JavaScript"; "TypeScript"]); now repeat split.
Qed.

Lemma analyze_file_keeps_identity (f : File) :
  path (analyze_file ast_parse re_count f) = path f
  /\ extension (analyze_file ast_parse re_count f) = extension f.
Proof.
  unfold analyze_file. destruct (is_empty (content f)); [now split|].
  pose proof (language_step_keeps
                (set_line_count f
                   (List.length (split_char LF (content f))))) as H.
  cbv zeta in H. destruct H as (Hp & _ & He & _).
  cbn [path extension set_complexity]. now rewrite Hp, He.
Qed.

(** X5.  [analyze_file] writes the four metrics only: the path, the name,
    the extension, the size, the content and the language of the file
    stay as they are.  An empty content leaves the whole file as it is; a
    content that is not empty gets a line count of one more than its
    number of line feeds. *)
Theorem analyze_file_writes_metrics_only (f : File) :
  let g := analyze_file ast_parse re_count f in
  (path g = path f /\ name g = name f /\ extension g = extension f
   /\ size g = size f /\ content g = content f /\ language g = language f)
  /\ (content f = "" -> g = f)
  /\ (content f <> "" -> line_count g = S (line_feeds (content f))
                        /\ 1 <= line_count g).
Proof.
  cbv zeta. unfold analyze_file.
  destruct (is_empty (content f)) eqn:Ee.
  - split; [now repeat split|]. split; [reflexivity|].
    intros H. destruct (content f); [now elim H | discriminate].
  - pose proof (language_step_keeps
                  (set_line_count f
                     (List.length (split_char LF (content f))))) as H.
    cbv zeta in H.
    destruct H as (Hp & Hn & He & Hs & Hc & Hl & Hlc).
    cbn [path name extension size content language line_count
         set_complexity].
    rewrite Hp, Hn, He, Hs, Hc, Hl, Hlc.
    cbn [path name extension size content language line_count
         set_line_count].
    split; [now repeat split|].
    split; [intros H; rewrite H in Ee; discriminate|].
    intros _.
    change (List.length (split_char LF (content f)))
      with (lines_of (content f)).
    rewrite lines_of_line_feeds. split; [reflexivity | lia].
Qed.

Lemma generic_keywords_unbordered :
  forallb (fun kw => unbordered kw && negb (is_empty kw))
          (function_keywords ++ class_keywords) = true.
Proof. reflexivity. Qed.

Lemma count_generic_keyword (text kw : string) :
  In kw (function_keywords ++ class_keywords) ->
  count (lower text) kw = occurrences_ignoring_case kw text.
Proof.
  intros Hin. pose proof generic_keywords_unbordered as H.
  rewrite forallb_forall in H. specialize (H kw Hin).
  apply andb_true_iff in H as [Hu Hne]. apply negb_true_iff in Hne.
  rewrite occurrences_ignoring_case_lower. now apply count_occurrences.
Qed.

Lemma starts_longer_keyword (s : string) :
  starts_ignoring_case s "function" = true ->
  starts_ignoring_case s "func" = true.
Proof.
  rewrite !starts_ignoring_case_lower. intros H.
  apply startswith_trans with "function"; [exact H | reflexivity].
Qed.

Lemma occurrences_function_le_func (text : string) :
  occurrences_ignoring_case "function" text
  <= occurrences_ignoring_case "func" text.
Proof.
  induction text as [|c r IH]; [reflexivity|].
  cbn [occurrences_ignoring_case].
  destruct (starts_ignoring_case (String c r) "function") eqn:E.
  - rewrite (starts_longer_keyword _ E). lia.
  - destruct (starts_ignoring_case (String c r) "func"); lia.
Qed.

(** X6.  For a file that is neither Python nor JavaScript nor TypeScript
    and has some content, [function_count] is the sum of the
    case-insensitive occurrence counts of the six keywords, and every
    occurrence of [function] is counted twice, once as [function] and once
    as [func]. *)
Theorem generic_count_doubles_function (f : File) :
  content f <> "" ->
  language f <> "Python" -> language f <> "JavaScript" ->
  language f <> "TypeScript" ->
  let g := analyze_file ast_parse re_count f in
  function_count g
  = sum_over (fun kw => occurrences_ignoring_case kw (content f))
             function_keywords
  /\ class_count g
     = sum_over (fun kw => occurrences_ignoring_case kw (content f))
                class_keywords
  /\ 2 * occurrences_ignoring_case "function" (content f)
     <= function_count g.
Proof.
  intros Hc Hpy Hjs Hts. cbv zeta. unfold analyze_file.
  destruct (is_empty (content f)) eqn:Ee;
    [destruct (content f); [now elim Hc | discriminate]|].
  apply String.eqb_neq in Hpy, Hjs, Hts.
  cbn [language set_line_count existsb].
  rewrite Hpy, Hjs, Hts. cbn [orb].
  cbn [function_count class_count set_complexity _analyze_generic_code
       set_counts content set_line_count].
  assert (Hf : sum_counts (lower (content f)) function_keywords
               = sum_over (fun kw => occurrences_ignoring_case kw (content f))
                          function_keywords).
  { apply sum_over_ext. intros kw Hin. apply count_generic_keyword.
    apply in_or_app. now left. }
  assert (Hk : sum_counts (lower (content f)) class_keywords
               = sum_over (fun kw => occurrences_ignoring_case kw (content f))
                          class_keywords).
  { apply sum_over_ext. intros kw Hin. apply count_generic_keyword.
    apply in_or_app. now right. }
  rewrite Hf, Hk. repeat split.
  unfold sum_over, function_keywords. cbn [fold_right].
  pose proof (occurrences_function_le_func (content f)). lia.
Qed.

End WithLibraries.

Definition shell_script : File :=
  new_File "run.sh" "run.sh" "sh" 40
    ("function build() {" ++ nl ++ "  echo ok" ++ nl ++ "}" ++ nl).

Lemma analyze_file_writes_metrics_only_witness :
  let g := analyze_file (fun _ => Py.Raise Py.SyntaxError) (fun _ _ => 0)
                        shell_script in
  content shell_script <> ""
  /\ line_count g = 4 /\ path g = "run.sh" /\ language g = "Unknown".
Proof.
  intros g.
  destruct (analyze_file_writes_metrics_only
              (fun _ => Py.Raise Py.SyntaxError) (fun _ _ => 0) shell_script)
    as ((Hp & _ & _ & _ & _ & Hlang) & _ & Hl).
  assert (Hc : content shell_script <> "") by discriminate.
  split; [exact Hc|].
  destruct (Hl Hc) as [Hn _].
  split; [exact Hn|]. split; [exact Hp | exact Hlang].
Defined.

Lemma generic_count_doubles_function_witness :
  let g := analyze_file (fun _ => Py.Raise Py.SyntaxError) (fun _ _ => 0)
                        shell_script in
  occurrences_ignoring_case "function" (content shell_script) = 1
  /\ 2 <= function_count g.
Proof.
  intros g. split; [reflexivity|].
  destruct (generic_count_doubles_function
              (fun _ => Py.Raise Py.SyntaxError) (fun _ _ => 0) shell_script)
    as (_ & _ & H); try discriminate.
  exact H.
Defined.

End FileAnalysisFacts.

(* ================================================================== *)
(** * Properties of the extension of a file and of [repo.files] *)
(* ================================================================== *)

Module OrchestratorFacts.
Import PyStr PyStrFacts PathFilter PathFilterFacts PathFilterMore.
Import Orchestrator.

Fixpoint has_dot (s : string) : bool :=
  match s with
  | "" => false
  | String c r => Ascii.eqb c "." || has_dot r
  end.

Lemma from_last_dot_none (s : string) :
  from_last_dot s = None <-> has_dot s = false.
Proof.
  induction s as [|c r IH]; [easy|]. cbn [from_last_dot has_dot].
  destruct (from_last_dot r) as [t|].
  - split; [discriminate|]. intros H. apply orb_false_iff in H as [_ H].
    apply IH in H. discriminate.
  - destruct (Ascii.eqb c "."); [easy|].
    split; [intros _; now apply IH | reflexivity].
Qed.

(** What [from_last_dot] finds is a dot followed by a text without dot. *)
Lemma from_last_dot_shape (s t : string) :
  from_last_dot s = Some t ->
  exists t', t = String "." t' /\ has_dot t' = false.
Proof.
  induction s as [|c r IH]; [discriminate|]. cbn [from_last_dot].
  destruct (from_last_dot r) as [t0|] eqn:E.
  - intros [= <-]. now apply IH.
  - destruct (Ascii.eqb_spec c ".") as [->|]; [|discriminate].
    intros [= <-]. exists r. split; [reflexivity | now apply from_last_dot_none].
Qed.

Lemma from_last_dot_app (s r : string) :
  has_dot r = false -> from_last_dot (s ++ String "." r) = Some (String "." r).
Proof.
  intros Hr. induction s as [|c s IH]; cbn [append from_last_dot].
  - apply from_last_dot_none in Hr. now rewrite Hr.
  - now rewrite IH.
Qed.

(** The suffix of a name is empty, or a dot followed by at least one
    character and no other dot. *)
Lemma suffix_shape (file_name : string) :
  suffix file_name = ""
  \/ exists t, suffix file_name = String "." t
               /\ has_dot t = false /\ is_empty t = false.
Proof.
  destruct file_name as [|c r]; [now left|]. cbn [suffix].
  destruct (from_last_dot r) as [t|] eqn:E; [|now left].
  destruct (from_last_dot_shape _ _ E) as (t' & -> & Hd).
  destruct t' as [|d t'']; [now left|]. right.
  exists (String d t''). now repeat split.
Qed.

Lemma suffix_of_stem_and_extension (stem t : string) :
  is_empty stem = false -> has_dot t = false -> is_empty t = false ->
  suffix (stem ++ String "." t) = String "." t.
Proof.
  intros Hs Hd Ht. destruct stem as [|c s]; [discriminate|].
  cbn [append suffix]. rewrite (from_last_dot_app s t Hd).
  destruct t; [discriminate | reflexivity].
Qed.

Lemma lower_char_dot (c : ascii) :
  Ascii.eqb (lower_char c) "." = Ascii.eqb c ".".
Proof. destruct c as [[] [] [] [] [] [] [] []]; reflexivity. Qed.

Lemma has_dot_lower (s : string) : has_dot (lower s) = has_dot s.
Proof.
  induction s as [|c r IH]; [reflexivity|].
  cbn [lower has_dot]. now rewrite lower_char_dot, IH.
Qed.

(** An extension as the excluded ones are written: a dot, then at least
    one character and no other dot. *)
Definition dotted (x : string) : bool :=
  match x with
  | "" => false
  | String d t => Ascii.eqb d "." && negb (has_dot t) && negb (is_empty t)
  end.

Lemma dotted_lower (x : string) : dotted (lower x) = dotted x.
Proof.
  destruct x as [|d t]; [reflexivity|]. cbn [lower dotted].
  rewrite lower_char_dot, has_dot_lower. now destruct t.
Qed.

Lemma excluded_extensions_dotted :
  forallb dotted excluded_extensions = true.
Proof. reflexivity. Qed.

Lemma mem_In (x : string) (l : list string) :
  mem x l = true <-> In x l.
Proof.
  unfold mem. rewrite existsb_exists. split.
  - intros (y & Hy & E). apply String.eqb_eq in E. now subst.
  - intros H. exists x. split; [exact H | apply String.eqb_refl].
Qed.

(** X7.  A file whose base name is a stem that is not empty followed by
    an excluded extension, written in any letter case, is rejected
    whatever its size and the patterns are. *)
Theorem excluded_extension_in_any_case
    (ignore_patterns : list string) (item : tree_item) (stem ext : string) :
  file_name_of (path item) = stem ++ ext ->
  is_empty stem = false ->
  In (lower ext) excluded_extensions ->
  extension_of (file_name_of (path item)) = lower ext
  /\ keeps ignore_patterns item = false.
Proof.
  intros Hname Hstem Hin.
  assert (Hd : dotted ext = true).
  { rewrite <- dotted_lower. pose proof excluded_extensions_dotted as H.
    rewrite forallb_forall in H. now apply H. }
  assert (He : extension_of (file_name_of (path item)) = lower ext).
  { unfold extension_of. rewrite Hname. f_equal.
    destruct ext as [|d t]; [discriminate|]. cbn [dotted] in Hd.
    apply andb_true_iff in Hd as [Hd Ht].
    apply andb_true_iff in Hd as [Hd Hdot].
    apply Ascii.eqb_eq in Hd; subst d.
    apply negb_true_iff in Ht, Hdot.
    now apply suffix_of_stem_and_extension. }
  split; [exact He|].
  unfold keeps. rewrite He. apply mem_In in Hin. rewrite Hin.
  cbn [negb]. apply andb_false_r.
Qed.

Lemma excluded_extension_in_any_case_witness :
  let item := {| path := "assets/Logo.PNG"; type := "blob"; size := 900 |} in
  extension_of (file_name_of (path item)) = ".png"
  /\ keeps [] item = false.
Proof.
  intros item.
  apply (excluded_extension_in_any_case [] item "Logo" ".PNG");
    [reflexivity | reflexivity | simpl; tauto].
Defined.

Lemma lstrip_dot_no_dot (t : string) :
  has_dot t = false -> lstrip t "." = t.
Proof.
  destruct t as [|c r]; [reflexivity|]. cbn [has_dot]. intros H.
  apply orb_false_iff in H as [H _]. unfold lstrip. cbn [lstrip_by mem_char].
  now rewrite H.
Qed.

(** The extension given to [File] is the one the filter looks at, without
    its dot. *)
Lemma extension_of_bare (file_name : string) :
  (bare_extension file_name = "" /\ extension_of file_name = "")
  \/ extension_of file_name = String "." (bare_extension file_name).
Proof.
  unfold bare_extension, extension_of.
  destruct (suffix_shape file_name) as [->|(t & -> & Hd & _)]; [now left|].
  right. cbn [lower]. change (lower_char ".") with "."%char.
  f_equal. symmetry.
  change (lstrip (String "." (lower t)) ".") with (lstrip (lower t) ".").
  apply lstrip_dot_no_dot. now rewrite has_dot_lower.
Qed.

Lemma image_extension_is_excluded (x : string) :
  In x DocumentationGenerator.image_extensions ->
  In (String "." x) excluded_extensions.
Proof.
  intros H. simpl in H.
  destruct H as [<-|[<-|[<-|[<-|[]]]]]; simpl; tauto.
Qed.

Lemma kept_file_is_no_image (ignore_patterns : list string)
    (item : tree_item) :
  keeps ignore_patterns item = true ->
  existsb (String.eqb (bare_extension (file_name_of (path item))))
          DocumentationGenerator.image_extensions = false.
Proof.
  intros Hk. unfold keeps in Hk.
  apply andb_true_iff in Hk as [_ Hk]. apply negb_true_iff in Hk.
  destruct (existsb _ DocumentationGenerator.image_extensions) eqn:E;
    [|reflexivity].
  apply (mem_In _ DocumentationGenerator.image_extensions) in E.
  destruct (extension_of_bare (file_name_of (path item))) as [[Hb _]|He].
  - rewrite Hb in E. simpl in E. intuition discriminate.
  - apply image_extension_is_excluded in E. rewrite <- He in E.
    apply mem_In in E. congruence.
Qed.

Section WithCollaborators.

Variable fetch_file_content : string -> string.
Variable ast_parse : string -> Py.result CodeAnalyzer.node.
Variable re_count : string -> string -> nat.

Let analyze := FileAnalysis.analyze_file ast_parse re_count.

Lemma build_file_identity (item : tree_item) :
  CodeAnalyzer.path (build_file fetch_file_content analyze item) = path item
  /\ CodeAnalyzer.extension (build_file fetch_file_content analyze item)
     = bare_extension (file_name_of (path item)).
Proof.
  unfold build_file.
  destruct (negb (String.eqb _ "Unknown") || existsb _ text_extensions);
    [|now split].
  destruct (negb (is_empty (fetch_file_content (path item)))); [|now split].
  destruct (FileAnalysisFacts.analyze_file_keeps_identity
              ast_parse re_count
              (set_content
                 (CodeAnalyzer.new_File (path item)
                    (file_name_of (path item))
                    (bare_extension (file_name_of (path item)))
                    (size item) "")
                 (fetch_file_content (path item))))
    as (Hp & He).
  unfold analyze. now rewrite Hp, He.
Qed.

(** X8.  [repo.files] holds one file for each of the first 50 blobs of
    the tree that pass the filter, in the order of the tree; when at most
    50 pass, none is left out. *)
Theorem repo_files_are_the_first_fifty_kept
    (ignore_patterns : list string) (file_tree : list tree_item) :
  let kept := files_to_analyze ignore_patterns file_tree in
  let files := repo_files fetch_file_content analyze ignore_patterns
                          file_tree in
  List.length files = Nat.min 50 (List.length kept)
  /\ map CodeAnalyzer.path files = map path (firstn 50 kept)
  /\ (exists rest, kept = (firstn 50 kept ++ rest)%list)
  /\ (forall f, In f files ->
        exists item, In item file_tree /\ type item = "blob"
                     /\ keeps ignore_patterns item = true
                     /\ CodeAnalyzer.path f = path item).
Proof.
  cbv zeta. unfold repo_files, capped, max_files.
  split; [now rewrite length_map, length_firstn|].
  split.
  { rewrite map_map. apply map_ext. intros item.
    apply build_file_identity. }
  split; [exists (skipn 50 (files_to_analyze ignore_patterns file_tree));
          symmetry; apply firstn_skipn|].
  intros f Hf. apply in_map_iff in Hf as (item & <- & Hin).
  exists item.
  assert (Hk : In item (files_to_analyze ignore_patterns file_tree)).
  { rewrite <- (firstn_skipn 50). apply in_or_app. now left. }
  unfold files_to_analyze in Hk. apply filter_In in Hk as [Ht Hk].
  apply andb_true_iff in Hk as [Hb Hk]. apply String.eqb_eq in Hb.
  repeat split; try assumption. apply build_file_identity.
Qed.

(** X9.  No file of [repo.files] has the extension png, jpg, gif or ico:
    the filter has rejected them all.  The number of files that
    [generate_readme] reports is the length of [repo.files]. *)
Theorem readme_counts_every_file
    (ignore_patterns : list string) (file_tree : list tree_item) :
  let files := repo_files fetch_file_content analyze ignore_patterns
                          file_tree in
  DocumentationGenerator.total_files files = List.length files.
Proof.
  cbv zeta. unfold DocumentationGenerator.total_files. f_equal.
  apply forallb_filter_id. apply forallb_forall. intros f Hf.
  unfold repo_files in Hf. apply in_map_iff in Hf as (item & <- & Hin).
  assert (Hk : In item (files_to_analyze ignore_patterns file_tree)).
  { unfold capped in Hin. rewrite <- (firstn_skipn max_files).
    apply in_or_app. now left. }
  unfold files_to_analyze in Hk. apply filter_In in Hk as [_ Hk].
  apply andb_true_iff in Hk as [_ Hk].
  destruct (build_file_identity item) as [_ ->].
  now rewrite (kept_file_is_no_image _ _ Hk).
Qed.

End WithCollaborators.

End OrchestratorFacts.

(* ================================================================== *)
(** * Properties of the ignore patterns *)
(* ================================================================== *)

Module IgnorePatternFacts.
Import PyStr PyStrFacts Orchestrator.

Lemma rstrip_by_idem (p : ascii -> bool) (s : string) :
  rstrip_by p (rstrip_by p s) = rstrip_by p s.
Proof.
  induction s as [|c r IH]; [reflexivity|]. cbn [rstrip_by].
  destruct (is_empty (rstrip_by p r) && p c) eqn:E; [reflexivity|].
  cbn [rstrip_by]. now rewrite IH, E.
Qed.

Lemma lstrip_by_idem (p : ascii -> bool) (s : string) :
  lstrip_by p (lstrip_by p s) = lstrip_by p s.
Proof.
  induction s as [|c r IH]; [reflexivity|]. cbn [lstrip_by].
  destruct (p c) eqn:E; [exact IH|]. cbn [lstrip_by]. now rewrite E.
Qed.

(** Stripping on the left does not bring white space to the right end. *)
Lemma rstrip_by_lstrip_by (p : ascii -> bool) (x : string) :
  rstrip_by p x = x -> rstrip_by p (lstrip_by p x) = lstrip_by p x.
Proof.
  induction x as [|c r IH]; [reflexivity|]. intros Hx.
  assert (Hr : rstrip_by p r = r).
  { cbn [rstrip_by] in Hx.
    destruct (is_empty (rstrip_by p r) && p c); [discriminate|].
    now injection Hx. }
  cbn [lstrip_by]. destruct (p c); [now apply IH | exact Hx].
Qed.

Lemma strip_idem (s : string) : strip (strip s) = strip s.
Proof.
  unfold strip.
  rewrite (rstrip_by_lstrip_by isspace (rstrip_by isspace s))
    by apply rstrip_by_idem.
  apply lstrip_by_idem.
Qed.

(** What a pattern of the set always is: a stripped text that is not
    empty and does not start a comment. *)
Definition well_formed (pattern : string) : Prop :=
  is_empty pattern = false
  /\ startswith pattern "#" = false
  /\ strip pattern = pattern.

Lemma set_add_keeps (P : string -> Prop) (s : list string) (x : string) :
  Forall P s -> NoDup s -> P x ->
  Forall P (set_add s x) /\ NoDup (set_add s x).
Proof.
  intros Hs Hn Hx. unfold set_add.
  destruct (existsb (String.eqb x) s) eqn:E; [now split|]. split.
  - apply Forall_app. split; [exact Hs | now constructor].
  - apply Permutation_NoDup with (x :: s);
      [apply Permutation_cons_append|].
    constructor; [|exact Hn]. intros Hin.
    assert (existsb (String.eqb x) s = true); [|congruence].
    apply existsb_exists. exists x. split; [exact Hin|apply String.eqb_refl].
Qed.

Lemma pattern_loop_keeps (lines ignore_patterns : list string) :
  Forall well_formed ignore_patterns -> NoDup ignore_patterns ->
  let result :=
    fold_left
      (fun ignore_patterns line0 =>
         let line := strip line0 in
         if negb (is_empty line) && negb (startswith line "#")
         then set_add ignore_patterns line
         else ignore_patterns) lines ignore_patterns in
  Forall well_formed result /\ NoDup result.
Proof.
  revert ignore_patterns.
  induction lines as [|line0 rest IH]; intros pats Hf Hn; [now split|].
  cbn [fold_left]. cbv zeta.
  destruct (negb (is_empty (strip line0))
            && negb (startswith (strip line0) "#")) eqn:E;
    [|now apply IH].
  apply andb_true_iff in E as [E1 E2]. apply negb_true_iff in E1, E2.
  destruct (set_add_keeps well_formed pats (strip line0) Hf Hn) as [Hf' Hn'].
  { repeat split; [exact E1 | exact E2 | apply strip_idem]. }
  now apply IH.
Qed.

(** X10.  Every pattern taken from [.gitignore] is a stripped line that
    is not empty and is not a comment, and no pattern is kept twice. *)
Theorem ignore_patterns_are_clean (gitignore_content pattern : string) :
  In pattern (build_ignore_patterns gitignore_content) ->
  is_empty pattern = false
  /\ startswith pattern "#" = false
  /\ strip pattern = pattern
  /\ NoDup (build_ignore_patterns gitignore_content).
Proof.
  unfold build_ignore_patterns.
  destruct (is_empty gitignore_content); [intros []|].
  destruct (pattern_loop_keeps (splitlines gitignore_content) [])
    as [Hf Hn]; [constructor | constructor |].
  cbv zeta in Hf, Hn. intros Hin.
  rewrite Forall_forall in Hf. destruct (Hf pattern Hin) as (H1 & H2 & H3).
  now repeat split.
Qed.

Definition sample_gitignore : string :=
  "# build output" ++ String CR nl ++ "  dist/  " ++ nl ++ nl
  ++ "*.log" ++ nl ++ "dist/" ++ nl.

Lemma ignore_patterns_are_clean_witness :
  build_ignore_patterns sample_gitignore = ["dist/"; "*.log"]
  /\ is_empty "dist/" = false
  /\ startswith "dist/" "#" = false
  /\ strip "dist/" = "dist/"
  /\ NoDup (build_ignore_patterns sample_gitignore).
Proof.
  split; [reflexivity|].
  apply (ignore_patterns_are_clean sample_gitignore "dist/").
  now left.
Defined.

End IgnorePatternFacts.

(* ================================================================== *)
(** * More about the technology scores *)
(* ================================================================== *)

Module TechnologyMore.
Import PyStr TechnologyDetector TechnologyFacts.

(** The names of the catalog. *)
Definition catalog_names : list string := map fst technologies_in_order.

(** A score the detector can write: between 0.3 and 1. *)
Definition in_range (v : Qc) : Prop := (c0_3 <= v)%Qc /\ (v <= one)%Qc.

(** Every item of a dict has a name of the catalog and a score in
    range. *)
Definition sound (d : scores) : Prop :=
  forall k v, In (k, v) d -> In k catalog_names /\ in_range v.

Lemma set_In (d : scores) (k k' : string) (v v' : Qc) :
  In (k', v') (set d k v) -> (k' = k /\ v' = v) \/ In (k', v') d.
Proof.
  induction d as [|[k0 v0] r IH]; simpl.
  - intros [[= <- <-]|[]]. now left.
  - destruct (String.eqb_spec k k0) as [->|_]; simpl.
    + intros [[= <- <-]|H]; [now left | right; now right].
    + intros [H|H]; [right; now left|].
      destruct (IH H) as [H'|H']; [now left | right; now right].
Qed.

Lemma set_In_same (d : scores) (k : string) (v : Qc) : In (k, v) (set d k v).
Proof.
  induction d as [|[k0 v0] r IH]; simpl; [now left|].
  destruct (String.eqb k k0); simpl; [now left | now right].
Qed.

Lemma set_In_kept (d : scores) (k k' : string) (v : Qc) :
  In (k', v) d -> In (k', v) (set d k v).
Proof.
  induction d as [|[k0 v0] r IH]; simpl; [easy|].
  destruct (String.eqb_spec k k0) as [->|_]; simpl.
  - intros [[= <- <-]|H]; [now left | now right].
  - intros [H|H]; [now left | right; now apply IH].
Qed.

Lemma get_In (d : scores) (k : string) :
  get d k zero = zero \/ In (k, get d k zero) d.
Proof.
  induction d as [|[k0 v0] r IH]; simpl; [now left|].
  destruct (String.eqb_spec k k0) as [->|_]; [right; now left|].
  destruct IH; [now left | right; now right].
Qed.

Lemma set_sound (d : scores) (k : string) (v : Qc) :
  sound d -> In k catalog_names -> in_range v -> sound (set d k v).
Proof.
  intros Hd Hk Hv k' v' Hin.
  destruct (set_In _ _ _ _ _ Hin) as [[-> ->]|H]; [now split | now apply Hd].
Qed.

Lemma in_range_max (a b : Qc) :
  a = zero \/ in_range a -> in_range b -> in_range (max a b).
Proof.
  unfold in_range. intros [->|[Ha1 Ha2]] [Hb1 Hb2].
  - assert (E : max zero b = b); [|now rewrite E].
    unfold max. destruct (ltb_spec zero b) as [_|H]; [reflexivity|].
    exfalso. apply H. apply Qclt_le_trans with c0_3; [reflexivity | exact Hb1].
  - unfold max. destruct (ltb a b); now split.
Qed.

Lemma merge_sound (tech_matches : scores) :
  forall d, sound d -> sound tech_matches -> sound (merge d tech_matches).
Proof.
  unfold merge. induction tech_matches as [|[k v] m IH]; intros d Hd Hm;
    [exact Hd|].
  cbn [fold_left fst snd]. apply IH.
  - destruct (Hm k v (or_introl eq_refl)) as [Hk Hv].
    apply set_sound; [exact Hd | exact Hk|].
    apply in_range_max; [|exact Hv].
    destruct (get_In d k) as [H|H]; [now left | right; now apply (Hd k)].
  - intros k' v' Hin. apply Hm. now right.
Qed.

Lemma Qc_of_nat_ge_1 (n : nat) : 0 < n -> (one <= Qc_of_nat n)%Qc.
Proof.
  intros Hn. unfold Qcle, one, Qc_of_nat, Q2Qc; cbn [this].
  rewrite !Qred_correct. change 1%Q with (inject_Z 1).
  rewrite <- Zle_Qle. lia.
Qed.

Lemma first_match_in_range (n : nat) :
  0 < n -> in_range (min (Qc_of_nat n * c0_3)%Qc one).
Proof.
  intros Hn. pose proof (Qc_of_nat_ge_1 n Hn) as H1.
  assert (H3 : (c0_3 <= Qc_of_nat n * c0_3)%Qc).
  { replace c0_3 with (one * c0_3)%Qc at 1 by apply Qcmult_1_l.
    apply Qcmult_le_compat_r; [exact H1 | discriminate]. }
  unfold in_range, min.
  destruct (ltb_spec one (Qc_of_nat n * c0_3)%Qc) as [H|H].
  - split; [discriminate | apply Qcle_refl].
  - split; [exact H3 | now apply Qcnot_lt_le].
Qed.

Lemma content_confidence_range (content : string) (patterns : list string) :
  content_confidence content patterns = zero
  \/ in_range (content_confidence content patterns).
Proof.
  unfold content_confidence.
  assert (H : forall start, start = zero \/ in_range start ->
            fold_left (pattern_confidence content) patterns start = zero
            \/ in_range (fold_left (pattern_confidence content) patterns
                                   start)).
  { induction patterns as [|p ps IH]; intros start Hs; [exact Hs|].
    cbn [fold_left]. apply IH. unfold pattern_confidence.
    destruct (negb (startswith p "\.")); [|exact Hs].
    destruct (Nat.ltb_spec 0 (Re.findall_count p content)) as [Hn|_];
      [|exact Hs].
    right. apply in_range_max; [exact Hs | now apply first_match_in_range]. }
  apply H. now left.
Qed.

Lemma file_matches_sound (content : string) :
  sound (_analyze_file_content content).
Proof.
  unfold _analyze_file_content.
  assert (H : forall techs d,
            incl (map fst techs) catalog_names -> sound d ->
            sound (fold_left
                     (fun detected tech =>
                        let confidence :=
                          content_confidence content (snd tech) in
                        if ltb zero confidence
                        then set detected (fst tech) confidence
                        else detected) techs d)).
  { induction techs as [|t ts IH]; intros d Hincl Hd; [exact Hd|].
    cbn [fold_left]. apply IH; [intros x Hx; apply Hincl; now right|].
    cbv zeta.
    destruct (ltb_spec zero (content_confidence content (snd t)))
      as [Hpos|_]; [|exact Hd].
    apply set_sound; [exact Hd | apply Hincl; now left|].
    destruct (content_confidence_range content (snd t)) as [E|E];
      [|exact E].
    rewrite E in Hpos. discriminate. }
  apply H; [apply incl_refl | intros k v []].
Qed.

Lemma c0_8_in_range : in_range c0_8.
Proof. split; discriminate. Qed.

Lemma dependency_matches_sound (dependency_name : string) :
  sound (_analyze_dependency dependency_name).
Proof.
  unfold _analyze_dependency.
  assert (H : forall techs d,
            incl (map fst techs) catalog_names -> sound d ->
            sound (fold_left
                     (fun detected tech =>
                        if dependency_hit (lower dependency_name) (snd tech)
                        then set detected (fst tech) c0_8
                        else detected) techs d)).
  { induction techs as [|t ts IH]; intros d Hincl Hd; [exact Hd|].
    cbn [fold_left]. apply IH; [intros x Hx; apply Hincl; now right|].
    destruct (dependency_hit (lower dependency_name) (snd t)); [|exact Hd].
    apply set_sound; [exact Hd | apply Hincl; now left | apply c0_8_in_range]. }
  apply H; [apply incl_refl | intros k v []].
Qed.

Lemma detected_after_sound (files : list CodeAnalyzer.File)
    (dependencies : list DependencyAnalyzer.Dependency) :
  sound (detected_after files dependencies).
Proof.
  unfold detected_after.
  assert (Hfiles : forall d, sound d ->
            sound (fold_left
                     (fun d file_obj =>
                        if negb (is_empty (CodeAnalyzer.content file_obj))
                        then merge d (_analyze_file_content
                                        (CodeAnalyzer.content file_obj))
                        else d) files d)).
  { induction files as [|f fs IH]; intros d Hd; [exact Hd|].
    cbn [fold_left]. apply IH.
    destruct (negb (is_empty (CodeAnalyzer.content f))); [|exact Hd].
    apply merge_sound; [exact Hd | apply file_matches_sound]. }
  generalize (Hfiles [] (fun k v (H : In (k, v) []) => match H with end)).
  generalize (fold_left
                (fun d file_obj =>
                   if negb (is_empty (CodeAnalyzer.content file_obj))
                   then merge d (_analyze_file_content
                                   (CodeAnalyzer.content file_obj))
                   else d) files []).
  induction dependencies as [|dep deps IH]; intros d Hd; [exact Hd|].
  cbn [fold_left]. apply IH.
  apply merge_sound; [exact Hd | apply dependency_matches_sound].
Qed.

Lemma catalog_categories (tech_name : string) :
  In tech_name catalog_names ->
  In (_get_technology_category tech_name)
     ["frameworks"; "databases"; "testing"].
Proof.
  intros H. unfold catalog_names, technologies_in_order in H. simpl in H.
  repeat (destruct H as [<-|H]; [vm_compute; tauto|]). destruct H.
Qed.

Lemma threshold_keeps_all (d : scores) :
  sound d -> filter (fun tc => ltb c0_1 (snd tc)) d = d.
Proof.
  intros Hd. apply forallb_filter_id. apply forallb_forall.
  intros [k v] Hin. destruct (Hd k v Hin) as [_ [Hv _]]. cbn [snd].
  destruct (ltb_spec c0_1 v) as [_|H]; [reflexivity|]. exfalso. apply H.
  apply Qclt_le_trans with c0_3; [reflexivity | exact Hv].
Qed.

(** X11.  Every record that [detect_technologies] returns names a
    technology of the catalog, has one of the three categories of the
    catalog (never the fallback [other]) and a confidence between 0.3 and
    1.  The threshold of 0.1 keeps every item of [detected]. *)
Theorem emitted_records_are_in_catalog_and_range
    (files : list CodeAnalyzer.File)
    (dependencies : list DependencyAnalyzer.Dependency) :
  (forall t, In t (detect_technologies files dependencies) ->
     In (name t) catalog_names
     /\ In (category t) ["frameworks"; "databases"; "testing"]
     /\ (c0_3 <= confidence t)%Qc /\ (confidence t <= one)%Qc)
  /\ List.length (detect_technologies files dependencies)
     = List.length (detected_after files dependencies).
Proof.
  pose proof (detected_after_sound files dependencies) as Hs.
  unfold detect_technologies. rewrite (threshold_keeps_all _ Hs).
  split; [|apply length_map].
  intros t Ht. apply in_map_iff in Ht as ([k v] & <- & Hin).
  cbn [name category confidence fst snd].
  destruct (Hs k v Hin) as [Hk [Hv1 Hv2]].
  repeat split; try assumption. now apply catalog_categories.
Qed.

(** X12.  The list returned has at most one record for a technology, so
    at most 17 records. *)
Theorem one_record_per_technology
    (files : list CodeAnalyzer.File)
    (dependencies : list DependencyAnalyzer.Dependency) :
  NoDup (map name (detect_technologies files dependencies))
  /\ List.length (detect_technologies files dependencies) <= 17.
Proof.
  pose proof (detected_after_sound files dependencies) as Hs.
  assert (Hn : NoDup (map name (detect_technologies files dependencies))).
  { unfold detect_technologies. rewrite (threshold_keeps_all _ Hs).
    rewrite map_map. cbn [name].
    apply detected_after_nodup. }
  split; [exact Hn|].
  rewrite <- (length_map name).
  change 17 with (List.length catalog_names).
  apply NoDup_incl_length; [exact Hn|].
  intros x Hx. apply in_map_iff in Hx as (t & <- & Ht).
  unfold detect_technologies in Ht. rewrite (threshold_keeps_all _ Hs) in Ht.
  apply in_map_iff in Ht as ([k v] & <- & Hin). cbn [name fst].
  now apply (Hs k v).
Qed.

(** ** A dependency that names a technology *)

Lemma dependency_loop_hit (dep_lower tech_name : string)
    (patterns : list string) (techs : list (string * list string)) :
  In (tech_name, patterns) techs ->
  dependency_hit dep_lower patterns = true ->
  forall d,
    In (tech_name, c0_8)
       (fold_left
          (fun detected tech =>
             if dependency_hit dep_lower (snd tech)
             then set detected (fst tech) c0_8
             else detected) techs d).
Proof.
  intros Hin Hhit.
  assert (Hkeep : forall ts d, In (tech_name, c0_8) d ->
            In (tech_name, c0_8)
               (fold_left
                  (fun detected tech =>
                     if dependency_hit dep_lower (snd tech)
                     then set detected (fst tech) c0_8
                     else detected) ts d)).
  { induction ts as [|t ts IH]; intros d Hd; [exact Hd|].
    cbn [fold_left]. apply IH.
    destruct (dependency_hit dep_lower (snd t)); [|exact Hd].
    now apply set_In_kept. }
  induction techs as [|t ts IH]; intros d; [easy|].
  cbn [fold_left]. destruct Hin as [->|Hin]; [|now apply IH].
  cbn [fst snd]. rewrite Hhit. apply Hkeep, set_In_same.
Qed.

Lemma entries_In (m : scores) (tech_name : string) (v : Qc) :
  In (tech_name, v) m -> In v (entries m tech_name).
Proof.
  intros H. unfold entries. apply in_map_iff. exists (tech_name, v).
  split; [reflexivity|]. apply filter_In. split; [exact H|].
  apply String.eqb_refl.
Qed.

(** X13.  When the lower-cased name of a dependency contains the
    lower-cased text of a pattern of a technology, that technology is
    emitted with a confidence of at least 0.8, whatever the files hold. *)
Theorem dependency_match_gives_at_least_0_8
    (files : list CodeAnalyzer.File)
    (dependencies : list DependencyAnalyzer.Dependency)
    (dep : DependencyAnalyzer.Dependency)
    (tech_name : string) (patterns : list string) (pattern : string) :
  In dep dependencies ->
  In (tech_name, patterns) technologies_in_order ->
  In pattern patterns ->
  contains (lower (DependencyAnalyzer.name dep)) (lower pattern) = true ->
  exists c, emitted files dependencies tech_name = Some c
            /\ (c0_8 <= c)%Qc.
Proof.
  intros Hdep Htech Hpat Hsub.
  assert (Hhit : dependency_hit (lower (DependencyAnalyzer.name dep))
                                patterns = true).
  { unfold dependency_hit. apply existsb_exists. now exists pattern. }
  assert (Hev : In c0_8 (evidence files dependencies tech_name)).
  { unfold evidence. apply in_or_app. right.
    apply in_flat_map. exists dep. split; [exact Hdep|].
    unfold dependency_evidence. apply entries_In.
    unfold _analyze_dependency. now apply dependency_loop_hit with patterns. }
  pose proof (maximum_from_upper_bound _ zero _ Hev) as Hge.
  fold (maximum (evidence files dependencies tech_name)) in Hge.
  exists (maximum (evidence files dependencies tech_name)).
  split; [|exact Hge].
  rewrite emitted_is_maximum.
  destruct (ltb_spec c0_1 (maximum (evidence files dependencies tech_name)))
    as [_|H]; [reflexivity|].
  exfalso. apply H. apply Qclt_le_trans with c0_8; [reflexivity | exact Hge].
Qed.

Lemma dependency_match_gives_at_least_0_8_witness :
  exists c, emitted [] [flask_dependency] "Flask" = Some c /\ (c0_8 <= c)%Qc.
Proof.
  apply (dependency_match_gives_at_least_0_8 [] [flask_dependency]
           flask_dependency "Flask"
           ["from flask"; "import flask"; "flask"] "flask").
  - now left.
  - vm_compute. tauto.
  - simpl. tauto.
  - reflexivity.
Defined.

(** ** More files and more dependencies *)

Lemma maximum_from_mono (l : list Qc) :
  forall a b, (a <= b)%Qc -> (maximum_from a l <= maximum_from b l)%Qc.
Proof.
  unfold maximum_from. induction l as [|x l IH]; intros a b Hab; [exact Hab|].
  cbn [fold_left]. apply IH. revert Hab. order_cases.
Qed.

(** X14.  Files and dependencies added to a run never lower the score
    kept for a technology: a technology that was emitted is still
    emitted, with a confidence at least as high. *)
Theorem more_input_never_lowers_confidence
    (files more_files : list CodeAnalyzer.File)
    (dependencies more_dependencies : list DependencyAnalyzer.Dependency)
    (tech_name : string) (c : Qc) :
  emitted files dependencies tech_name = Some c ->
  exists c', emitted (files ++ more_files)
                     (dependencies ++ more_dependencies) tech_name = Some c'
             /\ (c <= c')%Qc.
Proof.
  rewrite !emitted_is_maximum.
  set (m := maximum (evidence files dependencies tech_name)).
  set (m' := maximum (evidence (files ++ more_files)
                               (dependencies ++ more_dependencies)
                               tech_name)).
  assert (Hle : (m <= m')%Qc).
  { unfold m, m', maximum, evidence.
    rewrite !flat_map_app, !maximum_from_app.
    set (a := maximum_from zero
                (flat_map (content_evidence tech_name) files)).
    apply Qcle_trans
      with (maximum_from
              (maximum_from a
                 (flat_map (content_evidence tech_name) more_files))
              (flat_map (dependency_evidence tech_name) dependencies)).
    - apply maximum_from_mono, maximum_from_ge_start.
    - apply maximum_from_ge_start. }
  destruct (ltb_spec c0_1 m) as [Hm|_]; [|discriminate].
  intros [= <-]. exists m'. split; [|exact Hle].
  destruct (ltb_spec c0_1 m') as [_|H]; [reflexivity|].
  exfalso. apply H. now apply Qclt_le_trans with m.
Qed.

Lemma more_input_never_lowers_confidence_witness :
  emitted [flask_file] [] "Flask" = Some c0_3
  /\ exists c', emitted ([flask_file] ++ [redis_file])
                        ([] ++ [flask_dependency]) "Flask" = Some c'
                /\ (c0_3 <= c')%Qc.
Proof.
  assert (E : emitted [flask_file] [] "Flask" = Some c0_3)
    by (vm_compute; reflexivity).
  split; [exact E|].
  exact (more_input_never_lowers_confidence
           [flask_file] [redis_file] [] [flask_dependency] "Flask" c0_3 E).
Defined.

End TechnologyMore.

(* ================================================================== *)
(** * More about the manifest parsers *)
(* ================================================================== *)

Module ManifestMore.
Import PyStr PyStrFacts Json DependencyAnalyzer ManifestFacts.

(** ** Texts without some characters *)

(** No character of [s] satisfies [p]. *)
Fixpoint free_of (p : ascii -> bool) (s : string) : bool :=
  match s with
  | "" => true
  | String c r => negb (p c) && free_of p r
  end.

Lemma free_of_lstrip_by (p q : ascii -> bool) (s : string) :
  free_of p s = true -> free_of p (lstrip_by q s) = true.
Proof.
  induction s as [|c r IH]; [reflexivity|]. cbn [free_of lstrip_by].
  intros H. destruct (q c); [|exact H].
  apply andb_true_iff in H as [_ H]. now apply IH.
Qed.

Lemma free_of_rstrip_by (p q : ascii -> bool) (s : string) :
  free_of p s = true -> free_of p (rstrip_by q s) = true.
Proof.
  induction s as [|c r IH]; [reflexivity|]. cbn [free_of rstrip_by].
  intros H. apply andb_true_iff in H as [Hc H].
  destruct (is_empty (rstrip_by q r) && q c); [reflexivity|].
  cbn [free_of]. now rewrite Hc, IH.
Qed.

Lemma free_of_strip (p : ascii -> bool) (s : string) :
  free_of p s = true -> free_of p (strip s) = true.
Proof. intros H. now apply free_of_lstrip_by, free_of_rstrip_by. Qed.

(** The first field of a split has no separator. *)
Lemma split_by_head_free (p : ascii -> bool) (s : string) :
  match split_by p s with
  | h :: _ => free_of p h = true
  | [] => False
  end.
Proof.
  induction s as [|c r IH]; [reflexivity|]. cbn [split_by].
  destruct (p c) eqn:E; [reflexivity|].
  destruct (split_by p r) as [|h t]; [easy|].
  cbn [free_of]. now rewrite E, IH.
Qed.

(** ** [_parse_pip_dependencies] *)

Definition pip_record (d : Dependency) : Prop :=
  type d = "pip" /\ is_dev d = false
  /\ free_of is_operator (name d) = true
  /\ strip (name d) = name d
  /\ exists v, version d = VStr v /\ is_empty v = false.

Lemma or_star_not_empty (x : string) : is_empty (or_star x) = false.
Proof. unfold or_star. now destruct x. Qed.

Lemma pip_loop_records (lines : list string) :
  forall dependencies result,
    Forall pip_record dependencies ->
    pip_loop lines dependencies = Py.Ok result ->
    Forall pip_record result.
Proof.
  induction lines as [|line0 rest IH]; intros deps result Hd;
    cbn [pip_loop].
  - now intros [= <-].
  - destruct (negb (is_empty (strip line0))
              && negb (startswith (strip line0) "#")); [|now apply IH].
    pose proof (split_by_head_free is_operator (strip line0)) as Hh.
    destruct (split_by is_operator (strip line0)) as [|h t]; [easy|].
    cbn [Py.index nth_error Py.bind]. apply IH.
    apply Forall_app. split; [exact Hd|]. constructor; [|constructor].
    repeat split; cbn [name version type is_dev].
    + now apply free_of_strip.
    + apply IgnorePatternFacts.strip_idem.
    + eexists. split; [reflexivity | apply or_star_not_empty].
Qed.

(** X15.  Every record of a requirements list has a name without any of
    the characters [>=<~!] and without white space around it, and a
    version that is never empty: the star stands for a missing one. *)
Theorem pip_records_are_well_formed (content : string)
    (result : list Dependency) :
  _parse_pip_dependencies content = Py.Ok result ->
  forall d, In d result ->
    type d = "pip" /\ is_dev d = false
    /\ free_of is_operator (name d) = true
    /\ strip (name d) = name d
    /\ exists v, version d = VStr v /\ is_empty v = false.
Proof.
  intros H d Hin.
  pose proof (pip_loop_records _ _ _ (Forall_nil _) H) as Hf.
  rewrite Forall_forall in Hf. exact (Hf d Hin).
Qed.

Lemma pip_records_are_well_formed_witness :
  exists d, In d [{| name := "flask"; version := VStr ">=2.0"; type := "pip";
                     is_dev := false |};
                  {| name := "requests"; version := VStr "*"; type := "pip";
                     is_dev := false |}]
            /\ name d = "requests"
            /\ exists v, version d = VStr v /\ is_empty v = false.
Proof.
  eexists. split; [right; now left|]. split; [reflexivity|].
  apply (pip_records_are_well_formed requirements_scenario _ pip_scenario).
  right. now left.
Defined.

(** ** [_parse_pipfile_dependencies] *)

Lemma pipfile_loop_no_dev_header (lines : list string) :
  forall current_section dependencies result,
    current_section <> "dev-packages" ->
    (forall line, In line lines -> strip line <> "[dev-packages]") ->
    Forall (fun d => is_dev d = false) dependencies ->
    pipfile_loop lines current_section dependencies = Py.Ok result ->
    Forall (fun d => is_dev d = false) result.
Proof.
  induction lines as [|line0 rest IH]; intros sec deps result Hsec Hl Hd;
    cbn [pipfile_loop].
  - now intros [= <-].
  - assert (Hrest : forall line, In line rest ->
                      strip line <> "[dev-packages]")
      by (intros; apply Hl; now right).
    destruct (startswith (strip line0) "[") eqn:Es;
      [destruct (endswith (strip line0) "]") eqn:Ee|]; cbn [andb].
    + apply IH; [|exact Hrest | exact Hd].
      intros E. apply (Hl line0 (or_introl eq_refl)).
      rewrite (bracketed _ Es Ee), E. reflexivity.
    + destruct (contains (strip line0) "=" &&
                mem sec ["packages"; "dev-packages"]) eqn:Ec;
        [|now apply IH].
      apply andb_true_iff in Ec as [Ec _].
      destruct (index_0_1 _ (split_char_two_fields _ _ Ec))
        as (a & b & -> & ->).
      cbn [Py.bind]. apply IH; [exact Hsec | exact Hrest|].
      apply Forall_app. split; [exact Hd|]. constructor; [|constructor].
      cbn [is_dev]. now apply String.eqb_neq.
    + destruct (contains (strip line0) "=" &&
                mem sec ["packages"; "dev-packages"]) eqn:Ec;
        [|now apply IH].
      apply andb_true_iff in Ec as [Ec _].
      destruct (index_0_1 _ (split_char_two_fields _ _ Ec))
        as (a & b & -> & ->).
      cbn [Py.bind]. apply IH; [exact Hsec | exact Hrest|].
      apply Forall_app. split; [exact Hd|]. constructor; [|constructor].
      cbn [is_dev]. now apply String.eqb_neq.
Qed.

(** X16.  A Pipfile in which no line is the header [[dev-packages]] gives
    no development dependency. *)
Theorem pipfile_dev_needs_dev_header (content : string)
    (result : list Dependency) :
  (forall line, In line (split_char LF content) ->
                strip line <> "[dev-packages]") ->
  _parse_pipfile_dependencies content = Py.Ok result ->
  forall d, In d result -> is_dev d = false.
Proof.
  intros Hl H d Hin.
  assert (Hf : Forall (fun d => is_dev d = false) result).
  { apply (pipfile_loop_no_dev_header (split_char LF content) "" []);
      [discriminate | exact Hl | constructor | exact H]. }
  rewrite Forall_forall in Hf. now apply Hf.
Qed.

Definition plain_pipfile : string :=
  "[packages]" ++ nl ++ "requests = " ++ String DQ "*" ++ String DQ ""
  ++ nl ++ "[requires]" ++ nl ++ "python_version = "
  ++ String DQ "3.11" ++ String DQ "" ++ nl.

Lemma pipfile_dev_needs_dev_header_witness :
  _parse_pipfile_dependencies plain_pipfile
  = Py.Ok [{| name := "requests"; version := VStr "*"; type := "pipenv";
              is_dev := false |}]
  /\ forall d, In d [{| name := "requests"; version := VStr "*";
                        type := "pipenv"; is_dev := false |}] ->
               is_dev d = false.
Proof.
  split; [reflexivity|].
  apply (pipfile_dev_needs_dev_header plain_pipfile); [|reflexivity].
  intros line Hin. vm_compute in Hin.
  repeat (destruct Hin as [<-|Hin]; [vm_compute; discriminate|]).
  destruct Hin.
Defined.

(** ** [_parse_go_dependencies] *)

(** A field of [split()]: not empty and without white space. *)
Definition token (w : string) : Prop :=
  is_empty w = false /\ free_of isspace w = true.

Lemma split_ws_go_tokens (s : string) :
  free_of isspace (fst (split_ws_go s)) = true
  /\ Forall token (snd (split_ws_go s)).
Proof.
  induction s as [|c r [Hw Hws]]; [now split|]. cbn [split_ws_go].
  destruct (split_ws_go r) as [w ws]. cbn [fst snd] in *.
  destruct (isspace c) eqn:E; cbn [fst snd].
  - split; [reflexivity|]. destruct w; [exact Hws|].
    cbn [is_empty]. constructor; [now split | exact Hws].
  - split; [|exact Hws]. cbn [free_of]. now rewrite E, Hw.
Qed.

Lemma split_ws_tokens (s : string) : Forall token (split_ws s).
Proof.
  unfold split_ws. pose proof (split_ws_go_tokens s) as [Hw Hws].
  destruct (split_ws_go s) as [w ws]. cbn [fst snd] in *.
  destruct w; [exact Hws|]. cbn [is_empty].
  constructor; [now split | exact Hws].
Qed.

Definition go_record (d : Dependency) : Prop :=
  type d = "go" /\ is_dev d = false /\ token (name d)
  /\ exists v, version d = VStr v /\ token v.

Lemma go_loop_records (lines : list string) :
  forall dependencies result,
    Forall go_record dependencies ->
    go_loop lines dependencies = Py.Ok result ->
    Forall go_record result.
Proof.
  induction lines as [|line0 rest IH]; intros deps result Hd;
    cbn [go_loop].
  - now intros [= <-].
  - destruct (contains (strip line0) "require"
              || contains (strip line0) " v"
                 && negb (startswith (strip line0) "module")
                 && negb (startswith (strip line0) "go ")); [|now apply IH].
    pose proof (split_ws_tokens
                  (strip (replace (strip line0) "require" ""))) as Ht.
    destruct (split_ws (strip (replace (strip line0) "require" "")))
      as [|a [|b parts]]; cbn [List.length Nat.leb]; try now apply IH.
    cbn [Py.index nth_error Py.bind]. apply IH.
    apply Forall_app. split; [exact Hd|]. constructor; [|constructor].
    inversion Ht as [|? ? Ha Ht']; subst.
    inversion Ht' as [|? ? Hb _]; subst.
    repeat split; cbn [name version type is_dev]; try apply Ha.
    exists b. now split.
Qed.

(** X17.  Every record of a [go.mod] has a name and a version that are
    not empty and hold no white space: they are the first two fields of a
    line. *)
Theorem go_records_are_tokens (content : string) (result : list Dependency) :
  _parse_go_dependencies content = Py.Ok result ->
  forall d, In d result ->
    type d = "go" /\ is_dev d = false
    /\ (is_empty (name d) = false /\ free_of isspace (name d) = true)
    /\ exists v, version d = VStr v
                 /\ is_empty v = false /\ free_of isspace v = true.
Proof.
  intros H d Hin.
  pose proof (go_loop_records _ _ _ (Forall_nil _) H) as Hf.
  rewrite Forall_forall in Hf.
  destruct (Hf d Hin) as (Ht & Hdev & Hn & v & Hv & Htok).
  repeat split; try assumption; try apply Hn.
  exists v. split; [exact Hv | exact Htok].
Qed.

Definition sample_go_mod : string :=
  "module example.com/app" ++ nl ++ "go 1.21" ++ nl ++ "require (" ++ nl
  ++ String (ascii_of_nat 9) "github.com/gin-gonic/gin v1.9.1" ++ nl
  ++ ")" ++ nl.

Lemma go_records_are_tokens_witness :
  _parse_go_dependencies sample_go_mod
  = Py.Ok [{| name := "github.com/gin-gonic/gin"; version := VStr "v1.9.1";
              type := "go"; is_dev := false |}]
  /\ free_of isspace "github.com/gin-gonic/gin" = true.
Proof.
  split; [reflexivity|].
  destruct (go_records_are_tokens sample_go_mod _ eq_refl
              {| name := "github.com/gin-gonic/gin";
                 version := VStr "v1.9.1"; type := "go"; is_dev := false |})
    as (_ & _ & [_ H] & _); [now left | exact H].
Defined.

(** ** [_parse_maven_dependencies] *)

Definition not_lt (c : ascii) : bool := negb (Ascii.eqb c "<").

(** A text a group of the pattern can hold: not empty and without [<]. *)
Definition group_text (g : string) : Prop :=
  is_empty g = false /\ free_of (fun c => Ascii.eqb c "<") g = true.

Lemma run_of_free (s : string) :
  free_of (fun c => Ascii.eqb c "<")
          (fst (run_of (fun c => negb (Ascii.eqb c "<")) s)) = true.
Proof.
  induction s as [|c r IH]; [reflexivity|]. cbn [run_of].
  destruct (Ascii.eqb c "<") eqn:E; cbn [negb]; [reflexivity|].
  destruct (run_of (fun c0 => negb (Ascii.eqb c0 "<")) r) as [g t].
  cbn [fst free_of] in *. now rewrite E, IH.
Qed.

Lemma group_spec (s g r : string) :
  group s = Some (g, r) -> group_text g.
Proof.
  unfold group. pose proof (run_of_free s) as H.
  destruct (run_of (fun c => negb (Ascii.eqb c "<")) s) as [g0 r0].
  cbn [fst] in H. destruct (is_empty g0) eqn:E; [discriminate|].
  intros [= <- <-]. now split.
Qed.

Lemma tagged_spec (tag s g r : string) :
  tagged tag s = Some (g, r) -> group_text g.
Proof.
  unfold tagged. destruct (literal _ s) as [s1|]; [|discriminate].
  destruct (group s1) as [[g0 s2]|] eqn:E; [|discriminate].
  destruct (literal _ s2); [|discriminate].
  intros [= <- <-]. exact (group_spec _ _ _ E).
Qed.

Lemma artifact_pattern_spec (s : string) (g a v rest : string) :
  artifact_pattern s = Some ((g, a, v), rest) ->
  group_text g /\ group_text a /\ group_text v.
Proof.
  unfold artifact_pattern.
  destruct (tagged "groupId" s) as [[g0 s1]|] eqn:Eg; [|discriminate].
  destruct (tagged "artifactId" _) as [[a0 s2]|] eqn:Ea; [|discriminate].
  destruct (tagged "version" _) as [[v0 s3]|] eqn:Ev; [|discriminate].
  intros [= <- <- <- <-].
  repeat split; eauto using tagged_spec;
    first [apply (tagged_spec _ _ _ _ Eg) | apply (tagged_spec _ _ _ _ Ea)
          | apply (tagged_spec _ _ _ _ Ev)].
Qed.

Lemma findall_from_spec (s : string) :
  forall skip,
    Forall (fun m : string * string * string =>
              let '(g, a, v) := m in
              group_text g /\ group_text a /\ group_text v)
           (findall_from skip s).
Proof.
  induction s as [|c r IH]; intros skip; [constructor|].
  cbn [findall_from]. destruct skip as [|k]; [|apply IH].
  destruct (artifact_pattern (String c r)) as [[[[g a] v] rest]|] eqn:E;
    [|apply IH].
  constructor; [exact (artifact_pattern_spec _ _ _ _ _ E) | apply IH].
Qed.

(** X18.  Every record of a [pom.xml] has a name made of a group, a colon
    and an artifact, and a version; the three texts are not empty and hold
    no [<]. *)
Theorem maven_records_are_coordinates (content : string)
    (result : list Dependency) :
  _parse_maven_dependencies content = Py.Ok result ->
  forall d, In d result ->
    type d = "maven" /\ is_dev d = false
    /\ exists g a v,
         name d = g ++ ":" ++ a /\ version d = VStr v
         /\ group_text g /\ group_text a /\ group_text v.
Proof.
  unfold _parse_maven_dependencies. intros [= <-] d Hin.
  apply in_map_iff in Hin as ([[g a] v] & <- & Hin).
  pose proof (findall_from_spec content 0) as Hf.
  rewrite Forall_forall in Hf. specialize (Hf _ Hin).
  cbv beta iota zeta in Hf. destruct Hf as (Hg & Ha & Hv).
  split; [reflexivity|]. split; [reflexivity|].
  exists g, a, v. cbn [name version].
  split; [reflexivity|]. split; [reflexivity|]. now split.
Qed.

Definition sample_pom : string :=
  "<dependency>" ++ nl ++ "  <groupId>org.junit</groupId>" ++ nl
  ++ "  <artifactId>junit-bom</artifactId>" ++ nl
  ++ "  <version>5.10.0</version>" ++ nl ++ "</dependency>".

Lemma maven_records_are_coordinates_witness :
  _parse_maven_dependencies sample_pom
  = Py.Ok [{| name := "org.junit:junit-bom"; version := VStr "5.10.0";
              type := "maven"; is_dev := false |}]
  /\ exists g a v,
       "org.junit:junit-bom" = g ++ ":" ++ a /\ VStr "5.10.0" = VStr v
       /\ group_text g /\ group_text a /\ group_text v.
Proof.
  split; [reflexivity|].
  destruct (maven_records_are_coordinates sample_pom _ eq_refl
              {| name := "org.junit:junit-bom"; version := VStr "5.10.0";
                 type := "maven"; is_dev := false |})
    as (_ & _ & H); [now left | exact H].
Defined.

(** ** The two JSON manifests *)

(** The items of a section of the document: none when the key is
    missing, those of the object when it holds one. *)
Definition section (d : list (string * value)) (key : string)
  : option (list (string * value)) :=
  match dict_find d key with
  | None => Some []
  | Some (VDict e) => Some e
  | Some _ => None
  end.

Definition json_record (kind : string) (dev : bool) (nv : string * value)
  : Dependency :=
  {| name := fst nv; version := snd nv; type := kind; is_dev := dev |}.

Lemma json_sections_step (d : list (string * value))
    (kind dev_key dep_type : string) (rest : list string)
    (dependencies : list Dependency) :
  json_sections (VDict d) kind dev_key (dep_type :: rest) dependencies
  = match section d dep_type with
    | Some e =>
        json_sections (VDict d) kind dev_key rest
          (dependencies
           ++ map (json_record kind (String.eqb dep_type dev_key)) e)%list
    | None => Py.Raise Py.AttributeError
    end.
Proof.
  cbn [json_sections py_in Py.bind]. unfold section.
  destruct (dict_find d dep_type) as [v|] eqn:E; cbn [getitem].
  - rewrite E. destruct v; reflexivity.
  - now rewrite app_nil_r.
Qed.

Lemma json_sections_of_dict (d : list (string * value))
    (kind key dev_key : string) :
  String.eqb key dev_key = false ->
  json_sections (VDict d) kind dev_key [key; dev_key] []
  = match section d key, section d dev_key with
    | Some prod, Some dev =>
        Py.Ok (map (json_record kind false) prod
               ++ map (json_record kind true) dev)%list
    | _, _ => Py.Raise Py.AttributeError
    end.
Proof.
  intros Hk. rewrite json_sections_step, Hk.
  destruct (section d key) as [prod|]; [|reflexivity].
  rewrite json_sections_step, String.eqb_refl.
  destruct (section d dev_key) as [dev|]; reflexivity.
Qed.

(** X19.  When [package.json] decodes to an object, the records are those
    of its [dependencies], then those of its [devDependencies], the
    latter marked as development ones; a missing key gives no record, and
    a key that holds something else than an object makes the parser raise
    [AttributeError].  The same holds for [composer.json] with the keys
    [require] and [require-dev]. *)
Theorem json_manifest_records (content : string)
    (d : list (string * value)) :
  json_loads content = Py.Ok (VDict d) ->
  _parse_npm_dependencies content
  = match section d "dependencies", section d "devDependencies" with
    | Some prod, Some dev =>
        Py.Ok (map (json_record "npm" false) prod
               ++ map (json_record "npm" true) dev)%list
    | _, _ => Py.Raise Py.AttributeError
    end
  /\ _parse_composer_dependencies content
     = match section d "require", section d "require-dev" with
       | Some prod, Some dev =>
           Py.Ok (map (json_record "composer" false) prod
                  ++ map (json_record "composer" true) dev)%list
       | _, _ => Py.Raise Py.AttributeError
       end.
Proof.
  intros H. unfold _parse_npm_dependencies, _parse_composer_dependencies.
  rewrite H. cbn [Py.bind].
  split; apply json_sections_of_dict; reflexivity.
Qed.

Definition sample_package_json : string :=
  "{" ++ String DQ "name" ++ String DQ ": " ++ String DQ "app"
  ++ String DQ ", " ++ String DQ "devDependencies" ++ String DQ ": {"
  ++ String DQ "jest" ++ String DQ ": " ++ String DQ "^29.0"
  ++ String DQ "}}".

Lemma json_manifest_records_witness :
  json_loads sample_package_json
  = Py.Ok (VDict [("name", VStr "app");
                  ("devDependencies", VDict [("jest", VStr "^29.0")])])
  /\ _parse_npm_dependencies sample_package_json
     = Py.Ok [{| name := "jest"; version := VStr "^29.0"; type := "npm";
                 is_dev := true |}]
  /\ _parse_composer_dependencies sample_package_json = Py.Ok [].
Proof.
  split; [reflexivity|].
  exact (json_manifest_records sample_package_json _ eq_refl).
Defined.

(** X20.  When [package.json] or [composer.json] decodes to [null], to a
    boolean or to a number, the parser raises [TypeError]: the test
    [dep_type in data] cannot be made. *)
Theorem json_manifest_scalar_raises (content : string) (data : value) :
  json_loads content = Py.Ok data ->
  match data with
  | VNone | VBool _ | VNumber _ => True
  | _ => False
  end ->
  _parse_npm_dependencies content = Py.Raise Py.TypeError
  /\ _parse_composer_dependencies content = Py.Raise Py.TypeError.
Proof.
  intros H Hd. unfold _parse_npm_dependencies, _parse_composer_dependencies.
  rewrite H. destruct data; try easy; now split.
Qed.

Lemma json_manifest_scalar_raises_witness :
  json_loads "null" = Py.Ok VNone
  /\ _parse_npm_dependencies "null" = Py.Raise Py.TypeError
  /\ _parse_composer_dependencies "null" = Py.Raise Py.TypeError.
Proof.
  split; [reflexivity|].
  exact (json_manifest_scalar_raises "null" VNone eq_refl I).
Defined.

End ManifestMore.

(* ================================================================== *)
(** * Well-formed Pipfile and Cargo entries *)
(* ================================================================== *)

Module ManifestRoundTrip.
Import PyStr PyStrFacts Json DependencyAnalyzer ManifestFacts ManifestMore.

(** ** Strings *)

Lemma append_assoc (a b c : string) : (a ++ b) ++ c = a ++ (b ++ c).
Proof. induction a as [|x a IH]; [reflexivity|]. cbn. now rewrite IH. Qed.

Lemma startswith_empty (s : string) : startswith s "" = true.
Proof. now destruct s. Qed.

Lemma free_of_app (p : ascii -> bool) (a b : string) :
  free_of p (a ++ b) = free_of p a && free_of p b.
Proof.
  induction a as [|c a IH]; [reflexivity|]. cbn [append free_of].
  now rewrite IH, andb_assoc.
Qed.

Lemma split_by_free (p : ascii -> bool) (a : string) :
  free_of p a = true -> split_by p a = [a].
Proof.
  induction a as [|c a IH]; [reflexivity|]. cbn [free_of split_by].
  intros H. apply andb_true_iff in H as [Hc Ha].
  apply negb_true_iff in Hc. now rewrite Hc, (IH Ha).
Qed.

Lemma split_by_app (p : ascii -> bool) (a b : string) (c : ascii) :
  free_of p a = true -> p c = true ->
  split_by p (a ++ String c b) = a :: split_by p b.
Proof.
  intros Ha Hc. induction a as [|x a IH]; cbn [append split_by].
  - now rewrite Hc.
  - cbn [free_of] in Ha. apply andb_true_iff in Ha as [Hx Ha].
    apply negb_true_iff in Hx. now rewrite Hx, (IH Ha).
Qed.

Lemma length_lstrip_by (p : ascii -> bool) (s : string) :
  String.length (lstrip_by p s) <= String.length s.
Proof.
  induction s as [|c r IH]; [reflexivity|]. cbn [lstrip_by].
  destruct (p c); cbn [String.length]; lia.
Qed.

(** A text that [lstrip] leaves as it is and that is not empty starts with
    a character that is not stripped. *)
Lemma lstrip_by_fixed_head (p : ascii -> bool) (c : ascii) (r : string) :
  lstrip_by p (String c r) = String c r -> p c = false.
Proof.
  cbn [lstrip_by]. destruct (p c); [|reflexivity]. intros H.
  pose proof (length_lstrip_by p r) as Hl. rewrite H in Hl.
  cbn [String.length] in Hl. lia.
Qed.

Lemma lstrip_by_app (p : ascii -> bool) (a b : string) :
  is_empty a = false -> lstrip_by p a = a -> lstrip_by p (a ++ b) = a ++ b.
Proof.
  destruct a as [|c r]; [discriminate|]. intros _ H.
  cbn [append lstrip_by]. now rewrite (lstrip_by_fixed_head p c r H).
Qed.

Lemma rstrip_by_kept_end (p : ascii -> bool) (x : string) (c : ascii) :
  p c = false -> rstrip_by p (x ++ String c "") = x ++ String c "".
Proof.
  intros Hc. induction x as [|a x IH]; cbn [append rstrip_by].
  - now rewrite Hc.
  - rewrite IH. now destruct x.
Qed.

Lemma rstrip_by_dropped_end (p : ascii -> bool) (x : string) (c : ascii) :
  p c = true -> rstrip_by p (x ++ String c "") = rstrip_by p x.
Proof.
  intros Hc. induction x as [|a x IH]; cbn [append rstrip_by].
  - now rewrite Hc.
  - now rewrite IH.
Qed.

Lemma contains_app (a b : string) (c : ascii) :
  contains (a ++ String c b) (String c "") = true.
Proof.
  induction a as [|x a IH]; cbn [append contains startswith].
  - now rewrite Ascii.eqb_refl, startswith_empty.
  - rewrite IH. apply orb_true_r.
Qed.

(** The text without the character [c]. *)
Fixpoint without (c : ascii) (s : string) : string :=
  match s with
  | "" => ""
  | String a r => if Ascii.eqb c a then without c r else String a (without c r)
  end.

Lemma replace_one_char (c : ascii) (s : string) :
  replace s (String c "") "" = without c s.
Proof.
  unfold replace. cbn [is_empty].
  induction s as [|a r IH]; [reflexivity|].
  cbn [replace_from without startswith String.length Nat.sub].
  rewrite startswith_empty, andb_true_r.
  destruct (Ascii.eqb c a); cbn [append]; now rewrite IH.
Qed.

Lemma without_free (c : ascii) (s : string) :
  free_of (Ascii.eqb c) s = true -> without c s = s.
Proof.
  induction s as [|a r IH]; [reflexivity|]. cbn [free_of without].
  intros H. apply andb_true_iff in H as [Ha Hr].
  apply negb_true_iff in Ha. now rewrite Ha, (IH Hr).
Qed.

Lemma without_app (c : ascii) (a b : string) :
  without c (a ++ b) = without c a ++ without c b.
Proof.
  induction a as [|x a IH]; [reflexivity|]. cbn [append without].
  destruct (Ascii.eqb c x); cbn [append]; now rewrite IH.
Qed.

(** ** One entry *)

(** The line [name = "version"]. *)
Definition entry (nv : string * string) : string :=
  fst nv ++ " = " ++ String DQ (snd nv) ++ String DQ "".

(** A name and a version the two parsers read back as they are: the name
    is not empty, has no white space at its ends, does not start with a
    bracket and has no equals sign; the version has no equals sign and no
    double quote; neither holds a line feed. *)
Definition plain (nv : string * string) : Prop :=
  is_empty (fst nv) = false
  /\ lstrip_by isspace (fst nv) = fst nv
  /\ rstrip_by isspace (fst nv) = fst nv
  /\ startswith (fst nv) "[" = false
  /\ free_of (fun c => Ascii.eqb c "=") (fst nv) = true
  /\ free_of (fun c => Ascii.eqb c "=") (snd nv) = true
  /\ free_of (Ascii.eqb DQ) (snd nv) = true
  /\ free_of (fun c => Ascii.eqb c LF) (fst nv) = true
  /\ free_of (fun c => Ascii.eqb c LF) (snd nv) = true.

Definition quoted (v : string) : string := String DQ v ++ String DQ "".

Lemma entry_shape (n v : string) :
  entry (n, v) = (n ++ " ") ++ String "=" (String " " (quoted v)).
Proof. unfold entry, quoted. cbn [fst snd]. now rewrite append_assoc. Qed.

Lemma strip_quoted (v : string) :
  strip (String " " (quoted v)) = quoted v.
Proof.
  unfold strip, quoted.
  change (String " " (String DQ v ++ String DQ ""))
    with ((String " " (String DQ v)) ++ String DQ "").
  rewrite rstrip_by_kept_end by reflexivity. reflexivity.
Qed.

Lemma unquote_quoted (v : string) :
  free_of (Ascii.eqb DQ) v = true -> unquote (quoted v) = v.
Proof.
  intros Hv. unfold unquote, quoted. rewrite replace_one_char.
  cbn [append without]. rewrite Ascii.eqb_refl, without_app, (without_free _ _ Hv).
  cbn [without]. rewrite Ascii.eqb_refl.
  clear Hv. induction v as [|c v IH]; [reflexivity|]. cbn. now rewrite IH.
Qed.

(** What the two loops compute on the line of a plain entry. *)
Lemma entry_fields (nv : string * string) :
  plain nv ->
  let line := entry nv in
  strip line = line
  /\ startswith line "[" = false
  /\ contains line "=" = true
  /\ split_char "=" line = [fst nv ++ " "; String " " (quoted (snd nv))]
  /\ strip (fst nv ++ " ") = fst nv
  /\ unquote (strip (String " " (quoted (snd nv)))) = snd nv.
Proof.
  destruct nv as [n v]. unfold plain. cbn [fst snd].
  intros (Hne & Hl & Hr & Hb & Hn & Hv & Hq & _ & _). cbv zeta.
  repeat split.
  - unfold strip, entry. cbn [fst snd].
    assert (E : n ++ " = " ++ String DQ v ++ String DQ ""
                = (n ++ " = " ++ String DQ v) ++ String DQ "").
    { now rewrite !append_assoc. }
    rewrite E, rstrip_by_kept_end by reflexivity. rewrite <- E.
    now apply lstrip_by_app.
  - unfold entry. cbn [fst snd]. destruct n as [|c r]; [discriminate|].
    cbn [append startswith] in *.
    rewrite startswith_empty, andb_true_r in *. exact Hb.
  - rewrite entry_shape. apply contains_app.
  - rewrite entry_shape. unfold split_char.
    rewrite split_by_app; [|rewrite free_of_app, Hn; reflexivity
                           | reflexivity].
    f_equal. apply split_by_free. unfold quoted.
    cbn [append free_of]. rewrite free_of_app, Hv. reflexivity.
  - unfold strip. rewrite rstrip_by_dropped_end by reflexivity.
    now rewrite Hr, Hl.
  - rewrite strip_quoted. now apply unquote_quoted.
Qed.

(** ** A text made of lines *)

Definition no_line_feed (line : string) : Prop :=
  free_of (fun c => Ascii.eqb c LF) line = true.

Lemma split_lines_of_concat (line : string) (lines : list string) :
  Forall no_line_feed (line :: lines) ->
  split_char LF (String.concat nl (line :: lines)) = line :: lines.
Proof.
  revert line. induction lines as [|l ls IH]; intros line H.
  - inversion H; subst. now apply split_by_free.
  - inversion H as [|? ? Hline Hrest]; subst.
    change (String.concat nl (line :: l :: ls))
      with (line ++ String LF (String.concat nl (l :: ls))).
    unfold split_char. rewrite split_by_app;
      [|exact Hline | apply Ascii.eqb_refl].
    f_equal. now apply IH.
Qed.

Lemma entry_no_line_feed (nv : string * string) :
  plain nv -> no_line_feed (entry nv).
Proof.
  destruct nv as [n v]. unfold plain, no_line_feed, entry. cbn [fst snd].
  intros (_ & _ & _ & _ & _ & _ & _ & Hn & Hv).
  rewrite free_of_app, Hn. cbn [append free_of].
  rewrite free_of_app, Hv. reflexivity.
Qed.

Lemma entries_no_line_feed (es : list (string * string)) :
  Forall plain es -> Forall no_line_feed (map entry es).
Proof.
  induction 1 as [|nv es Hnv _ IH]; constructor;
    [now apply entry_no_line_feed | exact IH].
Qed.

(** ** Pipfile *)

Definition pipenv_record (dev : bool) (nv : string * string) : Dependency :=
  {| name := fst nv; version := VStr (snd nv); type := "pipenv";
     is_dev := dev |}.

Lemma pipfile_entries (es : list (string * string)) :
  forall current_section rest dependencies,
    Forall plain es ->
    mem current_section ["packages"; "dev-packages"] = true ->
    pipfile_loop (map entry es ++ rest) current_section dependencies
    = pipfile_loop rest current_section
        (dependencies
         ++ map (pipenv_record (String.eqb current_section "dev-packages"))
                es).
Proof.
  induction es as [|nv es IH]; intros sec rest deps Hes Hsec.
  - cbn [map app]. now rewrite app_nil_r.
  - inversion Hes as [|? ? Hnv Hes']; subst.
    destruct (entry_fields nv Hnv) as (Hs & Hb & Hc & Hsp & Hname & Hver).
    cbn [map app pipfile_loop]. rewrite Hs, Hb, Hc, Hsec, Hsp.
    cbn [andb Py.index nth_error Py.bind]. rewrite Hname, Hver.
    rewrite (IH sec rest _ Hes' Hsec), <- app_assoc. reflexivity.
Qed.

Lemma pipfile_header_packages (rest : list string) (current_section : string)
    (dependencies : list Dependency) :
  pipfile_loop ("[packages]" :: rest) current_section dependencies
  = pipfile_loop rest "packages" dependencies.
Proof. reflexivity. Qed.

Lemma pipfile_header_dev_packages (rest : list string)
    (current_section : string) (dependencies : list Dependency) :
  pipfile_loop ("[dev-packages]" :: rest) current_section dependencies
  = pipfile_loop rest "dev-packages" dependencies.
Proof. reflexivity. Qed.

Definition pipfile_text (prod dev : list (string * string)) : string :=
  String.concat nl
    ("[packages]" :: map entry prod ++ "[dev-packages]" :: map entry dev).

(** X21.  A Pipfile written as a [[packages]] section and a
    [[dev-packages]] section of plain entries is read back entry for
    entry: the names and versions as written, in order, the entries of
    the second section marked as development ones. *)
Theorem pipfile_reads_back_plain_entries (prod dev : list (string * string)) :
  Forall plain prod -> Forall plain dev ->
  _parse_pipfile_dependencies (pipfile_text prod dev)
  = Py.Ok (map (pipenv_record false) prod
           ++ map (pipenv_record true) dev)%list.
Proof.
  intros Hp Hd. unfold _parse_pipfile_dependencies, pipfile_text.
  rewrite split_lines_of_concat.
  - rewrite pipfile_header_packages.
    rewrite (pipfile_entries prod "packages" _ [] Hp eq_refl).
    rewrite pipfile_header_dev_packages.
    rewrite <- (app_nil_r (map entry dev)).
    rewrite (pipfile_entries dev "dev-packages" [] _ Hd eq_refl).
    reflexivity.
  - constructor; [reflexivity|]. apply Forall_app. split.
    + now apply entries_no_line_feed.
    + constructor; [reflexivity | now apply entries_no_line_feed].
Qed.

Lemma pipfile_reads_back_plain_entries_witness :
  _parse_pipfile_dependencies
    (pipfile_text [("requests", "*"); ("flask", "2.0")] [("pytest", "7")])
  = Py.Ok [pipenv_record false ("requests", "*");
           pipenv_record false ("flask", "2.0");
           pipenv_record true ("pytest", "7")].
Proof.
  apply (pipfile_reads_back_plain_entries
           [("requests", "*"); ("flask", "2.0")] [("pytest", "7")]);
    repeat constructor.
Defined.

(** ** Cargo *)

Definition cargo_record (nv : string * string) : Dependency :=
  {| name := fst nv; version := VStr (snd nv); type := "cargo";
     is_dev := false |}.

Lemma entry_is_no_header (nv : string * string) :
  plain nv -> String.eqb (entry nv) "[dependencies]" = false.
Proof.
  intros Hnv. destruct (entry_fields nv Hnv) as (_ & Hb & _).
  destruct (String.eqb_spec (entry nv) "[dependencies]") as [E|]; [|easy].
  rewrite E in Hb. discriminate.
Qed.

Lemma cargo_entries (es : list (string * string)) :
  forall in_dependencies rest dependencies,
    Forall plain es ->
    cargo_loop (map entry es ++ rest) in_dependencies dependencies
    = cargo_loop rest in_dependencies
        (dependencies
         ++ (if in_dependencies then map cargo_record es else [])).
Proof.
  induction es as [|nv es IH]; intros ind rest deps Hes.
  - cbn [map app]. destruct ind; now rewrite app_nil_r.
  - inversion Hes as [|? ? Hnv Hes']; subst.
    destruct (entry_fields nv Hnv) as (Hs & Hb & Hc & Hsp & Hname & Hver).
    cbn [map app cargo_loop].
    rewrite Hs, (entry_is_no_header nv Hnv), Hb, Hc.
    cbn [andb negb]. destruct ind; cbn [andb].
    + rewrite Hsp. cbn [Py.index nth_error Py.bind]. rewrite Hname, Hver.
      rewrite (IH true rest _ Hes'), <- app_assoc. reflexivity.
    + apply (IH false rest deps Hes').
Qed.

Lemma cargo_header_dependencies (rest : list string) (in_dependencies : bool)
    (dependencies : list Dependency) :
  cargo_loop ("[dependencies]" :: rest) in_dependencies dependencies
  = cargo_loop rest true dependencies.
Proof. reflexivity. Qed.

Lemma cargo_header_other (rest : list string) (in_dependencies : bool)
    (dependencies : list Dependency) :
  cargo_loop ("[dev-dependencies]" :: rest) in_dependencies dependencies
  = cargo_loop rest false dependencies.
Proof. reflexivity. Qed.

Definition cargo_text (deps dev : list (string * string)) : string :=
  String.concat nl
    ("[dependencies]" :: map entry deps
     ++ "[dev-dependencies]" :: map entry dev).

(** X22.  A Cargo manifest written as a [[dependencies]] section and a
    [[dev-dependencies]] section of plain entries gives the entries of the
    first section, as written and in order, and none of the second: the
    parser leaves the section at the next header. *)
Theorem cargo_reads_dependencies_only (deps dev : list (string * string)) :
  Forall plain deps -> Forall plain dev ->
  _parse_cargo_dependencies (cargo_text deps dev)
  = Py.Ok (map cargo_record deps).
Proof.
  intros Hp Hd. unfold _parse_cargo_dependencies, cargo_text.
  rewrite split_lines_of_concat.
  - rewrite cargo_header_dependencies.
    rewrite (cargo_entries deps true _ [] Hp).
    rewrite cargo_header_other.
    rewrite <- (app_nil_r (map entry dev)).
    rewrite (cargo_entries dev false [] _ Hd), app_nil_r. reflexivity.
  - constructor; [reflexivity|]. apply Forall_app. split.
    + now apply entries_no_line_feed.
    + constructor; [reflexivity | now apply entries_no_line_feed].
Qed.

Lemma cargo_reads_dependencies_only_witness :
  _parse_cargo_dependencies
    (cargo_text [("serde", "1.0"); ("tokio", "1")] [("criterion", "0.5")])
  = Py.Ok [cargo_record ("serde", "1.0"); cargo_record ("tokio", "1")].
Proof.
  apply (cargo_reads_dependencies_only
           [("serde", "1.0"); ("tokio", "1")] [("criterion", "0.5")]);
    repeat constructor.
Defined.

End ManifestRoundTrip.

(* ================================================================== *)
(** * Properties of the client *)
(* ================================================================== *)

Module GitHubAPIClientFacts.
Import PyStr PyStrFacts GitHubAPIClient ComplexityFacts ManifestFacts.
Import ManifestMore ManifestRoundTrip.

Definition is_slash (c : ascii) : bool := Ascii.eqb c "/".

Fixpoint slashes (s : string) : nat :=
  match s with
  | "" => 0
  | String c r => (if is_slash c then 1 else 0) + slashes r
  end.

Lemma slashes_prefix (p : string) :
  forall s, startswith s p = true -> slashes p <= slashes s.
Proof.
  induction p as [|a p IH]; intros s H; [cbn; lia|].
  destruct s as [|b s]; [discriminate|]. cbn [startswith] in H.
  apply andb_true_iff in H as [Hab H]. apply Ascii.eqb_eq in Hab; subst b.
  cbn [slashes]. specialize (IH s H). lia.
Qed.

Lemma no_occurrence_when_few_slashes (old s : string) :
  slashes s < slashes old -> occurrences old s = 0.
Proof.
  induction s as [|c r IH]; intros H; [reflexivity|].
  cbn [occurrences].
  destruct (startswith (String c r) old) eqn:E.
  - apply slashes_prefix in E. lia.
  - apply IH. cbn [slashes] in H. lia.
Qed.

Lemma replace_from_absent (old new : string) (s : string) :
  occurrences old s = 0 -> replace_from old new 0 s = s.
Proof.
  induction s as [|c r IH]; [reflexivity|]. cbn [occurrences replace_from].
  destruct (startswith (String c r) old); [discriminate|].
  intros H. now rewrite IH.
Qed.

Lemma slashes_free (s : string) : free_of is_slash s = true -> slashes s = 0.
Proof.
  induction s as [|c r IH]; [reflexivity|]. cbn [free_of slashes].
  intros H. apply andb_true_iff in H as [Hc Hr].
  apply negb_true_iff in Hc. rewrite Hc, (IH Hr). reflexivity.
Qed.

Lemma slashes_app (a b : string) : slashes (a ++ b) = slashes a + slashes b.
Proof.
  induction a as [|c a IH]; [reflexivity|]. cbn [append slashes].
  rewrite IH. lia.
Qed.

Lemma startswith_app (a s : string) : startswith (a ++ s) a = true.
Proof.
  induction a as [|c a IH]; [apply startswith_empty|].
  cbn [append startswith]. now rewrite Ascii.eqb_refl, IH.
Qed.

Lemma replace_from_skip (old new a s : string) :
  replace_from old new (String.length a) (a ++ s) = replace_from old new 0 s.
Proof.
  induction a as [|c a IH]; [reflexivity|].
  cbn [String.length append replace_from]. exact IH.
Qed.

(** An occurrence at the very start is replaced, and the scan goes on
    after it. *)
Lemma replace_leading (old new s : string) :
  is_empty old = false ->
  replace (old ++ s) old new = new ++ replace_from old new 0 s.
Proof.
  intros Hne. unfold replace. rewrite Hne.
  destruct old as [|c o]; [discriminate|].
  change (String c o ++ s) with (String c (o ++ s)).
  cbn [replace_from].
  change (String c (o ++ s)) with (String c o ++ s).
  rewrite startswith_app. cbn [String.length Nat.sub].
  now rewrite Nat.sub_0_r, replace_from_skip.
Qed.

(** X23.  The address [https://github.com/owner/repo], for an owner and a
    repository name without slash, is parsed into that owner and that
    name. *)
Theorem repo_url_is_parsed (owner repo : string) :
  free_of is_slash owner = true -> free_of is_slash repo = true ->
  _parse_repo_url (github_prefix ++ owner ++ "/" ++ repo)
  = Parsed (owner, repo).
Proof.
  intros Ho Hr. unfold _parse_repo_url.
  assert (E : replace (github_prefix ++ owner ++ "/" ++ repo)
                      github_prefix ""
              = owner ++ "/" ++ repo).
  { rewrite replace_leading by reflexivity. cbn [append].
    apply replace_from_absent, no_occurrence_when_few_slashes.
    rewrite slashes_app, (slashes_free _ Ho).
    cbn [append slashes]. rewrite (slashes_free _ Hr).
    vm_compute. lia. }
  rewrite E. unfold split_char.
  change (owner ++ "/" ++ repo) with (owner ++ String "/" repo).
  rewrite split_by_app; [|exact Ho | reflexivity].
  rewrite (split_by_free (fun c => Ascii.eqb c "/") repo Hr). reflexivity.
Qed.

Lemma repo_url_is_parsed_witness :
  _parse_repo_url "https://github.com/rocq-prover/rocq"
  = Parsed ("rocq-prover", "rocq").
Proof.
  exact (repo_url_is_parsed "rocq-prover" "rocq" eq_refl eq_refl).
Defined.

(** X24.  [_parse_repo_url] raises [ValueError] exactly when the address,
    once the prefix [https://github.com/] is removed from it, holds no
    slash; otherwise it returns the first two fields, whatever follows
    them. *)
Theorem repo_url_error_iff_no_slash (repo_url : string) :
  (_parse_repo_url repo_url = ValueError
   <-> free_of is_slash (replace repo_url github_prefix "") = true)
  /\ (contains (replace repo_url github_prefix "") "/" = true ->
      exists owner repo rest,
        split_char "/" (replace repo_url github_prefix "")
        = owner :: repo :: rest
        /\ _parse_repo_url repo_url = Parsed (owner, repo)).
Proof.
  unfold _parse_repo_url.
  set (s := replace repo_url github_prefix "").
  assert (Hcases : free_of is_slash s = true \/ contains s "/" = true).
  { clearbody s. induction s as [|c r IH]; [now left|].
    cbn [free_of contains startswith]. unfold is_slash at 1.
    destruct (Ascii.eqb_spec c "/") as [->|Hne].
    - right. now rewrite startswith_empty.
    - destruct IH as [IH|IH]; [left; exact IH|right].
      rewrite IH. apply orb_true_r. }
  assert (Hfree : free_of is_slash s = true ->
                  split_char "/" s = [s]).
  { intros H. now apply split_by_free. }
  assert (Htwo : contains s "/" = true ->
                 exists owner repo rest,
                   split_char "/" s = owner :: repo :: rest).
  { intros H. pose proof (split_char_two_fields "/" s H) as Hl.
    destruct (split_char "/" s) as [|a [|b l]]; cbn in Hl; try lia.
    now exists a, b, l. }
  split; [split|].
  - intros H. destruct Hcases as [Hc|Hc]; [exact Hc|].
    destruct (Htwo Hc) as (a & b & l & E). rewrite E in H.
    discriminate H.
  - intros H. now rewrite (Hfree H).
  - intros H. destruct (Htwo H) as (a & b & l & E).
    exists a, b, l. split; [exact E|]. now rewrite E.
Qed.

Lemma repo_url_error_iff_no_slash_witness :
  _parse_repo_url "rocq" = ValueError
  /\ exists owner repo rest,
       split_char "/" (replace "https://github.com/a/b/tree/main"
                               github_prefix "")
       = owner :: repo :: rest
       /\ _parse_repo_url "https://github.com/a/b/tree/main"
          = Parsed (owner, repo).
Proof.
  split.
  - apply (proj1 (repo_url_error_iff_no_slash "rocq")). reflexivity.
  - apply (proj2 (repo_url_error_iff_no_slash
                    "https://github.com/a/b/tree/main")).
    reflexivity.
Defined.

(** ** [fetch_readme] *)

Lemma first_content_spec (fetch_file_content : string -> string)
    (names : list string) :
  match first_content fetch_file_content names with
  | Some content =>
      content <> ""
      /\ exists before name after,
           names = (before ++ name :: after)%list
           /\ (forall n, In n before -> fetch_file_content n = "")
           /\ content = fetch_file_content name
  | None => forall n, In n names -> fetch_file_content n = ""
  end.
Proof.
  induction names as [|name rest IH]; [intros n []|].
  cbn [first_content].
  destruct (fetch_file_content name) as [|c r] eqn:E; cbn [is_empty negb].
  - destruct (first_content fetch_file_content rest) as [content|].
    + destruct IH as (Hc & before & nm & after & -> & Hb & ->).
      split; [exact Hc|]. exists (name :: before), nm, after.
      repeat split. intros n [<-|Hn]; [exact E | now apply Hb].
    + intros n [<-|Hn]; [exact E | now apply IH].
  - split; [discriminate|]. exists [], name, rest.
    repeat split; [intros n [] | now rewrite E].
Qed.

(** X25.  [fetch_readme] never answers with an empty text: it gives the
    content of the first of the five candidate files that has one, in the
    order of the list, and a fixed sentence when none has. *)
Theorem fetch_readme_is_never_empty (fetch_file_content : string -> string) :
  fetch_readme fetch_file_content <> ""
  /\ ((forall n, In n readme_files -> fetch_file_content n = "") ->
      fetch_readme fetch_file_content = "No README file found")
  /\ (forall before name after,
        readme_files = (before ++ name :: after)%list ->
        (forall n, In n before -> fetch_file_content n = "") ->
        fetch_file_content name <> "" ->
        fetch_readme fetch_file_content = fetch_file_content name).
Proof.
  unfold fetch_readme.
  pose proof (first_content_spec fetch_file_content readme_files) as H.
  destruct (first_content fetch_file_content readme_files) as [content|].
  - destruct H as (Hc & before & nm & after & E & Hb & ->).
    split; [exact Hc|]. split.
    + intros Hall. exfalso. apply Hc, Hall. rewrite E.
      apply in_or_app. right. now left.
    + intros before' name' after' E' Hb' Hne.
      (* the two splits of the list are the same one *)
      assert (Hin : In name' before \/ name' = nm \/ In nm before').
      { clear - E E'. rewrite E in E'. clear E.
        revert before' E'. induction before as [|x b IH]; intros b' E'.
        - destruct b' as [|y b']; cbn in E'.
          + injection E' as -> _. right. now left.
          + injection E' as <- _. right. right. now left.
        - destruct b' as [|y b']; cbn in E'.
          + injection E' as <- _. left. now left.
          + injection E' as <- E'. destruct (IH _ E') as [H|[H|H]].
            * left. now right.
            * right. now left.
            * right. right. now right. }
      destruct Hin as [Hin|[->|Hin]].
      * elim Hne. now apply Hb.
      * reflexivity.
      * elim Hc. now apply Hb'.
  - split; [discriminate|]. split; [reflexivity|].
    intros before name after E _ Hne. elim Hne. apply H. rewrite E.
    apply in_or_app. right. now left.
Qed.

Lemma fetch_readme_is_never_empty_witness :
  let fetch := fun n : string =>
                 if String.eqb n "README.rst" then "Title" else "" in
  fetch_readme fetch = "Title"
  /\ fetch_readme (fun _ => "") = "No README file found".
Proof.
  intros fetch. split.
  - apply (proj2 (proj2 (fetch_readme_is_never_empty fetch))
             ["README.md"; "readme.md"] "README.rst"
             ["README.txt"; "README"]);
      [reflexivity | | discriminate].
    intros n [<-|[<-|[]]]; reflexivity.
  - apply (proj1 (proj2 (fetch_readme_is_never_empty (fun _ => "")))).
    reflexivity.
Defined.

End GitHubAPIClientFacts.

(* ================================================================== *)
(** * Properties of the PlantUML encoding *)
(* ================================================================== *)

Module PlantUmlFacts.
Import PyStr PyStrFacts DocumentationGenerator ManifestMore ManifestRoundTrip.
Import GitHubAPIClientFacts.

Local Open Scope Z_scope.

(** ** Bits and arithmetic *)

Lemma land_low_bits (x : Z) (k : Z) :
  0 <= k -> Z.land x (Z.ones k) = x mod 2 ^ k.
Proof. intros Hk. now apply Z.land_ones. Qed.

(** Two numbers without a common bit are joined by adding them. *)
Lemma lor_disjoint (a b k : Z) :
  0 <= k -> 0 <= b < 2 ^ k -> Z.lor (a * 2 ^ k) b = a * 2 ^ k + b.
Proof.
  intros Hk Hb.
  assert (Hz : Z.land (a * 2 ^ k) b = 0).
  { apply Z.bits_inj'. intros n Hn.
    rewrite Z.land_spec, Z.bits_0.
    destruct (Z.lt_ge_cases n k) as [Hlt|Hge].
    - rewrite Z.mul_pow2_bits_low by exact Hlt. reflexivity.
    - rewrite <- (Z.mod_small b (2 ^ k)) by exact Hb.
      rewrite Z.mod_pow2_bits_high by lia. apply andb_false_r. }
  rewrite <- Z.lxor_lor by exact Hz. symmetry.
  apply Z.add_nocarry_lxor. exact Hz.
Qed.

(** The four indices of a chunk, in arithmetic. *)
Definition index1 (b1 : Z) : Z := b1 / 4.
Definition index2 (b1 b2 : Z) : Z := (b1 mod 4) * 16 + b2 / 16.
Definition index3 (b2 b3 : Z) : Z := (b2 mod 16) * 4 + b3 / 64.
Definition index4 (b3 : Z) : Z := b3 mod 64.

Definition is_byte (b : Z) : Prop := 0 <= b < 256.

Lemma encode_indices (b1 b2 b3 : Z) :
  is_byte b1 -> is_byte b2 -> is_byte b3 ->
  Z.land (Z.shiftr b1 2) 63 = index1 b1
  /\ Z.lor (Z.shiftl (Z.land b1 3) 4) (Z.land (Z.shiftr b2 4) 15)
     = index2 b1 b2
  /\ Z.lor (Z.shiftl (Z.land b2 15) 2) (Z.land (Z.shiftr b3 6) 3)
     = index3 b2 b3
  /\ Z.land b3 63 = index4 b3.
Proof.
  unfold is_byte, index1, index2, index3, index4. intros H1 H2 H3.
  change 63 with (Z.ones 6). change 15 with (Z.ones 4).
  change 3 with (Z.ones 2).
  rewrite !land_low_bits, !Z.shiftr_div_pow2, !Z.shiftl_mul_pow2 by lia.
  change (2 ^ 6) with 64. change (2 ^ 4) with 16. change (2 ^ 2) with 4.
  assert (Q1 : 0 <= b1 / 4 < 64)
    by (split; [apply Z.div_pos; lia | apply Z.div_lt_upper_bound; lia]).
  assert (Q2 : 0 <= b2 / 16 < 16)
    by (split; [apply Z.div_pos; lia | apply Z.div_lt_upper_bound; lia]).
  assert (Q3 : 0 <= b3 / 64 < 4)
    by (split; [apply Z.div_pos; lia | apply Z.div_lt_upper_bound; lia]).
  rewrite (Z.mod_small (b1 / 4) 64), (Z.mod_small (b2 / 16) 16),
    (Z.mod_small (b3 / 64) 4) by assumption.
  repeat split.
  - change 16 with (2 ^ 4) at 1. apply lor_disjoint; [lia|].
    change (2 ^ 4) with 16. exact Q2.
  - change 4 with (2 ^ 2) at 1. apply lor_disjoint; [lia|].
    change (2 ^ 2) with 4. exact Q3.
Qed.

Lemma indices_in_range (b1 b2 b3 : Z) :
  is_byte b1 -> is_byte b2 -> is_byte b3 ->
  0 <= index1 b1 < 64 /\ 0 <= index2 b1 b2 < 64
  /\ 0 <= index3 b2 b3 < 64 /\ 0 <= index4 b3 < 64.
Proof.
  unfold is_byte, index1, index2, index3, index4. intros H1 H2 H3.
  pose proof (Z.mod_pos_bound b1 4 ltac:(lia)).
  pose proof (Z.mod_pos_bound b2 16 ltac:(lia)).
  pose proof (Z.mod_pos_bound b3 64 ltac:(lia)).
  assert (0 <= b1 / 4 < 64)
    by (split; [apply Z.div_pos; lia | apply Z.div_lt_upper_bound; lia]).
  assert (0 <= b2 / 16 < 16)
    by (split; [apply Z.div_pos; lia | apply Z.div_lt_upper_bound; lia]).
  assert (0 <= b3 / 64 < 4)
    by (split; [apply Z.div_pos; lia | apply Z.div_lt_upper_bound; lia]).
  lia.
Qed.

Lemma int_of_is_byte (b : Byte.byte) : is_byte (int_of b).
Proof.
  unfold is_byte, int_of. pose proof (Byte.to_N_bounded b). lia.
Qed.

(** ** The alphabet *)

(** The place of a character in the alphabet. *)
Fixpoint place_in (chars : list ascii) (c : ascii) : option Z :=
  match chars with
  | [] => None
  | x :: r =>
      if Ascii.eqb x c then Some 0
      else match place_in r c with
           | Some i => Some (i + 1)
           | None => None
           end
  end.

Definition place (c : ascii) : option Z :=
  place_in (list_ascii_of_string alphabet) c.

Definition letter (i : nat) : ascii :=
  nth i (list_ascii_of_string alphabet) "0"%char.

Lemma alphabet_places :
  forallb (fun i => match place (letter i) with
                    | Some j => Z.eqb j (Z.of_nat i)
                    | None => false
                    end) (seq 0 64) = true.
Proof. vm_compute. reflexivity. Qed.

Lemma alphabet_at_letter (i : Z) :
  0 <= i < 64 ->
  alphabet_at i = Py.Ok (letter (Z.to_nat i))
  /\ place (letter (Z.to_nat i)) = Some i.
Proof.
  intros Hi. split.
  - unfold alphabet_at. destruct (Z.ltb_spec i 0); [lia|].
    destruct (Z.ltb_spec i 0); [lia|].
    unfold Py.index, letter.
    assert (Hlen : (Z.to_nat i < List.length (list_ascii_of_string alphabet))%nat).
    { change (List.length (list_ascii_of_string alphabet)) with 64%nat. lia. }
    rewrite (nth_error_nth' _ "0"%char Hlen). reflexivity.
  - pose proof alphabet_places as H. rewrite forallb_forall in H.
    specialize (H (Z.to_nat i)).
    assert (Hin : In (Z.to_nat i) (seq 0 64)) by (apply in_seq; lia).
    specialize (H Hin).
    destruct (place (letter (Z.to_nat i))) as [j|]; [|discriminate].
    apply Z.eqb_eq in H. f_equal. lia.
Qed.

Lemma encode_chunk_spec (b1 b2 b3 : Z) :
  is_byte b1 -> is_byte b2 -> is_byte b3 ->
  encode_chunk b1 b2 b3
  = Py.Ok (String (letter (Z.to_nat (index1 b1)))
          (String (letter (Z.to_nat (index2 b1 b2)))
          (String (letter (Z.to_nat (index3 b2 b3)))
          (String (letter (Z.to_nat (index4 b3))) "")))).
Proof.
  intros H1 H2 H3. unfold encode_chunk.
  destruct (encode_indices b1 b2 b3 H1 H2 H3) as (-> & -> & -> & ->).
  destruct (indices_in_range b1 b2 b3 H1 H2 H3) as (R1 & R2 & R3 & R4).
  rewrite (proj1 (alphabet_at_letter _ R1)), (proj1 (alphabet_at_letter _ R2)),
    (proj1 (alphabet_at_letter _ R3)), (proj1 (alphabet_at_letter _ R4)).
  reflexivity.
Qed.


Lemma letter_in_alphabet (i : Z) :
  0 <= i < 64 -> mem_char (letter (Z.to_nat i)) alphabet = true.
Proof.
  intros Hi.
  assert (H : forallb (fun n => mem_char (letter n) alphabet) (seq 0 64)
              = true) by (vm_compute; reflexivity).
  rewrite forallb_forall in H. apply H. apply in_seq. lia.
Qed.

(** ** Reading three bytes at a time *)

Lemma chunks_ind (A : Type) (P : list A -> Prop) :
  P [] -> (forall a, P [a]) -> (forall a b, P [a; b]) ->
  (forall a b c rest, P rest -> P (a :: b :: c :: rest)) ->
  forall l, P l.
Proof.
  intros H0 H1 H2 H3.
  assert (H : forall n l, (List.length l <= n)%nat -> P l).
  { induction n as [|n IH]; intros l Hl.
    - destruct l; [exact H0 | cbn in Hl; lia].
    - destruct l as [|a [|b [|c rest]]]; auto.
      apply H3. apply IH. cbn in Hl. lia. }
  intros l. now apply (H (List.length l)).
Qed.

(** Every character of [s] is one of the alphabet. *)
Definition over_alphabet (s : string) : bool :=
  forallb (fun c => mem_char c alphabet) (list_ascii_of_string s).

Lemma over_alphabet_app (a b : string) :
  over_alphabet (a ++ b) = over_alphabet a && over_alphabet b.
Proof.
  unfold over_alphabet. induction a as [|c a IH]; [reflexivity|].
  cbn [append list_ascii_of_string forallb]. now rewrite IH, andb_assoc.
Qed.

Lemma length_app (a b : string) :
  String.length (a ++ b) = (String.length a + String.length b)%nat.
Proof. induction a as [|c a IH]; [reflexivity|]. cbn. now rewrite IH. Qed.

Lemma encode_chunk_shape (b1 b2 b3 : Z) :
  is_byte b1 -> is_byte b2 -> is_byte b3 ->
  exists s, encode_chunk b1 b2 b3 = Py.Ok s
            /\ String.length s = 4%nat /\ over_alphabet s = true.
Proof.
  intros H1 H2 H3. rewrite (encode_chunk_spec _ _ _ H1 H2 H3).
  destruct (indices_in_range b1 b2 b3 H1 H2 H3) as (R1 & R2 & R3 & R4).
  eexists. split; [reflexivity|]. split; [reflexivity|].
  unfold over_alphabet. cbn [list_ascii_of_string forallb].
  now rewrite !letter_in_alphabet by assumption.
Qed.

Lemma append_empty (s : string) : s ++ "" = s.
Proof. induction s as [|c s IH]; [reflexivity|]. cbn. now rewrite IH. Qed.

Lemma zero_is_byte : is_byte 0.
Proof. unfold is_byte. lia. Qed.

(** ** Reading the text back *)

(** The three bytes that four indices stand for. *)
Definition decode_chunk (i1 i2 i3 i4 : Z) : list Z :=
  [i1 * 4 + i2 / 16; (i2 mod 16) * 16 + i3 / 4; (i3 mod 4) * 64 + i4].

Fixpoint decode (s : string) : option (list Z) :=
  match s with
  | "" => Some []
  | String c1 (String c2 (String c3 (String c4 r))) =>
      match place c1, place c2, place c3, place c4, decode r with
      | Some i1, Some i2, Some i3, Some i4, Some t =>
          Some (decode_chunk i1 i2 i3 i4 ++ t)%list
      | _, _, _, _, _ => None
      end
  | _ => None
  end.

Lemma decode_chunk_indices (b1 b2 b3 : Z) :
  is_byte b1 -> is_byte b2 -> is_byte b3 ->
  decode_chunk (index1 b1) (index2 b1 b2) (index3 b2 b3) (index4 b3)
  = [b1; b2; b3].
Proof.
  unfold is_byte, decode_chunk, index1, index2, index3, index4.
  intros H1 H2 H3. repeat f_equal; Z.to_euclidean_division_equations; lia.
Qed.

Lemma decode_encode_chunk (b1 b2 b3 : Z) (s t : string) (bytes : list Z) :
  is_byte b1 -> is_byte b2 -> is_byte b3 ->
  encode_chunk b1 b2 b3 = Py.Ok s -> decode t = Some bytes ->
  decode (s ++ t) = Some (b1 :: b2 :: b3 :: bytes).
Proof.
  intros H1 H2 H3 Hs Ht. rewrite (encode_chunk_spec _ _ _ H1 H2 H3) in Hs.
  injection Hs as <-.
  destruct (indices_in_range b1 b2 b3 H1 H2 H3) as (R1 & R2 & R3 & R4).
  cbn [append decode].
  rewrite (proj2 (alphabet_at_letter _ R1)), (proj2 (alphabet_at_letter _ R2)),
    (proj2 (alphabet_at_letter _ R3)), (proj2 (alphabet_at_letter _ R4)), Ht.
  now rewrite (decode_chunk_indices _ _ _ H1 H2 H3).
Qed.

(** The data filled with zero bytes up to a whole number of chunks. *)
Definition padding (n : nat) : nat := ((3 - n mod 3) mod 3)%nat.

Definition padded (data : list Byte.byte) : list Z :=
  (map int_of data ++ repeat 0 (padding (List.length data)))%list.

Lemma padding_step (n : nat) : padding (3 + n) = padding n.
Proof.
  unfold padding. replace (3 + n)%nat with (n + 1 * 3)%nat by lia.
  now rewrite Nat.Div0.mod_add.
Qed.

Lemma encode_base64_decodes (data : list Byte.byte) :
  exists s, encode_base64 data = Py.Ok s
            /\ String.length s = (4 * ((List.length data + 2) / 3))%nat
            /\ over_alphabet s = true
            /\ decode s = Some (padded data).
Proof.
  induction data as [|a|a b|a b c rest IH] using chunks_ind.
  - exists "". repeat split.
  - cbn [encode_base64].
    destruct (encode_chunk_shape _ _ _ (int_of_is_byte a) zero_is_byte
                zero_is_byte) as (s & Hs & Hl & Ha).
    exists s. repeat split; try assumption.
    rewrite <- (append_empty s).
    apply (decode_encode_chunk _ _ _ s "" []); auto using int_of_is_byte,
      zero_is_byte.
  - cbn [encode_base64].
    destruct (encode_chunk_shape _ _ _ (int_of_is_byte a) (int_of_is_byte b)
                zero_is_byte) as (s & Hs & Hl & Ha).
    exists s. repeat split; try assumption.
    rewrite <- (append_empty s).
    apply (decode_encode_chunk _ _ _ s "" []); auto using int_of_is_byte,
      zero_is_byte.
  - destruct IH as (t & Ht & Hlt & Hat & Hdt).
    destruct (encode_chunk_shape _ _ _ (int_of_is_byte a) (int_of_is_byte b)
                (int_of_is_byte c)) as (s & Hs & Hl & Ha).
    exists (s ++ t). cbn [encode_base64]. rewrite Hs, Ht.
    split; [reflexivity|]. split; [|split].
    + rewrite length_app, Hl, Hlt. cbn [List.length].
      replace (S (S (S (List.length rest))) + 2)%nat
        with (List.length rest + 2 + 1 * 3)%nat by lia.
      rewrite Nat.div_add by lia. lia.
    + now rewrite over_alphabet_app, Ha, Hat.
    + rewrite (decode_encode_chunk _ _ _ s t _ (int_of_is_byte a)
                 (int_of_is_byte b) (int_of_is_byte c) Hs Hdt).
      unfold padded. cbn [List.length map app].
      change (S (S (S (List.length rest))))
        with (3 + List.length rest)%nat.
      now rewrite padding_step.
Qed.

Lemma int_of_injective (a b : Byte.byte) : int_of a = int_of b -> a = b.
Proof.
  unfold int_of. intros H. apply N2Z.inj in H.
  assert (Some a = Some b) as E
    by now rewrite <- (Byte.of_to_N a), <- (Byte.of_to_N b), H.
  now injection E.
Qed.

Lemma map_int_of_injective (d1 d2 : list Byte.byte) :
  map int_of d1 = map int_of d2 -> d1 = d2.
Proof.
  revert d2. induction d1 as [|a d1 IH]; intros [|b d2] H;
    try discriminate; [reflexivity|].
  cbn in H. injection H as Hab Hrest.
  now rewrite (int_of_injective _ _ Hab), (IH _ Hrest).
Qed.

(** ** The text between the marks *)

Lemma split_by_nonempty (p : ascii -> bool) (s : string) :
  split_by p s <> [].
Proof.
  destruct s as [|c r]; cbn [split_by]; [discriminate|].
  destruct (p c); [discriminate|]. destruct (split_by p r); discriminate.
Qed.

Lemma split_by_snoc (p : ascii -> bool) (b l : string) (c : ascii) :
  p c = true -> free_of p l = true ->
  split_by p (b ++ String c l) = (split_by p b ++ [l])%list.
Proof.
  intros Hc Hl. induction b as [|x r IH]; cbn [append split_by].
  - now rewrite Hc, (split_by_free p l Hl).
  - rewrite IH. destruct (p x); [reflexivity|].
    pose proof (split_by_nonempty p r) as Hne.
    destruct (split_by p r) as [|h t]; [contradiction|]. reflexivity.
Qed.

Lemma join_split (s : string) : join_lines (split_char LF s) = s.
Proof.
  unfold join_lines, split_char.
  induction s as [|x r IH]; [reflexivity|]. cbn [split_by].
  pose proof (split_by_nonempty (fun c => Ascii.eqb c LF) r) as Hne.
  destruct (split_by (fun c => Ascii.eqb c LF) r) as [|h t] eqn:E;
    [contradiction|].
  destruct (Ascii.eqb x LF) eqn:Hx.
  - apply Ascii.eqb_eq in Hx. subst x.
    change (String.concat nl ("" :: h :: t))
      with (String LF (String.concat nl (h :: t))).
    now rewrite IH.
  - destruct t as [|h' t'].
    + cbn [String.concat] in *. now rewrite IH.
    + change (String.concat nl (String x h :: h' :: t'))
        with (String x (String.concat nl (h :: h' :: t'))).
      now rewrite IH.
Qed.


(** X26. A diagram that starts with the opening mark loses its first and
    its last line, whatever the last line is, and the text between them is
    kept unchanged: for a stripped text made of a first line that starts
    with the mark, a body and a last line, [payload] is the body. *)
Theorem payload_is_the_text_between_first_and_last_line
    (title body last : string) :
  no_line_feed title -> no_line_feed last ->
  strip ("@startuml" ++ title ++ nl ++ body ++ nl ++ last)
  = "@startuml" ++ title ++ nl ++ body ++ nl ++ last ->
  payload ("@startuml" ++ title ++ nl ++ body ++ nl ++ last) = body.
Proof.
  intros Ht Hl Hs. unfold payload. rewrite Hs.
  change (startswith ("@startuml" ++ title ++ nl ++ body ++ nl ++ last)
            "@startuml")
    with (startswith ("@startuml" ++ (title ++ nl ++ body ++ nl ++ last))
            "@startuml").
  rewrite startswith_app.
  change ("@startuml" ++ title ++ nl ++ body ++ nl ++ last)
    with ("@startuml" ++ (title ++ String LF (body ++ String LF last))).
  rewrite <- append_assoc. unfold split_char.
  rewrite split_by_app; [| | apply Ascii.eqb_refl].
  - rewrite split_by_snoc; [| apply Ascii.eqb_refl | exact Hl].
    unfold inner. cbn [tl]. rewrite removelast_last. apply join_split.
  - rewrite free_of_app. unfold no_line_feed in Ht. now rewrite Ht.
Qed.

Lemma payload_is_the_text_between_first_and_last_line_witness :
  payload ("@startuml" ++ "" ++ nl ++ "A -> B" ++ nl ++ "@enduml") = "A -> B".
Proof.
  apply (payload_is_the_text_between_first_and_last_line "" "A -> B"
           "@enduml"); reflexivity.
Defined.

(** X27. [encode_base64] never fails: for every sequence of bytes it
    returns a text of four characters for each started chunk of three
    bytes, all of them characters of the alphabet.  So [encode_plantuml]
    returns such a text whatever the compressor produces. *)
Theorem encode_base64_returns_text_over_the_alphabet :
  (forall data : list Byte.byte,
     exists s, encode_base64 data = Py.Ok s
               /\ String.length s = (4 * ((List.length data + 2) / 3))%nat
               /\ over_alphabet s = true)
  /\ (forall (zlib_compress : list Byte.byte -> list Byte.byte)
             (plantuml_text : string),
        exists s, encode_plantuml zlib_compress plantuml_text = Py.Ok s
                  /\ over_alphabet s = true).
Proof.
  split.
  - intros data.
    destruct (encode_base64_decodes data) as (s & Hs & Hl & Ha & _).
    now exists s.
  - intros zlib_compress plantuml_text. unfold encode_plantuml.
    destruct (encode_base64_decodes
                (zlib_compress (encode_utf8 (payload plantuml_text))))
      as (s & Hs & _ & Ha & _).
    now exists s.
Qed.

(** X28. The encoding loses nothing but the length: two sequences of
    bytes of the same length with the same encoding are equal. *)
Theorem encode_base64_is_injective_at_equal_length
    (d1 d2 : list Byte.byte) :
  List.length d1 = List.length d2 ->
  encode_base64 d1 = encode_base64 d2 -> d1 = d2.
Proof.
  intros Hlen Henc.
  destruct (encode_base64_decodes d1) as (s1 & Hs1 & _ & _ & Hd1).
  destruct (encode_base64_decodes d2) as (s2 & Hs2 & _ & _ & Hd2).
  rewrite Hs1, Hs2 in Henc. injection Henc as <-.
  rewrite Hd1 in Hd2. injection Hd2 as Hp. unfold padded in Hp.
  rewrite Hlen in Hp. apply app_inv_tail in Hp.
  now apply map_int_of_injective.
Qed.

Lemma encode_base64_is_injective_at_equal_length_witness :
  [Byte.x01; Byte.x02] = [Byte.x01; Byte.x02].
Proof.
  apply (encode_base64_is_injective_at_equal_length
           [Byte.x01; Byte.x02] [Byte.x01; Byte.x02]); reflexivity.
Defined.

(** X29. The last chunk is filled with zero bytes and no mark of the
    filling is written, so a zero byte at the end of data that does not
    fill its last chunk is not seen in the text. *)
Theorem encode_base64_hides_a_trailing_zero_byte (data : list Byte.byte) :
  (List.length data mod 3 <> 0)%nat ->
  encode_base64 (data ++ [Byte.x00]) = encode_base64 data.
Proof.
  induction data as [|a|a b|a b c rest IH] using chunks_ind; intros Hn.
  - now contradiction Hn.
  - reflexivity.
  - cbn [app encode_base64].
    destruct (encode_chunk_shape _ _ _ (int_of_is_byte a) (int_of_is_byte b)
                zero_is_byte) as (s & Hs & _).
    change (int_of Byte.x00) with 0. rewrite Hs. cbn [Py.bind].
    now rewrite append_empty.
  - change ((a :: b :: c :: rest) ++ [Byte.x00])%list
      with (a :: b :: c :: (rest ++ [Byte.x00]))%list.
    cbn [encode_base64]. rewrite IH; [reflexivity|].
    cbn [List.length] in Hn.
    change (S (S (S (List.length rest)))) with (3 + List.length rest)%nat
      in Hn.
    replace (3 + List.length rest)%nat
      with (List.length rest + 1 * 3)%nat in Hn by lia.
    now rewrite Nat.Div0.mod_add in Hn.
Qed.

Lemma encode_base64_hides_a_trailing_zero_byte_witness :
  encode_base64 ([Byte.x78; Byte.x9c] ++ [Byte.x00])
  = encode_base64 [Byte.x78; Byte.x9c].
Proof.
  apply (encode_base64_hides_a_trailing_zero_byte [Byte.x78; Byte.x9c]).
  cbn. lia.
Defined.

End PlantUmlFacts.

(* ================================================================== *)
(** * What the manifest parsers ignore and what they record *)
(* ================================================================== *)

Module ManifestLines.
Import PyStr PyStrFacts Json DependencyAnalyzer.
Import ManifestFacts ManifestMore ManifestRoundTrip.

(** ** The test each line parser makes on a line *)

(** [requirements.txt]: [line and not line.startswith('#')]. *)
Definition pip_selects (line0 : string) : bool :=
  negb (is_empty (strip line0)) && negb (startswith (strip line0) "#").

(** [Pipfile]: the line is a header, or holds an equals sign. *)
Definition pipfile_selects (line0 : string) : bool :=
  (startswith (strip line0) "[" && endswith (strip line0) "]")
  || contains (strip line0) "=".

(** [Cargo.toml]: the line starts with a bracket, or holds an equals
    sign. *)
Definition cargo_selects (line0 : string) : bool :=
  startswith (strip line0) "[" || contains (strip line0) "=".

(** [go.mod]: the line is a candidate and has two fields at least. *)
Definition go_selects (line0 : string) : bool :=
  let line := strip line0 in
  (contains line "require"
   || (contains line " v" && negb (startswith line "module")
       && negb (startswith line "go ")))
  && (2 <=? List.length (split_ws (strip (replace line "require" "")))).

(** The text without the lines that a test rejects. *)
Definition selected_lines (selects : string -> bool) (content : string)
  : string :=
  String.concat nl (filter selects (split_char LF content)).

(** ** Lines of a text *)

Lemma split_by_fields_free (p : ascii -> bool) (s : string) :
  Forall (fun field => free_of p field = true) (split_by p s).
Proof.
  induction s as [|c r IH]; cbn [split_by].
  - now repeat constructor.
  - destruct (p c) eqn:E; [now constructor|].
    destruct (split_by p r) as [|h t]; [now repeat constructor; cbn; rewrite E|].
    inversion IH; subst. constructor; [|assumption].
    cbn [free_of]. now rewrite E.
Qed.

Lemma lines_have_no_line_feed (content : string) :
  Forall no_line_feed (split_char LF content).
Proof. apply split_by_fields_free. Qed.

Lemma filter_keeps_Forall {A : Type} (P : A -> Prop) (f : A -> bool)
    (l : list A) :
  Forall P l -> Forall P (filter f l).
Proof.
  induction 1 as [|x l Hx Hl IH]; cbn [filter]; [constructor|].
  destruct (f x); [now constructor | exact IH].
Qed.

(** The lines of a text made of lines: the lines themselves, and one
    empty line when there is none. *)
Lemma split_joined_lines (lines : list string) :
  Forall no_line_feed lines ->
  split_char LF (String.concat nl lines)
  = match lines with [] => [""] | _ => lines end.
Proof.
  destruct lines as [|line rest]; [reflexivity|].
  apply split_lines_of_concat.
Qed.

(** ** A rejected line changes nothing *)

Lemma pip_loop_selected (lines : list string) :
  forall dependencies,
    pip_loop (filter pip_selects lines) dependencies
    = pip_loop lines dependencies.
Proof.
  induction lines as [|line0 rest IH]; intros deps; [reflexivity|].
  cbn [filter]. unfold pip_selects at 1.
  destruct (negb (is_empty (strip line0))
            && negb (startswith (strip line0) "#")) eqn:E;
    cbn [pip_loop]; rewrite E; [|apply IH].
  destruct (Py.index (split_by is_operator (strip line0)) 0);
    cbn [Py.bind]; [apply IH | reflexivity].
Qed.

Lemma pipfile_loop_selected (lines : list string) :
  forall current_section dependencies,
    pipfile_loop (filter pipfile_selects lines) current_section dependencies
    = pipfile_loop lines current_section dependencies.
Proof.
  induction lines as [|line0 rest IH]; intros sec deps; [reflexivity|].
  cbn [filter]. unfold pipfile_selects at 1.
  destruct (startswith (strip line0) "[" && endswith (strip line0) "]")
    eqn:Eh; cbn [orb].
  - cbn [pipfile_loop]. rewrite Eh. apply IH.
  - destruct (contains (strip line0) "=") eqn:Ec; cbn [pipfile_loop];
      rewrite Eh, Ec; cbn [andb]; [|apply IH].
    destruct (mem sec ["packages"; "dev-packages"]); [|apply IH].
    destruct (Py.index (split_char "=" (strip line0)) 0);
      cbn [Py.bind]; [|reflexivity].
    destruct (Py.index (split_char "=" (strip line0)) 1);
      cbn [Py.bind]; [apply IH | reflexivity].
Qed.

Lemma cargo_loop_selected (lines : list string) :
  forall in_dependencies dependencies,
    cargo_loop (filter cargo_selects lines) in_dependencies dependencies
    = cargo_loop lines in_dependencies dependencies.
Proof.
  induction lines as [|line0 rest IH]; intros ind deps; [reflexivity|].
  cbn [filter]. unfold cargo_selects at 1.
  destruct (startswith (strip line0) "[") eqn:Eb; cbn [orb].
  - cbn [cargo_loop]. rewrite Eb.
    destruct (String.eqb (strip line0) "[dependencies]"); [apply IH|].
    cbn [negb andb]. apply IH.
  - assert (En : String.eqb (strip line0) "[dependencies]" = false).
    { destruct (String.eqb_spec (strip line0) "[dependencies]") as [E|];
        [|reflexivity]. rewrite E in Eb. discriminate Eb. }
    destruct (contains (strip line0) "=") eqn:Ec; cbn [cargo_loop];
      rewrite En, Eb, Ec; cbn [andb]; [|rewrite andb_false_r; apply IH].
    destruct ind; cbn [andb]; [|apply IH].
    destruct (Py.index (split_char "=" (strip line0)) 0);
      cbn [Py.bind]; [|reflexivity].
    destruct (Py.index (split_char "=" (strip line0)) 1);
      cbn [Py.bind]; [apply IH | reflexivity].
Qed.

Lemma go_loop_selected (lines : list string) :
  forall dependencies,
    go_loop (filter go_selects lines) dependencies
    = go_loop lines dependencies.
Proof.
  induction lines as [|line0 rest IH]; intros deps; [reflexivity|].
  cbn [filter]. unfold go_selects at 1. cbv zeta.
  destruct (contains (strip line0) "require"
            || contains (strip line0) " v"
               && negb (startswith (strip line0) "module")
               && negb (startswith (strip line0) "go ")) eqn:Ec;
    cbn [andb].
  - destruct (2 <=? List.length
                      (split_ws (strip (replace (strip line0) "require" ""))))
      eqn:El; cbn [go_loop]; rewrite Ec, El; [|apply IH].
    destruct (Py.index
                (split_ws (strip (replace (strip line0) "require" ""))) 0);
      cbn [Py.bind]; [|reflexivity].
    destruct (Py.index
                (split_ws (strip (replace (strip line0) "require" ""))) 1);
      cbn [Py.bind]; [apply IH | reflexivity].
  - cbn [go_loop]. rewrite Ec. apply IH.
Qed.

(** Every line that the test of [requirements.txt] selects gives one
    record. *)
Lemma pip_loop_length (lines : list string) :
  forall dependencies result,
    pip_loop lines dependencies = Py.Ok result ->
    List.length result
    = List.length dependencies + List.length (filter pip_selects lines).
Proof.
  induction lines as [|line0 rest IH]; intros deps result H.
  - cbn in H. injection H as <-. cbn. lia.
  - cbn [pip_loop] in H. cbn [filter]. unfold pip_selects at 1.
    destruct (negb (is_empty (strip line0))
              && negb (startswith (strip line0) "#")).
    + destruct (index_0_split_by is_operator (strip line0)) as [h Hh].
      rewrite Hh in H. cbn [Py.bind] in H.
      rewrite (IH _ _ H), length_app. cbn [List.length]. lia.
    + exact (IH _ _ H).
Qed.

(** ** The whole text *)

Lemma pip_selected_lines (content : string) :
  _parse_pip_dependencies (selected_lines pip_selects content)
  = _parse_pip_dependencies content.
Proof.
  unfold _parse_pip_dependencies, selected_lines.
  rewrite split_joined_lines
    by apply filter_keeps_Forall, lines_have_no_line_feed.
  rewrite <- (pip_loop_selected (split_char LF content)).
  now destruct (filter pip_selects (split_char LF content)).
Qed.

Lemma pipfile_selected_lines (content : string) :
  _parse_pipfile_dependencies (selected_lines pipfile_selects content)
  = _parse_pipfile_dependencies content.
Proof.
  unfold _parse_pipfile_dependencies, selected_lines.
  rewrite split_joined_lines
    by apply filter_keeps_Forall, lines_have_no_line_feed.
  rewrite <- (pipfile_loop_selected (split_char LF content)).
  now destruct (filter pipfile_selects (split_char LF content)).
Qed.

Lemma cargo_selected_lines (content : string) :
  _parse_cargo_dependencies (selected_lines cargo_selects content)
  = _parse_cargo_dependencies content.
Proof.
  unfold _parse_cargo_dependencies, selected_lines.
  rewrite split_joined_lines
    by apply filter_keeps_Forall, lines_have_no_line_feed.
  rewrite <- (cargo_loop_selected (split_char LF content)).
  now destruct (filter cargo_selects (split_char LF content)).
Qed.

Lemma go_selected_lines (content : string) :
  _parse_go_dependencies (selected_lines go_selects content)
  = _parse_go_dependencies content.
Proof.
  unfold _parse_go_dependencies, selected_lines.
  rewrite split_joined_lines
    by apply filter_keeps_Forall, lines_have_no_line_feed.
  rewrite <- (go_loop_selected (split_char LF content)).
  now destruct (filter go_selects (split_char LF content)).
Qed.

(** A text in which [<groupId>] does not occur has no match. *)
Lemma findall_without_group (s : string) :
  forall skip, contains s "<groupId>" = false -> findall_from skip s = [].
Proof.
  induction s as [|c r IH]; intros skip H; [reflexivity|].
  cbn [contains] in H. apply orb_false_iff in H as [Hs Hr].
  cbn [findall_from]. destruct skip as [|k]; [|now apply IH].
  unfold artifact_pattern, tagged, literal.
  change ("<" ++ "groupId" ++ ">") with "<groupId>". rewrite Hs.
  now apply IH.
Qed.


(** ** The claim and what the code does *)

(** An option line of a requirements list: no requirement. *)
Definition option_line : string := "--index-url https://pypi.org/simple".

(** A Pipfile entry without a name and without a version. *)
Definition nameless_entry : string := "[packages]" ++ nl ++ "= = =".

(** A Pipfile whose second header is not closed. *)
Definition unclosed_header : string :=
  "[packages]" ++ nl ++ "a = 1" ++ nl ++ "[dev-packages" ++ nl ++ "b = 2".

(** A Cargo manifest whose second header is not opened. *)
Definition unopened_header : string :=
  "[dependencies]" ++ nl ++ "a = 1" ++ nl ++ "dev-dependencies]" ++ nl
  ++ "b = 2".

(** A parser ignores a text when it gives no record for it. *)
Definition ignores (parser : string -> Py.result (list Dependency))
    (text : string) : Prop :=
  parser text = Py.Ok [].

(** C4, counterexample.  The claim fails in its three parts.  On a
    [package.json] that is not JSON, [json.loads] raises and
    [_parse_npm_dependencies] lets the exception through.  An entry that
    does not match the format is not always ignored: the option line of a
    requirements list is recorded as a package of that name, and a Pipfile
    line made of equals signs as a package without name.  A malformed
    section does not always give zero records: the entry below a header
    that is not closed (Pipfile) or not opened (Cargo) is recorded as an
    entry of the section above. *)
Lemma parsers_raise_and_record_malformed_entries :
  (_parse_npm_dependencies single_quoted_manifest
   = Py.Raise Py.JSONDecodeError
   /\ ~ every_parser_returns)
  /\ (_parse_pip_dependencies option_line
      = Py.Ok [{| name := option_line; version := VStr "*"; type := "pip";
                  is_dev := false |}]
      /\ ~ ignores _parse_pip_dependencies option_line)
  /\ (_parse_pipfile_dependencies nameless_entry
      = Py.Ok [{| name := ""; version := VStr ""; type := "pipenv";
                  is_dev := false |}]
      /\ ~ ignores _parse_pipfile_dependencies nameless_entry)
  /\ _parse_pipfile_dependencies unclosed_header
     = Py.Ok [{| name := "a"; version := VStr "1"; type := "pipenv";
                 is_dev := false |};
              {| name := "b"; version := VStr "2"; type := "pipenv";
                 is_dev := false |}]
  /\ _parse_cargo_dependencies unopened_header
     = Py.Ok [{| name := "a"; version := VStr "1"; type := "cargo";
                 is_dev := false |};
              {| name := "b"; version := VStr "2"; type := "cargo";
                 is_dev := false |}].
Proof.
  split; [|split; [|split; [|split]]].
  - split; [reflexivity|]. intros H.
    destruct (H single_quoted_manifest "package.json"
                _parse_npm_dependencies) as [deps Hdeps]; [now left|].
    discriminate Hdeps.
  - split; [reflexivity | discriminate].
  - split; [reflexivity | discriminate].
  - reflexivity.
  - reflexivity.
Qed.

(** C4, amended.  On every text the parsers of [requirements.txt],
    [Pipfile], [Cargo.toml], [go.mod] and [pom.xml] return a list of
    records.  The parsers of [package.json] and [composer.json] raise what
    [json.loads] raises; [analyze_repository] catches what a parser raises
    and that manifest adds no record.  What a line parser ignores is the
    lines that its own test rejects: taking them out of the text leaves the
    result as it is.  For [requirements.txt] these are the blank lines and
    the comments, and every other line gives one record; for [Pipfile] the
    lines that are no header and hold no equals sign; for [Cargo.toml] the
    lines that start with no bracket and hold no equals sign; for [go.mod]
    the lines that are no candidate or have fewer than two fields.  A
    [pom.xml] in which [<groupId>] does not occur gives no record.  A
    Pipfile with no [[packages]] or [[dev-packages]] header line and a
    Cargo manifest with no [[dependencies]] header line give no record. *)
Theorem parsers_return_and_ignore_rejected_lines (content : string) :
  (Py.returns (_parse_pip_dependencies content)
   /\ Py.returns (_parse_pipfile_dependencies content)
   /\ Py.returns (_parse_cargo_dependencies content)
   /\ Py.returns (_parse_go_dependencies content)
   /\ Py.returns (_parse_maven_dependencies content))
  /\ (forall e, json_loads content = Py.Raise e ->
                _parse_npm_dependencies content = Py.Raise e
                /\ _parse_composer_dependencies content = Py.Raise e)
  /\ (forall file_name parser e,
        In (file_name, parser) package_managers ->
        parser content = Py.Raise e -> contribution parser content = [])
  /\ (_parse_pip_dependencies (selected_lines pip_selects content)
      = _parse_pip_dependencies content
      /\ exists result,
           _parse_pip_dependencies content = Py.Ok result
           /\ List.length result
              = List.length (filter pip_selects (split_char LF content)))
  /\ _parse_pipfile_dependencies (selected_lines pipfile_selects content)
     = _parse_pipfile_dependencies content
  /\ _parse_cargo_dependencies (selected_lines cargo_selects content)
     = _parse_cargo_dependencies content
  /\ _parse_go_dependencies (selected_lines go_selects content)
     = _parse_go_dependencies content
  /\ (contains content "<groupId>" = false ->
      _parse_maven_dependencies content = Py.Ok [])
  /\ ((forall line, In line (split_char LF content) ->
                    strip line <> "[packages]"
                    /\ strip line <> "[dev-packages]") ->
      _parse_pipfile_dependencies content = Py.Ok [])
  /\ ((forall line, In line (split_char LF content) ->
                    strip line <> "[dependencies]") ->
      _parse_cargo_dependencies content = Py.Ok []).
Proof.
  split; [|split; [|split; [|split; [|split; [|split; [|split;
    [|split; [|split]]]]]]]].
  - repeat split; [apply pip_returns | apply pipfile_returns
                   | apply cargo_returns | apply go_returns
                   | apply maven_returns].
  - apply json_parsers_raise.
  - intros file_name parser e _. apply raise_contributes_nothing.
  - split; [apply pip_selected_lines|].
    destruct (pip_returns content) as [result Hr]. exists result.
    split; [exact Hr|]. unfold _parse_pip_dependencies in Hr.
    now rewrite (pip_loop_length _ _ _ Hr).
  - apply pipfile_selected_lines.
  - apply cargo_selected_lines.
  - apply go_selected_lines.
  - intros H. unfold _parse_maven_dependencies.
    now rewrite (findall_without_group content 0 H).
  - intros H. now apply pipfile_loop_no_header.
  - intros H. now apply cargo_loop_no_header.
Qed.

(** A [go.mod] with a comment and a declaration that has one field. *)
Definition commented_go_mod : string :=
  "module app" ++ nl ++ "// tools" ++ nl ++ "require" ++ nl
  ++ "require github.com/pkg/errors v0.9.1".

Lemma parsers_return_and_ignore_rejected_lines_witness :
  (json_loads single_quoted_manifest = Py.Raise Py.JSONDecodeError
   /\ _parse_npm_dependencies single_quoted_manifest
      = Py.Raise Py.JSONDecodeError
   /\ contribution _parse_npm_dependencies single_quoted_manifest = []
   /\ _parse_maven_dependencies single_quoted_manifest = Py.Ok []
   /\ _parse_pipfile_dependencies single_quoted_manifest = Py.Ok []
   /\ _parse_cargo_dependencies single_quoted_manifest = Py.Ok [])
  /\ (selected_lines go_selects commented_go_mod
      = "require github.com/pkg/errors v0.9.1"
      /\ _parse_go_dependencies "require github.com/pkg/errors v0.9.1"
         = _parse_go_dependencies commented_go_mod).
Proof.
  split.
  - pose proof (parsers_return_and_ignore_rejected_lines
                  single_quoted_manifest)
      as (_ & Hjson & Hcatch & _ & _ & _ & _ & Hmaven & Hpip & Hcargo).
    split; [reflexivity|].
    split; [exact (proj1 (Hjson Py.JSONDecodeError eq_refl))|].
    split; [exact (Hcatch "package.json" _parse_npm_dependencies
                     Py.JSONDecodeError (or_introl eq_refl) eq_refl)|].
    split; [apply Hmaven; reflexivity|].
    split.
    + apply Hpip. intros line [<-|[]]. split; vm_compute; discriminate.
    + apply Hcargo. intros line [<-|[]]. vm_compute; discriminate.
  - split; [reflexivity|].
    exact (proj1 (proj2 (proj2 (proj2 (proj2 (proj2 (proj2
             (parsers_return_and_ignore_rejected_lines
                commented_go_mod)))))))).
Defined.

End ManifestLines.
